(** * Android call log converter: decoding and CSV rendering

    A shallow embedding of [calllog_exporter.py]: the enumerations and flag
    sets, the [PhoneCall] record with its [from_json] decoder, [csv_row] and
    the row loop of [convert_to_csv], together with the Python built-ins
    these rely on ([int], [str] methods, [datetime], [timedelta], [enum]).

    Conventions.
    - Python [str] values are Rocq strings; the texts handled here are ASCII.
    - Python [int] is [Z].
    - A Python [dict] with string keys is a [gmap string _]; [from_json]
      mutates the dictionaries it is given, so the objects live in a store
      and the decoder threads that store.
    - An exception is a value of [exn]; a call that may raise returns a
      [result]. Text printed to standard output is collected in a list. *)

From Stdlib Require Import ZArith String Ascii List Bool Lia.
From Stdlib Require Import Decimal DecimalString DecimalZ Sorted.
From stdpp Require Import gmap strings list fin_maps.

Local Open Scope string_scope.
Local Open Scope Z_scope.

(** ** Python strings *)

Module PyStr.

Definition is_upper (c : ascii) : bool :=
  let n := nat_of_ascii c in (65 <=? n)%nat && (n <=? 90)%nat.

Definition is_lower (c : ascii) : bool :=
  let n := nat_of_ascii c in (97 <=? n)%nat && (n <=? 122)%nat.

Definition is_digit (c : ascii) : bool :=
  let n := nat_of_ascii c in (48 <=? n)%nat && (n <=? 57)%nat.

(** The white space [int] skips around the digits of an ASCII text:
    space and [\t \n \v \f \r]. *)
Definition is_space (c : ascii) : bool :=
  let n := nat_of_ascii c in
  (n =? 32)%nat || ((9 <=? n)%nat && (n <=? 13)%nat).

Definition upper_char (c : ascii) : ascii :=
  if is_lower c then ascii_of_nat (nat_of_ascii c - 32) else c.

Definition lower_char (c : ascii) : ascii :=
  if is_upper c then ascii_of_nat (nat_of_ascii c + 32) else c.

Fixpoint lower (s : string) : string :=
  match s with
  | EmptyString => EmptyString
  | String c r => String (lower_char c) (lower r)
  end.

(** [s.capitalize()]: first character upper case, the rest lower case. *)
Definition capitalize (s : string) : string :=
  match s with
  | EmptyString => EmptyString
  | String c r => String (upper_char c) (lower r)
  end.

(** [s.split(sep)] for a one-character separator: every occurrence
    splits, empty pieces are kept, and the empty string gives [['']]. *)
Fixpoint split (sep : ascii) (s : string) : list string :=
  match s with
  | EmptyString => [EmptyString]
  | String c r =>
      if Ascii.eqb c sep then EmptyString :: split sep r
      else match split sep r with
           | [] => [String c EmptyString]
           | w :: ws => String c w :: ws
           end
  end.

(** [sep.join(l)]. *)
Definition join (sep : string) (l : list string) : string :=
  String.concat sep l.

Fixpoint drop (n : nat) (s : string) : string :=
  match n, s with
  | O, _ => s
  | S _, EmptyString => EmptyString
  | S k, String _ r => drop k r
  end.

(** [s.replace(old, new)] for a non-empty [old]: occurrences are
    replaced from the left and do not overlap. [skip] counts the
    characters of a just-matched [old] that remain to be dropped. *)
Fixpoint replace_from (old new : string) (skip : nat) (s : string) : string :=
  match s with
  | EmptyString => EmptyString
  | String c r =>
      match skip with
      | S k => replace_from old new k r
      | O =>
          if String.prefix old s
          then new ++ replace_from old new (String.length old - 1) r
          else String c (replace_from old new 0 r)
      end
  end.

Definition replace (old new s : string) : string :=
  replace_from old new 0 s.

Fixpoint repeat_char (c : ascii) (n : nat) : string :=
  match n with
  | O => EmptyString
  | S k => String c (repeat_char c k)
  end.

(** [s.rjust(width, fill)]. *)
Definition rjust (width : nat) (fill : ascii) (s : string) : string :=
  repeat_char fill (width - String.length s) ++ s.

(** [str(n)] for an [int]. *)
Definition of_Z (n : Z) : string :=
  NilZero.string_of_int (Z.to_int n).

(** ["%02d" % n] and ["%06d" % n] for a non-negative [n]. *)
Definition zero_pad (width : nat) (n : Z) : string :=
  rjust width "0" (of_Z n).

Fixpoint lstrip (s : string) : string :=
  match s with
  | String c r => if is_space c then lstrip r else s
  | EmptyString => EmptyString
  end.

Fixpoint rstrip (s : string) : string :=
  match s with
  | EmptyString => EmptyString
  | String c r =>
      match rstrip r with
      | EmptyString => if is_space c then EmptyString else String c EmptyString
      | r' => String c r'
      end
  end.

Definition strip (s : string) : string := rstrip (lstrip s).

(** Digits of an integer literal: decimal digits, single underscores
    allowed between digits only. Returns the digits with the underscores
    removed. [prev] tells whether the preceding character was a digit. *)
Fixpoint literal_digits (prev : bool) (s : string) : option string :=
  match s with
  | EmptyString => if prev then Some EmptyString else None
  | String c r =>
      if is_digit c then
        match literal_digits true r with
        | Some ds => Some (String c ds)
        | None => None
        end
      else if Ascii.eqb c "_" then
        if prev then
          match r with
          | EmptyString => None
          | String c' _ => if is_digit c' then literal_digits false r else None
          end
        else None
      else None
  end.

(** The interpreter's limit on decimal digits in [int(str)]. *)
Definition max_str_digits : nat := 4300.

Definition digits_value (ds : string) : option Z :=
  match NilEmpty.uint_of_string ds with
  | Some u => Some (Z.of_uint u)
  | None => None
  end.

(** [int(s)] for a string, base 10: surrounding white space, an optional
    sign, then the digits. [None] stands for [ValueError]. *)
Definition int_of_str (s : string) : option Z :=
  let body := strip s in
  let '(neg, rest) :=
    match body with
    | String "-" r => (true, r)
    | String "+" r => (false, r)
    | _ => (false, body)
    end in
  match rest with
  | EmptyString => None
  | String c _ =>
      if is_digit c then
        match literal_digits false rest with
        | Some ds =>
            if (max_str_digits <? String.length ds)%nat then None
            else match digits_value ds with
                 | Some v => Some (if neg then - v else v)
                 | None => None
                 end
        | None => None
        end
      else None
  end.

End PyStr.

Example split_ex : PyStr.split " " "a  b" = ["a"; ""; "b"].
Proof. reflexivity. Qed.

Example capitalize_ex : PyStr.capitalize "aNSWER," = "Answer,".
Proof. reflexivity. Qed.

Example replace_ex : PyStr.replace "|" ", " "A|B_C|D" = "A, B_C, D".
Proof. reflexivity. Qed.

Example replace_ex2 : PyStr.replace "Rtt" "RTT" "Rtt, Rttt" = "RTT, RTTt".
Proof. reflexivity. Qed.

Example int_of_str_ex :
  map PyStr.int_of_str [" 12 "; "+12"; "-0"; "1_000"; "_1"; "1__0"; "1_"; ""; "0x10"; "--1"; "00012"; "1 2"]
  = [Some 12; Some 12; Some 0; Some 1000; None; None; None; None; None; None; Some 12; None].
Proof. vm_compute. reflexivity. Qed.

Example of_Z_ex : map PyStr.of_Z [0; 7; -5; 3661] = ["0"; "7"; "-5"; "3661"].
Proof. reflexivity. Qed.

Example rjust_ex : PyStr.rjust 8 "0" "1:01:01" = "01:01:01".
Proof. reflexivity. Qed.

(** ** Exceptions *)

(** The exception classes the program meets, each with the text of its
    message as far as it is modelled. *)
Inductive exn : Type :=
| KeyError (key : string)
| TypeError (msg : string)
| ValueError (msg : string)
| OverflowError (msg : string)
| OSError (msg : string)
| AttributeError (name : string).

Inductive result (A : Type) : Type :=
| Ok (a : A)
| Raise (e : exn).

Arguments Ok {A} a.
Arguments Raise {A} e.

Definition bind {A B : Type} (r : result A) (k : A -> result B) : result B :=
  match r with
  | Ok a => k a
  | Raise e => Raise e
  end.

Notation "'try' x <- r 'in' k" := (bind r (fun x => k))
  (at level 10, x name, r at level 200, k at level 200).

Definition is_ok {A : Type} (r : result A) : bool :=
  match r with Ok _ => true | Raise _ => false end.

(** What [except TypeError] catches. *)
Definition is_TypeError (e : exn) : bool :=
  match e with TypeError _ => true | _ => false end.

(** ** Dates and times *)

Module Datetime.

Definition is_leap (y : Z) : bool :=
  (y mod 4 =? 0) && (negb (y mod 100 =? 0) || (y mod 400 =? 0)).

Definition days_in_month (y m : Z) : Z :=
  if m =? 2 then (if is_leap y then 29 else 28)
  else if (m =? 4) || (m =? 6) || (m =? 9) || (m =? 11) then 30
  else 31.

(** Days of the year that precede the first day of month [m]. *)
Definition days_before_month (y m : Z) : Z :=
  let table := [0; 31; 59; 90; 120; 151; 181; 212; 243; 273; 304; 334] in
  nth (Z.to_nat (m - 1)) table 0 + (if (2 <? m) && is_leap y then 1 else 0).

Definition days_before_year (y : Z) : Z :=
  let p := y - 1 in p * 365 + p / 4 - p / 100 + p / 400.

(** Proleptic Gregorian ordinal: 0001-01-01 is day 1. *)
Definition ymd2ord (y m d : Z) : Z :=
  days_before_year y + days_before_month y m + d.

Definition DI400Y : Z := 146097.
Definition DI100Y : Z := 36524.
Definition DI4Y : Z := 1461.

(** The inverse of [ymd2ord], as the datetime module computes it. *)
Definition ord2ymd (n0 : Z) : Z * Z * Z :=
  let n := n0 - 1 in
  let n400 := n / DI400Y in
  let n := n mod DI400Y in
  let n100 := n / DI100Y in
  let n := n mod DI100Y in
  let n4 := n / DI4Y in
  let n := n mod DI4Y in
  let n1 := n / 365 in
  let n := n mod 365 in
  let year := n400 * 400 + 1 + n100 * 100 + n4 * 4 + n1 in
  if (n1 =? 4) || (n100 =? 4) then (year - 1, 12, 31)
  else
    let leapyear := (n1 =? 3) && (negb (n4 =? 24) || (n100 =? 3)) in
    let month := Z.shiftr (n + 50) 5 in
    let preceding := days_before_month 1 month
                     + (if (2 <? month) && leapyear then 1 else 0) in
    if n <? preceding then
      let month' := month - 1 in
      let preceding' := preceding
                        - (nth (Z.to_nat (month' - 1))
                               [31; 28; 31; 30; 31; 30; 31; 31; 30; 31; 30; 31] 0
                           + (if (month' =? 2) && leapyear then 1 else 0)) in
      (year, month', n - preceding' + 1)
    else (year, month, n - preceding + 1).

Definition MINYEAR : Z := 1.
Definition MAXYEAR : Z := 9999.

(** Ordinal of 1970-01-01. *)
Definition epoch_ord : Z := 719163.

(** A [date]. *)
Record date : Type := mkdate { dyear : Z; dmonth : Z; dday : Z }.

(** An aware [datetime]: the wall-clock fields and the offset from UTC,
    in seconds, of the [tzinfo] attached to it. *)
Record t : Type := mk {
  year : Z; month : Z; day : Z;
  hour : Z; minute : Z; second : Z; microsecond : Z;
  utcoffset : Z
}.

(** The ranges every [datetime] object satisfies. *)
Definition valid (d : t) : Prop :=
  MINYEAR <= year d <= MAXYEAR /\ 1 <= month d <= 12
  /\ 1 <= day d <= days_in_month (year d) (month d)
  /\ 0 <= hour d < 24 /\ 0 <= minute d < 60 /\ 0 <= second d < 60
  /\ 0 <= microsecond d < 1000000.

(** Seconds of the wall clock since 0001-01-01 00:00:00 (ordinal 1). *)
Definition wall_seconds (d : t) : Z :=
  (ymd2ord (year d) (month d) (day d) - 1) * 86400
  + hour d * 3600 + minute d * 60 + second d.

(** The instant a [datetime] denotes, in microseconds of UTC. Two aware
    datetimes compare by it. *)
Definition instant (d : t) : Z :=
  (wall_seconds d - utcoffset d) * 1000000 + microsecond d.

Definition lt (a b : t) : bool := instant a <? instant b.
Definition ge (a b : t) : bool := instant b <=? instant a.

(** The wall clock [s] seconds after 0001-01-01 00:00:00, with the given
    microseconds and offset; [OverflowError] outside the years 1..9999. *)
Definition of_wall_seconds (s us off : Z) : result t :=
  let days := s / 86400 in
  let rem := s mod 86400 in
  let ord := days + 1 in
  if (ord <? 1) || (ymd2ord MAXYEAR 12 31 <? ord)
  then Raise (OverflowError "date value out of range")
  else
    let '(y, m, d) := ord2ymd ord in
    Ok (mk y m d (rem / 3600) (rem mod 3600 / 60) (rem mod 60) us off).

(** [datetime.combine(d, time(), tzinfo=tz)] for a tzinfo of offset
    [off]: midnight of the day [d]. *)
Definition combine (d : date) (off : Z) : t :=
  mk (dyear d) (dmonth d) (dday d) 0 0 0 0 off.

(** [dt.date()]. *)
Definition date_of (dt : t) : date := mkdate (year dt) (month dt) (day dt).

(** [dt + timedelta(days=n)]: wall-clock arithmetic, same tzinfo. *)
Definition add_days (dt : t) (n : Z) : result t :=
  of_wall_seconds (wall_seconds dt + n * 86400) (microsecond dt) (utcoffset dt).

(** [strftime]: [%d], [%m], [%H], [%M], [%S] are two digits; [%Y] is the
    year in decimal as the C library prints it (four digits from the year
    1000 on). *)
Definition strftime_dmY (d : t) : string :=
  PyStr.zero_pad 2 (day d) ++ "." ++ PyStr.zero_pad 2 (month d) ++ "."
  ++ PyStr.of_Z (year d).

Definition strftime_HMS (d : t) : string :=
  PyStr.zero_pad 2 (hour d) ++ ":" ++ PyStr.zero_pad 2 (minute d) ++ ":"
  ++ PyStr.zero_pad 2 (second d).

Definition strftime_dmY_HMS (d : t) : string :=
  strftime_dmY d ++ " " ++ strftime_HMS d.

End Datetime.

Module Timedelta.

(** A normalised [timedelta]: [0 <= seconds < 86400],
    [0 <= microseconds < 1000000]. *)
Record t : Type := mk { days : Z; seconds : Z; microseconds : Z }.

Definition max_days : Z := 999999999.

(** [timedelta(seconds=n)] for an [int]. *)
Definition of_seconds (n : Z) : result t :=
  let d := n / 86400 in
  if (d <? - max_days) || (max_days <? d)
  then Raise (OverflowError "days; must have magnitude <= 999999999")
  else Ok (mk d (n mod 86400) 0).

(** [str(td)]. *)
Definition str (td : t) : string :=
  let mm := seconds td / 60 in
  let ss := seconds td mod 60 in
  let hh := mm / 60 in
  let mm := mm mod 60 in
  let s := PyStr.of_Z hh ++ ":" ++ PyStr.zero_pad 2 mm ++ ":" ++ PyStr.zero_pad 2 ss in
  let s := if days td =? 0 then s
           else PyStr.of_Z (days td) ++ " day"
                ++ (if Z.abs (days td) =? 1 then "" else "s") ++ ", " ++ s in
  if microseconds td =? 0 then s
  else s ++ "." ++ PyStr.zero_pad 6 (microseconds td).

End Timedelta.

Example ord_epoch : Datetime.ymd2ord 1970 1 1 = Datetime.epoch_ord.
Proof. reflexivity. Qed.

Example ord2ymd_ex :
  map Datetime.ord2ymd [1; 719163; 738948; 738949; 3652059; 730179; 730180]
  = [(1, 1, 1); (1970, 1, 1); (2024, 3, 3); (2024, 3, 4); (9999, 12, 31);
     (2000, 2, 29); (2000, 3, 1)].
Proof. vm_compute. reflexivity. Qed.

Example timedelta_str_ex :
  map (fun n => match Timedelta.of_seconds n with
                | Ok td => Timedelta.str td | Raise _ => "!" end)
      [0; 3661; 86399; 86400; 90061; 172800; -5]
  = ["0:00:00"; "1:01:01"; "23:59:59"; "1 day, 0:00:00"; "1 day, 1:01:01";
     "2 days, 0:00:00"; "-1 day, 23:59:55"].
Proof. vm_compute. reflexivity. Qed.

(** ** Enumerations and flag sets *)

(** The four [IntEnum] classes and the two [IntFlag] classes. *)
Inductive enum_class : Type :=
  CallType | NumberType | BlockedReason | NumberPresentation.

Inductive flag_class : Type := MissedReason | CallFeatures.

(** Members in definition order: name and value. *)
Definition enum_members (c : enum_class) : list (string * Z) :=
  match c with
  | CallType =>
      [("INCOMING", 1); ("OUTGOING", 2); ("MISSED", 3); ("VOICEMAIL", 4);
       ("REJECTED", 5); ("BLOCKED", 6); ("ANSWERED_EXTERNALLY", 7)]
  | NumberType =>
      [("_", 0); ("HOME", 1); ("MOBILE", 2); ("WORK", 3); ("FAX_WORK", 4);
       ("FAX_HOME", 5); ("PAGER", 6); ("OTHER", 7); ("CALLBACK", 8);
       ("CAR", 9); ("COMPANY_MAIN", 10); ("ISDN", 11); ("MAIN", 12);
       ("OTHER_FAX", 13); ("RADIO", 14); ("TELEX", 15); ("TTY_TDD", 16);
       ("WORK_MOBILE", 17); ("WORK_PAGER", 18); ("ASSISTANT", 19);
       ("MMS", 20)]
  | BlockedReason =>
      [("NOT_BLOCKED", 0); ("CALL_SCREENING_SERVICE", 1);
       ("DIRECT_TO_VOICEMAIL", 2); ("BLOCKED_NUMBER", 3);
       ("UNKNOWN_NUMBER", 4); ("RESTRICTED_NUMBER", 5); ("PAY_PHONE", 6);
       ("NOT_IN_CONTACTS", 7)]
  | NumberPresentation =>
      [("ALLOWED", 1); ("RESTRICTED", 2); ("UNKNOWN", 3); ("PAYPHONE", 4);
       ("UNAVAILABLE", 5)]
  end.

Definition flag_members (c : flag_class) : list (string * Z) :=
  match c with
  | MissedReason =>
      [("NOT_MISSED", 0);
       ("AUTO_MISSED_EMERGENCY_CALL", 1);
       ("AUTO_MISSED_MAXIMUM_RINGING", 2);
       ("AUTO_MISSED_MAXIMUM_DIALING", 4);
       ("USER_MISSED_NO_ANSWER", 0x10000);
       ("USER_MISSED_SHORT_RING", 0x20000);
       ("USER_MISSED_DND_MODE", 0x40000);
       ("USER_MISSED_LOW_RING_VOLUME", 0x80000);
       ("USER_MISSED_NO_VIBRATE", 0x100000);
       ("USER_MISSED_CALL_SCREENING_SERVICE_SILENCED", 0x200000);
       ("USER_MISSED_CALL_FILTERS_TIMEOUT", 0x400000)]
  | CallFeatures =>
      [("ASSISTED_DIALING_USED", 16); ("HD_CALL", 4);
       ("PULLED_EXTERNALLY", 2); ("RTT", 32); ("VIDEO", 1); ("VOLTE", 64);
       ("WIFI", 8)]
  end.

Definition enum_qualname (c : enum_class) : string :=
  match c with
  | CallType => "CallType"
  | NumberType => "NumberType"
  | BlockedReason => "BlockedReason"
  | NumberPresentation => "NumberPresentation"
  end.

Definition flag_qualname (c : flag_class) : string :=
  match c with
  | MissedReason => "MissedReason"
  | CallFeatures => "CallFeatures"
  end.

Module Enum.

(** [_value2member_map_.get(v)]: the name of the member of value [v]. *)
Fixpoint name_of_value (members : list (string * Z)) (v : Z) : option string :=
  match members with
  | [] => None
  | (n, x) :: rest => if x =? v then Some n else name_of_value rest v
  end.

Definition is_member (members : list (string * Z)) (v : Z) : bool :=
  match name_of_value members v with Some _ => true | None => false end.

(** [cls(v)] for an [IntEnum] class and an [int]: the member of that
    value, or [ValueError]. An enumeration value is represented by its
    class and its integer value. *)
Definition call (c : enum_class) (v : Z) : result Z :=
  if is_member (enum_members c) v then Ok v
  else Raise (ValueError (PyStr.of_Z v ++ " is not a valid " ++ enum_qualname c)).

(** [int.bit_length]. *)
Definition bit_length (n : Z) : Z :=
  if n =? 0 then 0 else Z.log2 (Z.abs n) + 1.

Definition is_single_bit (n : Z) : bool :=
  if n =? 0 then false else Z.land n (n - 1) =? 0.

(** The canonical members of a flag class: the single-bit ones, in
    definition order. Iterating the class yields these. *)
Definition canonical (c : flag_class) : list (string * Z) :=
  filter (fun m => is_single_bit (snd m) = true) (flag_members c).

Definition flag_mask (c : flag_class) : Z :=
  fold_left Z.lor (map snd (canonical c)) 0.

Definition all_bits (c : flag_class) : Z :=
  2 ^ bit_length (flag_mask c) - 1.

(** [Flag._missing_] under the [KEEP] boundary of [IntFlag]: the value of
    the pseudo-member created for an [int] that is not in the value map.
    Bits outside the mask are kept; a negative value is brought into
    range. *)
Definition missing_value (c : flag_class) (value : Z) : Z :=
  let value :=
    if negb ((Z.lnot (all_bits c) <=? value) && (value <=? all_bits c))
       || negb (Z.land value (Z.lxor (all_bits c) (flag_mask c)) =? 0)
    then
      if value <? 0
      then Z.max (all_bits c + 1) (2 ^ bit_length value) + value
      else value
    else value in
  if value <? 0 then all_bits c + 1 + value else value.

(** [cls(v)] for an [IntFlag] class and an [int]: never an error. *)
Definition flag_call (c : flag_class) (v : Z) : Z :=
  if is_member (flag_members c) v then v else missing_value c v.

(** [_iter_bits_lsb]: the set bits of a non-negative number, lowest
    first. *)
Fixpoint iter_bits_lsb (fuel : nat) (num : Z) : list Z :=
  match fuel with
  | O => []
  | S k =>
      if num =? 0 then []
      else let b := Z.land num (Z.lnot num + 1) in
           b :: iter_bits_lsb k (Z.lxor num b)
  end.

Definition bits_of (num : Z) : list Z :=
  iter_bits_lsb (Z.to_nat (bit_length num)) num.

(** [_iter_member_by_value_]: the members of the set bits, by value. *)
Definition iter_member_by_value (c : flag_class) (value : Z) : list (string * Z) :=
  omap (fun b => match name_of_value (flag_members c) b with
                 | Some n => Some (n, b)
                 | None => None
                 end)
       (bits_of (Z.land value (flag_mask c))).

(** [_iter_member_by_def_]: the same members sorted by definition
    order. *)
Definition iter_member_by_def (c : flag_class) (value : Z) : list (string * Z) :=
  let byval := iter_member_by_value c value in
  filter (fun m => existsb (Z.eqb (snd m)) (map snd byval) = true) (canonical c).

Fixpoint sorted (l : list Z) : bool :=
  match l with
  | [] => true
  | x :: r => match r with
              | [] => true
              | y :: _ => (x <=? y) && sorted r
              end
  end.

(** The class iterates by value when its members were defined in
    increasing order, and by definition order otherwise. *)
Definition iter_member (c : flag_class) (value : Z) : list (string * Z) :=
  if sorted (map snd (canonical c)) then iter_member_by_value c value
  else iter_member_by_def c value.

(** [flag.name] of [cls(v)], for [v = flag_call c _]: a member's own
    name; for a combination the names joined by [|], followed by the
    number made of the unknown bits if there are any; [None] when no
    known bit is set. *)
Definition flag_name (c : flag_class) (v : Z) : option string :=
  match name_of_value (flag_members c) v with
  | Some n => Some n
  | None =>
      let unknown := Z.land v (Z.lnot (flag_mask c)) in
      let member_value := Z.land v (flag_mask c) in
      if member_value =? 0 then None
      else
        let names := PyStr.join "|" (map fst (iter_member c member_value)) in
        Some (if unknown =? 0 then names
              else names ++ "|" ++ PyStr.of_Z unknown)
  end.

(** The flags a value contains, as the class iterates them. *)
Definition flags_in (c : flag_class) (v : Z) : list string :=
  map fst (iter_member c v).

(** [PrettyEnum.__str__]. *)
Definition PrettyEnum_str (name : option string) (value : Z) : string :=
  match name with
  | None | Some EmptyString => PyStr.of_Z value
  | Some n =>
      PyStr.join " " (map PyStr.capitalize (PyStr.split " " (PyStr.replace "_" " " n)))
  end.

(** [PrettyFlag.__str__]. *)
Definition PrettyFlag_str (name : option string) (value : Z) : string :=
  if value =? 0 then ""
  else match name with
       | None | Some EmptyString => PyStr.of_Z value
       | Some n =>
           PyStr.join " "
             (map PyStr.capitalize
                  (PyStr.split " "
                     (PyStr.replace "_" " " (PyStr.replace "|" ", " n))))
       end.

(** [str(member)] for each enumeration; [NumberType] overrides it. *)
Definition enum_str (c : enum_class) (v : Z) : string :=
  match c with
  | NumberType =>
      if v =? 0 then ""
      else PrettyEnum_str (name_of_value (enum_members c) v) v
  | _ => PrettyEnum_str (name_of_value (enum_members c) v) v
  end.

(** [str(flag)] for each flag set; [CallFeatures] overrides it. *)
Definition flag_str (c : flag_class) (v : Z) : string :=
  match c with
  | MissedReason => PrettyFlag_str (flag_name c v) v
  | CallFeatures =>
      PyStr.replace "Wifi" "WiFi"
        (PyStr.replace "Volte" "VoLTE"
           (PyStr.replace "Rtt" "RTT" (PrettyFlag_str (flag_name c v) v)))
  end.

End Enum.

Example enum_str_ex :
  map (Enum.enum_str CallType) [1; 7] = ["Incoming"; "Answered Externally"].
Proof. vm_compute. reflexivity. Qed.

Example flag_mask_ex :
  (Enum.flag_mask MissedReason, Enum.all_bits MissedReason,
   Enum.flag_mask CallFeatures, Enum.all_bits CallFeatures)
  = (0x7F0007, 0x7FFFFF, 127, 127).
Proof. vm_compute. reflexivity. Qed.

Example flag_str_ex :
  map (Enum.flag_str MissedReason) [0; 1; 0x30000; 8; 9]
  = [""; "Auto Missed Emergency Call";
     "User Missed No Answer, User Missed Short Ring"; "8";
     "Auto Missed Emergency Call, 8"].
Proof. vm_compute. reflexivity. Qed.

Example features_str_ex :
  map (Enum.flag_str CallFeatures) [0; 32; 96; 12; 3; 127]
  = [""; "RTT"; "RTT, VoLTE"; "Hd Call, WiFi"; "Pulled Externally, Video";
     "Assisted Dialing Used, Hd Call, Pulled Externally, RTT, Video, VoLTE, WiFi"].
Proof. vm_compute. reflexivity. Qed.

Example flag_call_neg_ex :
  map (Enum.flag_call CallFeatures) [-1; -200; 128; 200]
  = [127; 56; 128; 200].
Proof. vm_compute. reflexivity. Qed.

(** ** Values *)

(** What [json.load] yields for the values of the export, which are
    scalars: [None], a [bool], an [int] or a [str]. A float, an array or
    an object as the value of a field is not modelled. *)
Inductive json : Type :=
| JNull
| JBool (b : bool)
| JInt (n : Z)
| JStr (s : string).

(** The values held by the attributes of a [PhoneCall]. An enumeration or
    flag value is its class and its integer value. *)
Inductive pyval : Type :=
| VNone
| VBool (b : bool)
| VInt (n : Z)
| VStr (s : string)
| VDatetime (d : Datetime.t)
| VTimedelta (td : Timedelta.t)
| VEnum (c : enum_class) (v : Z)
| VFlag (c : flag_class) (v : Z).

Definition dquote : string := String (ascii_of_nat 34) EmptyString.

Definition Z_of_bool (b : bool) : Z := if b then 1 else 0.

Definition str_of_bool (b : bool) : string := if b then "True" else "False".

(** [str(value)] of a raw JSON value, as the f-string of the error report
    formats it. *)
Definition json_str (v : json) : string :=
  match v with
  | JNull => "None"
  | JBool b => str_of_bool b
  | JInt n => PyStr.of_Z n
  | JStr s => s
  end.

(** [str(dt)] of an aware datetime: ISO format with a space separator. *)
Definition datetime_str (d : Datetime.t) : string :=
  let off := Datetime.utcoffset d in
  let a := Z.abs off in
  PyStr.zero_pad 4 (Datetime.year d) ++ "-" ++ PyStr.zero_pad 2 (Datetime.month d)
  ++ "-" ++ PyStr.zero_pad 2 (Datetime.day d) ++ " " ++ Datetime.strftime_HMS d
  ++ (if Datetime.microsecond d =? 0 then ""
      else "." ++ PyStr.zero_pad 6 (Datetime.microsecond d))
  ++ (if off <? 0 then "-" else "+")
  ++ PyStr.zero_pad 2 (a / 3600) ++ ":" ++ PyStr.zero_pad 2 (a mod 3600 / 60)
  ++ (if a mod 60 =? 0 then "" else ":" ++ PyStr.zero_pad 2 (a mod 60)).

(** [str(value)]. *)
Definition py_str (v : pyval) : string :=
  match v with
  | VNone => "None"
  | VBool b => str_of_bool b
  | VInt n => PyStr.of_Z n
  | VStr s => s
  | VDatetime d => datetime_str d
  | VTimedelta td => Timedelta.str td
  | VEnum c n => Enum.enum_str c n
  | VFlag c n => Enum.flag_str c n
  end.

(** Truth value of an object. *)
Definition truthy (v : pyval) : bool :=
  match v with
  | VNone => false
  | VBool b => b
  | VInt n => negb (n =? 0)
  | VStr s => negb (String.eqb s "")
  | VDatetime _ => true
  | VTimedelta td =>
      negb ((Timedelta.days td =? 0) && (Timedelta.seconds td =? 0)
            && (Timedelta.microseconds td =? 0))
  | VEnum _ n => negb (n =? 0)
  | VFlag _ n => negb (n =? 0)
  end.

(** ** Time zones *)

(** The part of a pytz zone the program uses. [zone_utcoffset] is the
    offset, in seconds, the zone object itself carries: the one a datetime
    gets when the zone is passed as [tzinfo=] to a constructor.
    [fromutc_utcoffset] gives, for an instant in seconds since the epoch,
    the offset of the tzinfo that [astimezone] attaches. *)
Record timezone : Type := mkzone {
  zone_utcoffset : Z;
  fromutc_utcoffset : Z -> Z
}.

(** ** The record *)

Inductive ftype : Type :=
| TDatetime
| TTimedelta
| TEnum (c : enum_class)
| TFlag (c : flag_class)
| TBool
| TInt
| TStr.

(** A dataclass field: [fdefault = None] is [dataclasses.MISSING]. *)
Record field : Type := mkfield {
  fname : string;
  ftyp : ftype;
  fdefault : option pyval
}.

Definition required (n : string) (t : ftype) : field := mkfield n t None.
Definition optional (n : string) (t : ftype) (d : pyval) : field := mkfield n t (Some d).

(** [dataclasses.fields(PhoneCall)], in declaration order. *)
Definition fields : list field :=
  [ required "date" TDatetime;
    required "phone_account_hidden" TBool;
    required "photo_id" TInt;
    required "subscription_component_name" TStr;
    required "type" (TEnum CallType);
    required "presentation" (TEnum NumberPresentation);
    required "duration" TTimedelta;
    required "subscription_id" TInt;
    required "is_read" TBool;
    required "number" TStr;
    required "features" (TFlag CallFeatures);
    required "via_number" TStr;
    required "last_modified" TDatetime;
    required "new" TBool;
    required "missed_reason" (TFlag MissedReason);
    required "phone_account_address" TStr;
    required "add_for_all_users" TBool;
    required "block_reason" (TEnum BlockedReason);
    required "priority" TInt;
    required "countryiso" TStr;
    required "is_call_log_phone_account_migration_pending" TBool;
    required "post_dial_digits" TStr;
    required "transcription_state" TBool;
    required "_id" TInt;
    optional "subject" TStr VNone;
    optional "matched_number" TStr VNone;
    optional "formatted_nummer" TStr VNone;
    optional "normalized_number" TStr VNone;
    optional "lookup_uri" TStr VNone;
    optional "name" TStr (VStr "");
    optional "display_name" TStr (VStr "");
    optional "numbertype" (TEnum NumberType) VNone;
    optional "data_usage" TInt VNone;
    optional "geocoded_location" TStr (VStr "") ].

Definition field_names : list string := map fname fields.

Definition default_csv_fields : list string :=
  ["date"; "time"; "type"; "duration"; "number"; "display_name"; "numbertype";
   "presentation"; "missed_reason"; "block_reason"; "features"; "countryiso"].

(** A [PhoneCall] instance: its attributes by name. *)
Abbreviation PhoneCall := (gmap string pyval).

(** A JSON object as loaded: a [dict] with string keys. *)
Abbreviation dict := (gmap string json).

(** The dataclass constructor called with the keyword arguments [call]:
    every field takes its argument or its default; a field with neither is
    a [TypeError]. *)
Fixpoint init_fields (fs : list field) (call : gmap string pyval) : result PhoneCall :=
  match fs with
  | [] => Ok ∅
  | f :: rest =>
      try self <- init_fields rest call in
      match call !! fname f, fdefault f with
      | Some v, _ => Ok (<[fname f := v]> self)
      | None, Some d => Ok (<[fname f := d]> self)
      | None, None => Raise (TypeError "missing required positional argument")
      end
  end.

Definition PhoneCall_init (call : gmap string pyval) : result PhoneCall :=
  init_fields fields call.

(** ** Floating point *)

(** The two operations on doubles that decoding a date goes through:
    the true division of two [int]s and the split of a time stamp into
    seconds and microseconds. A finite double is a pair [(m, e)] that
    stands for [m * 2^e], with [|m| < 2^53]. *)
Module Float.

(** [a / d] rounded to the nearest integer, ties to even; [d] is
    positive. *)
Definition round_half_even (a d : Z) : Z :=
  let q := a / d in
  let r := a mod d in
  if 2 * r <? d then q
  else if d <? 2 * r then q + 1
  else if Z.even q then q else q + 1.

(** The integer [k] with [2^k <= a / d < 2^(k+1)], for positive [a] and
    [d]. *)
Definition ilog2_ratio (a d : Z) : Z :=
  let l := Z.log2 a - Z.log2 d in
  if (if 0 <=? l then a <? d * 2 ^ l else a * 2 ^ (- l) <? d) then l - 1 else l.

(** The double nearest to [a / d], ties to even, for positive [a] and
    [d] and a quotient in the normal range. *)
Definition nearest_ratio (a d : Z) : Z * Z :=
  let e := ilog2_ratio a d - 52 in
  let m := if 0 <=? e then round_half_even a (d * 2 ^ e)
           else round_half_even (a * 2 ^ (- e)) d in
  if m =? 2 ^ 53 then (2 ^ 52, e + 1) else (m, e).

(** [n / d] for two [int]s, [d] positive: correctly rounded, as Python
    computes it; [None] stands for the [OverflowError] of a quotient
    beyond the doubles. *)
Definition true_divide (n d : Z) : option (Z * Z) :=
  if n =? 0 then Some (0, 0)
  else
    let '(m, e) := nearest_ratio (Z.abs n) d in
    if 971 <? e then None else Some (Z.sgn n * m, e).

(** The double nearest to [x * 2^e]: the result of a multiplication
    whose exact product is [x * 2^e]. *)
Definition nearest_scaled (x e : Z) : Z * Z :=
  let a := Z.abs x in
  if a <? 2 ^ 53 then (x, e)
  else
    let s := Z.log2 a - 52 in
    let m := round_half_even a (2 ^ s) in
    if m =? 2 ^ 53 then (Z.sgn x * 2 ^ 52, e + s + 1) else (Z.sgn x * m, e + s).

(** [modf]: the integral part, toward zero, and the fraction, as a
    multiple of [2^e]. *)
Definition modf (m e : Z) : Z * Z :=
  if 0 <=? e then (m * 2 ^ e, 0)
  else (Z.quot m (2 ^ (- e)), Z.rem m (2 ^ (- e))).

(** The seconds and microseconds of a float time stamp, as the
    constructors of [datetime] take them: the fraction times [1e6],
    rounded half to even, with a carry into the seconds. *)
Definition to_timeval (t : Z * Z) : Z * Z :=
  let '(m, e) := t in
  let '(intpart, frac) := modf m e in
  let '(mf, ef) := nearest_scaled (frac * 1000000) e in
  let us := if 0 <=? ef then mf * 2 ^ ef else round_half_even mf (2 ^ (- ef)) in
  if 1000000 <=? us then (intpart + 1, us - 1000000)
  else if us <? 0 then (intpart - 1, us + 1000000)
  else (intpart, us).

End Float.

(** Seconds and microseconds of [ms / 1000]. *)
Definition timeval_of_ms (ms : Z) : option (Z * Z) :=
  option_map Float.to_timeval (Float.true_divide ms 1000).

Example timeval_ex :
  map timeval_of_ms
      [1709506620123; 8804733022210; -1; -999; 8589934592001; 253402300799999;
       -62135596799999]
  = map Some [(1709506620, 123000); (8804733022, 209999); (-1, 999000); (-1, 1000);
              (8589934592, 999); (253402300799, 998993); (-62135596800, 999)].
Proof. vm_compute. reflexivity. Qed.

(** ** Decoding *)

Section Decoder.

(** The module-level zone [tz = pytz.timezone('Europe/Vienna')]. *)
Variable tz : timezone.

(** [int(value)]. *)
Definition py_int (value : json) : result Z :=
  match value with
  | JNull =>
      Raise (TypeError "int() argument must be a string, a bytes-like object or a real number, not 'NoneType'")
  | JBool b => Ok (Z_of_bool b)
  | JInt n => Ok n
  | JStr s =>
      match PyStr.int_of_str s with
      | Some n => Ok n
      | None => Raise (ValueError "invalid literal for int() with base 10")
      end
  end.

(** [datetime.utcfromtimestamp(ms / 1000)], then [replace(tzinfo=UTC)]:
    the wall clock of UTC. [ms / 1000] is a float, the double nearest to
    the quotient, which the constructor splits into seconds and
    microseconds. A quotient beyond the doubles or beyond the 64 bits of
    [time_t] raises [OverflowError], a year beyond what the C library
    holds in an [int] raises [OSError], and a year outside 1..9999 raises
    [ValueError]. *)
Definition utcfromtimestamp_ms (ms : Z) : result Datetime.t :=
  match Float.true_divide ms 1000 with
  | None => Raise (OverflowError "integer division result too large for a float")
  | Some t =>
      let '(secs, us) := Float.to_timeval t in
      if (secs <? - 2 ^ 63) || (2 ^ 63 <? secs)
      then Raise (OverflowError "timestamp out of range for platform time_t")
      else
        let year := (Datetime.ord2ymd (secs / 86400 + Datetime.epoch_ord)).1.1 in
        if (secs =? 2 ^ 63) || (year <? - 2147481748) || (2147485547 <? year)
        then Raise (OSError "[Errno 75] Value too large for defined data type")
        else
          match Datetime.of_wall_seconds
                  (secs + (Datetime.epoch_ord - 1) * 86400) us 0 with
          | Ok d => Ok d
          | Raise _ => Raise (ValueError "year is out of range")
          end
  end.

(** [.astimezone(tz)] of an aware UTC datetime: pytz's [fromutc] adds the
    offset in force at that instant and attaches the matching tzinfo. *)
Definition astimezone (utc : Datetime.t) : result Datetime.t :=
  let off := fromutc_utcoffset tz (Datetime.wall_seconds utc
                                   - (Datetime.epoch_ord - 1) * 86400) in
  Datetime.of_wall_seconds (Datetime.wall_seconds utc + off)
                           (Datetime.microsecond utc) off.

(** [isinstance(value, field.type)] for a raw value. *)
Definition isinstance (value : json) (t : ftype) : bool :=
  match t, value with
  | TBool, JBool _ => true
  | TInt, JInt _ | TInt, JBool _ => true
  | TStr, JStr _ => true
  | _, _ => false
  end.

(** The raw value kept as it is. *)
Definition keep (value : json) : pyval :=
  match value with
  | JNull => VNone
  | JBool b => VBool b
  | JInt n => VInt n
  | JStr s => VStr s
  end.

(** [repr(value)] as the enum lookup's message shows it. *)
Definition json_repr (value : json) : string :=
  match value with
  | JStr s => "'" ++ s ++ "'"
  | _ => json_str value
  end.

(** [field.type(value)]: the type called on the raw value. An
    enumeration looks the value up among its members; a flag set does the
    same and, for an [int], falls back to the pseudo-member. *)
Definition construct (t : ftype) (value : json) : result pyval :=
  match t with
  | TBool =>
      Ok (VBool (match value with
                 | JNull => false
                 | JBool b => b
                 | JInt n => negb (n =? 0)
                 | JStr s => negb (String.eqb s "")
                 end))
  | TInt => try n <- py_int value in Ok (VInt n)
  | TStr => Ok (VStr (json_str value))
  | TEnum c =>
      match value with
      | JInt n => try v <- Enum.call c n in Ok (VEnum c v)
      | JBool b =>
          if Enum.is_member (enum_members c) (Z_of_bool b)
          then Ok (VEnum c (Z_of_bool b))
          else Raise (ValueError (json_repr value ++ " is not a valid " ++ enum_qualname c))
      | _ => Raise (ValueError (json_repr value ++ " is not a valid " ++ enum_qualname c))
      end
  | TFlag c =>
      match value with
      | JInt n => Ok (VFlag c (Enum.flag_call c n))
      | JBool b => Ok (VFlag c (Enum.flag_call c (Z_of_bool b)))
      | _ => Raise (ValueError (json_repr value ++ " is not a valid " ++ flag_qualname c))
      end
  | TDatetime => Raise (TypeError "function missing required argument 'month' (pos 2)")
  | TTimedelta =>
      match value with
      | JInt n => try td <- Timedelta.of_seconds (n * 86400) in Ok (VTimedelta td)
      | JBool b => try td <- Timedelta.of_seconds (Z_of_bool b * 86400) in Ok (VTimedelta td)
      | _ => Raise (TypeError "unsupported type for timedelta days component")
      end
  end.

(** The body of the [try] in [from_json]: the value stored for a field
    of type [t] whose raw value is [value]. The branches are those of the
    [if]/[elif] chain, in order. *)
Definition decode_value (t : ftype) (value : json) : result pyval :=
  match t, value with
  | TDatetime, _ =>
      try ms <- py_int value in
      try utc <- utcfromtimestamp_ms ms in
      try d <- astimezone utc in
      Ok (VDatetime d)
  | TTimedelta, _ =>
      try n <- py_int value in
      try td <- Timedelta.of_seconds n in
      Ok (VTimedelta td)
  | TEnum c, JStr _ =>
      try n <- py_int value in
      try v <- Enum.call c n in
      Ok (VEnum c v)
  | TFlag c, JStr _ =>
      try n <- py_int value in
      Ok (VFlag c (Enum.flag_call c n))
  | TBool, JStr s => Ok (VBool (String.eqb s "1"))
  | _, _ =>
      if negb (isinstance value t) then construct t value
      else Ok (keep value)
  end.

Definition has_default (f : field) : bool :=
  match fdefault f with Some _ => true | None => false end.

(** What the [except TypeError] handler prints. *)
Definition failure_report (key : string) (value : json) (multiple : bool)
           (ncalls : nat) : list string :=
  ("Failed parsing field " ++ key ++ " for value " ++ dquote ++ json_str value
   ++ dquote ++ ".")
  :: (if multiple then ["Call " ++ PyStr.of_Z (Z.of_nat ncalls + 1)] else []).

(** The inner loop of [from_json] over the fields [fs], for one object.
    It returns the keyword arguments collected in [call] or the exception
    raised, the object as the pops have left it, and the lines
    printed. *)
Fixpoint decode_fields (fs : list field) (multiple : bool) (ncalls : nat)
         (obj : dict) (call : gmap string pyval)
  : result (gmap string pyval) * dict * list string :=
  match fs with
  | [] => (Ok call, obj, [])
  | f :: rest =>
      let key := fname f in
      match obj !! key with
      | None =>
          if has_default f then decode_fields rest multiple ncalls obj call
          else (Raise (KeyError key), obj, [])
      | Some value =>
          let obj' := delete key obj in
          match decode_value (ftyp f) value with
          | Ok v => decode_fields rest multiple ncalls obj' (<[key := v]> call)
          | Raise e =>
              (Raise e, obj',
               if is_TypeError e then failure_report key value multiple ncalls
               else [])
          end
      end
  end.

(** One turn of the outer loop: decode the object and build the
    record. *)
Definition decode_object (multiple : bool) (ncalls : nat) (obj : dict)
  : result PhoneCall * dict * list string :=
  match decode_fields fields multiple ncalls obj ∅ with
  | (Ok call, obj', out) => (PhoneCall_init call, obj', out)
  | (Raise e, obj', out) => (Raise e, obj', out)
  end.

(** Objects are referred to by their address; the store gives the
    present content of each. *)
Definition store : Type := nat -> gmap string json.

Definition store_set (σ : store) (l : nat) (d : gmap string json) : store :=
  fun l' => if Nat.eqb l' l then d else σ l'.

(** The outer loop of [from_json] over the objects at [objs], with the
    records decoded so far in [calls]. *)
Fixpoint decode_objects (objs : list nat) (multiple : bool)
         (calls : list PhoneCall) (σ : store)
  : result (list PhoneCall) * store * list string :=
  match objs with
  | [] => (Ok calls, σ, [])
  | l :: rest =>
      match decode_object multiple (length calls) (σ l) with
      | (Ok call, obj', _) =>
          decode_objects rest multiple (calls ++ [call]) (store_set σ l obj')
      | (Raise e, obj', out) => (Raise e, store_set σ l obj', out)
      end
  end.

(** The argument of [from_json]: one dictionary or a sequence of
    dictionaries. *)
Inductive json_doc : Type :=
| Obj (l : nat)
| Arr (ls : list nat).

Inductive decoded : Type :=
| One (call : PhoneCall)
| Many (calls : list PhoneCall).

Definition from_json (obj_or_list : json_doc) (σ : store)
  : result decoded * store * list string :=
  match obj_or_list with
  | Obj l =>
      match decode_objects [l] false [] σ with
      | (Ok calls, σ', out) =>
          (match calls with
           | c :: _ => Ok (One c)
           | [] => Raise (TypeError "list index out of range")
           end, σ', out)
      | (Raise e, σ', out) => (Raise e, σ', out)
      end
  | Arr ls =>
      match decode_objects ls true [] σ with
      | (Ok calls, σ', out) => (Ok (Many calls), σ', out)
      | (Raise e, σ', out) => (Raise e, σ', out)
      end
  end.

End Decoder.

(** ** Rendering *)

(** The label of a column: words split at [_], each capitalised. *)
Definition header_label (f : string) : string :=
  PyStr.join " " (map PyStr.capitalize (PyStr.split " " (PyStr.replace "_" " " f))).

Definition or_default (o : option (list string)) : list string :=
  match o with
  | Some fs => fs
  | None => default_csv_fields
  end.

Definition csv_header (fields : option (list string)) : list string :=
  map header_label (or_default fields).

(** [getattr(self, field, None)]. *)
Definition getattr (self : PhoneCall) (field : string) : pyval :=
  match self !! field with
  | Some v => v
  | None => VNone
  end.

(** [self.date], on which [strftime] is then called. *)
Definition self_date (self : PhoneCall) : result Datetime.t :=
  match self !! "date" with
  | Some (VDatetime d) => Ok d
  | _ => Raise (AttributeError "strftime")
  end.

Definition call_fields : gset string := list_to_set field_names.

Definition csv_aliases : gset string := {[ "time" ]}.

(** One turn of the loop of [csv_row]: the [match] on [(field, value)],
    its cases in the order of the source. *)
Definition csv_cell (self : PhoneCall) (out_fields : gset string)
           (field : string) : result pyval :=
  let value := getattr self field in
  if String.eqb field "date" then
    try d <- self_date self in
    Ok (VStr (if bool_decide ("time" ∈ out_fields)
              then Datetime.strftime_dmY d
              else Datetime.strftime_dmY_HMS d))
  else if String.eqb field "time" then
    try d <- self_date self in
    Ok (VStr (Datetime.strftime_HMS d))
  else
    match value with
    | VDatetime d => Ok (VStr (Datetime.strftime_dmY_HMS d))
    | VTimedelta td => Ok (VStr (PyStr.rjust 8 "0" (Timedelta.str td)))
    | _ =>
        if String.eqb field "formatted_numer" then
          if negb (truthy value) then
            Ok (if truthy (getattr self "normalized_number")
                then getattr self "normalized_number"
                else getattr self "number")
          else Ok value
        else
          match value with
          | VBool b => Ok (VStr (if b then "Yes" else "No"))
          | VNone => Ok (VStr "")
          | _ => Ok (VStr (py_str value))
          end
    end.

Fixpoint csv_cells (self : PhoneCall) (out_fields : gset string)
         (fields : list string) : result (list pyval) :=
  match fields with
  | [] => Ok []
  | f :: rest =>
      try v <- csv_cell self out_fields f in
      try vs <- csv_cells self out_fields rest in
      Ok (v :: vs)
  end.

(** The names [csv_row] rejects. The message lists them in the iteration
    order of a set, which is not modelled: the exception carries the text
    up to the names, and [unknown_fields] gives the names. *)
Definition unknown_fields (fields : list string) : gset string :=
  list_to_set fields ∖ csv_aliases ∖ call_fields.

Definition csv_row (self : PhoneCall) (fields : option (list string))
  : result (list pyval) :=
  let fields := or_default fields in
  let out_fields : gset string := list_to_set fields in
  if negb (bool_decide (out_fields ∖ csv_aliases ⊆ call_fields))
  then Raise (ValueError "Unknown field(s) in list")
  else csv_cells self out_fields fields.

(** ** The conversion *)

(** A start or stop date as the caller gives it: a [date] or a
    [datetime]. Both are instances of [date], so both are replaced by the
    midnight of their day. *)
Inductive date_arg : Type :=
| ADate (d : Datetime.date)
| ADatetime (dt : Datetime.t).

Definition arg_date (a : date_arg) : Datetime.date :=
  match a with
  | ADate d => d
  | ADatetime dt => Datetime.date_of dt
  end.

Section Converter.

Variable tz : timezone.

(** [datetime.combine(d, time(), tzinfo=tz)]. *)
Definition midnight (a : date_arg) : Datetime.t :=
  Datetime.combine (arg_date a) (zone_utcoffset tz).

Definition start_bound (start_date : option date_arg) : option Datetime.t :=
  option_map midnight start_date.

(** The stop date moved to the midnight that follows it. *)
Definition stop_bound (stop_date : option date_arg) : result (option Datetime.t) :=
  match stop_date with
  | None => Ok None
  | Some a => try d <- Datetime.add_days (midnight a) 1 in Ok (Some d)
  end.

(** [call.date] in the comparisons of the loop. *)
Definition call_date (call : PhoneCall) : result Datetime.t :=
  match call !! "date" with
  | Some (VDatetime d) => Ok d
  | _ => Raise (AttributeError "date")
  end.

(** What one turn of the loop over the calls does: leave the loop, go on
    to the next call, write a row, or raise. *)
Inductive turn : Type :=
| Break
| Continue
| Write (row : list pyval)
| Fail (e : exn).

(** The body of the loop, for one call: the two range tests in the order
    of the source, then the row. [call.date] is read only for a bound that
    is given. *)
Definition loop_body (start_date stop_date : option Datetime.t)
           (call : PhoneCall) : turn :=
  let before_start :=
    match start_date with
    | None => Ok false
    | Some s => try d <- call_date call in Ok (Datetime.lt d s)
    end in
  match before_start with
  | Raise e => Fail e
  | Ok true => Break
  | Ok false =>
      let after_stop :=
        match stop_date with
        | None => Ok false
        | Some s => try d <- call_date call in Ok (Datetime.ge d s)
        end in
      match after_stop with
      | Raise e => Fail e
      | Ok true => Continue
      | Ok false =>
          match csv_row call None with
          | Raise e => Fail e
          | Ok row => Write row
          end
      end
  end.

(** The loop over the decoded calls. [rows] are the rows handed to the
    writer so far; the result pairs the outcome with the rows written.
    The writer is that of [output=None]: its sink is a [StringIO], which
    takes every row, so that only the body of the loop can raise. A file
    or a stream as the sink can refuse a row on its own (a text that its
    encoding does not have); that is not modelled. *)
Fixpoint write_calls (start_date stop_date : option Datetime.t)
         (calls : list PhoneCall) (rows : list (list pyval))
  : result unit * list (list pyval) :=
  match calls with
  | [] => (Ok tt, rows)
  | call :: rest =>
      match loop_body start_date stop_date call with
      | Fail e => (Raise e, rows)
      | Break => (Ok tt, rows)
      | Continue => write_calls start_date stop_date rest rows
      | Write row => write_calls start_date stop_date rest (rows ++ [row])
      end
  end.

(** [convert_to_csv] from the parsed input on, with [output=None]: the
    outcome, the rows handed to the CSV writer (the header first), the
    store and the lines printed. Reading the input and opening, writing
    and closing a file given as [output] can raise as well; they are not
    modelled. *)
Definition convert_to_csv (calls : json_doc) (start_date stop_date : option date_arg)
           (σ : store)
  : result unit * list (list pyval) * store * list string :=
  match stop_bound stop_date with
  | Raise e => (Raise e, [], σ, [])
  | Ok stop =>
      match from_json tz calls σ with
      | (Raise e, σ', out) => (Raise e, [], σ', out)
      | (Ok (One _), σ', out) =>
          (Raise (TypeError "'PhoneCall' object is not iterable"),
           [map VStr (csv_header None)], σ', out)
      | (Ok (Many cs), σ', out) =>
          let '(r, rows) :=
            write_calls (start_bound start_date) stop cs [map VStr (csv_header None)] in
          (r, rows, σ', out)
      end
  end.

End Converter.

Example csv_header_ex :
  csv_header None
  = ["Date"; "Time"; "Type"; "Duration"; "Number"; "Display Name";
     "Numbertype"; "Presentation"; "Missed Reason"; "Block Reason";
     "Features"; "Countryiso"].
Proof. vm_compute. reflexivity. Qed.

(** ** A concrete zone and sample input *)

(** pytz's table for [Europe/Vienna]: the instants, in seconds since the
    epoch, at which the offset changes, each with the offset in seconds
    that holds from it on. pytz reads the 32-bit part of the zone file:
    the end of local mean time (1893) stands at the least instant that
    part can hold, [- 2^31] (1901-12-13 20:45:52 UTC), and the last entry
    is the end of summer time in 2037. *)
Definition vienna_transitions : list (Z * Z) :=
  [ (- 2147483648, 3600); (- 1693706400, 7200); (- 1680483600, 3600);
    (- 1663455600, 7200); (- 1650150000, 3600); (- 1632006000, 7200);
    (- 1618700400, 3600); (- 1569711600, 7200); (- 1555801200, 3600);
    (- 938905200, 7200); (- 857257200, 3600); (- 844556400, 7200);
    (- 828226800, 3600); (- 812502000, 7200); (- 796777200, 3600);
    (- 781052400, 7200); (- 780188400, 3600); (- 748479600, 7200);
    (- 733273200, 3600); (- 717634800, 7200); (- 701910000, 3600);
    (- 684975600, 7200); (- 670460400, 3600); (323823600, 7200);
    (338940000, 3600); (354675600, 7200); (370400400, 3600);
    (386125200, 7200); (401850000, 3600); (417574800, 7200);
    (433299600, 3600); (449024400, 7200); (465354000, 3600);
    (481078800, 7200); (496803600, 3600); (512528400, 7200);
    (528253200, 3600); (543978000, 7200); (559702800, 3600);
    (575427600, 7200); (591152400, 3600); (606877200, 7200);
    (622602000, 3600); (638326800, 7200); (654656400, 3600);
    (670381200, 7200); (686106000, 3600); (701830800, 7200);
    (717555600, 3600); (733280400, 7200); (749005200, 3600);
    (764730000, 7200); (780454800, 3600); (796179600, 7200);
    (811904400, 3600); (828234000, 7200); (846378000, 3600);
    (859683600, 7200); (877827600, 3600); (891133200, 7200);
    (909277200, 3600); (922582800, 7200); (941331600, 3600);
    (954032400, 7200); (972781200, 3600); (985482000, 7200);
    (1004230800, 3600); (1017536400, 7200); (1035680400, 3600);
    (1048986000, 7200); (1067130000, 3600); (1080435600, 7200);
    (1099184400, 3600); (1111885200, 7200); (1130634000, 3600);
    (1143334800, 7200); (1162083600, 3600); (1174784400, 7200);
    (1193533200, 3600); (1206838800, 7200); (1224982800, 3600);
    (1238288400, 7200); (1256432400, 3600); (1269738000, 7200);
    (1288486800, 3600); (1301187600, 7200); (1319936400, 3600);
    (1332637200, 7200); (1351386000, 3600); (1364691600, 7200);
    (1382835600, 3600); (1396141200, 7200); (1414285200, 3600);
    (1427590800, 7200); (1445734800, 3600); (1459040400, 7200);
    (1477789200, 3600); (1490490000, 7200); (1509238800, 3600);
    (1521939600, 7200); (1540688400, 3600); (1553994000, 7200);
    (1572138000, 3600); (1585443600, 7200); (1603587600, 3600);
    (1616893200, 7200); (1635642000, 3600); (1648342800, 7200);
    (1667091600, 3600); (1679792400, 7200); (1698541200, 3600);
    (1711846800, 7200); (1729990800, 3600); (1743296400, 7200);
    (1761440400, 3600); (1774746000, 7200); (1792890000, 3600);
    (1806195600, 7200); (1824944400, 3600); (1837645200, 7200);
    (1856394000, 3600); (1869094800, 7200); (1887843600, 3600);
    (1901149200, 7200); (1919293200, 3600); (1932598800, 7200);
    (1950742800, 3600); (1964048400, 7200); (1982797200, 3600);
    (1995498000, 7200); (2014246800, 3600); (2026947600, 7200);
    (2045696400, 3600); (2058397200, 7200); (2077146000, 3600);
    (2090451600, 7200); (2108595600, 3600); (2121901200, 7200);
    (2140045200, 3600) ].

(** [tz.fromutc]: the entry of the last change not after the instant
    ([bisect_right] on the table); [off] holds before the first change. *)
Fixpoint offset_at (table : list (Z * Z)) (off : Z) (s : Z) : Z :=
  match table with
  | [] => off
  | (t, o) :: rest => if t <=? s then offset_at rest o s else off
  end.

(** Day of the month of the last Sunday of a 31-day month. *)
Definition last_sunday (y m : Z) : Z :=
  31 - ((Datetime.ymd2ord y m 31 + 6) mod 7 + 1) mod 7.

(** Seconds since the epoch of 01:00 UTC on the last Sunday of month
    [m]. *)
Definition eu_switch (y m : Z) : Z :=
  (Datetime.ymd2ord y m (last_sunday y m) - Datetime.epoch_ord) * 86400 + 3600.

(** pytz's [Europe/Vienna]. Before the first change of the table, and on
    the zone object itself, the offset is local mean time, which pytz
    rounds to the minute: 1:05 ahead of UTC. From 1996 to 2037 the table
    is Central European Time, one hour ahead of UTC, with summer time, two
    hours ahead, from the last Sunday of March to the last Sunday of
    October ([vienna_eu_rule] below). *)
Definition Europe_Vienna : timezone :=
  mkzone 3900 (offset_at vienna_transitions 3900).

Example vienna_eu_rule :
  List.filter (fun p => eu_switch 1996 3 <=? p.1) vienna_transitions
  = flat_map (fun y => [(eu_switch y 3, 7200); (eu_switch y 10, 3600)])
      (map Z.of_nat (seq 1996 42)).
Proof. vm_compute. reflexivity. Qed.

(** A call object as the export writes it: every value is a string. *)
Definition sample_object (date : string) : dict :=
  list_to_map
    [ ("date", JStr date); ("phone_account_hidden", JStr "0");
      ("photo_id", JStr "0"); ("subscription_component_name", JStr "com.android.phone");
      ("type", JStr "1"); ("presentation", JStr "1"); ("duration", JStr "3661");
      ("subscription_id", JStr "1"); ("is_read", JStr "1");
      ("number", JStr "+4312345"); ("features", JStr "0"); ("via_number", JStr "");
      ("last_modified", JStr "1709506700000"); ("new", JStr "1");
      ("missed_reason", JStr "0"); ("phone_account_address", JStr "");
      ("add_for_all_users", JStr "1"); ("block_reason", JStr "0");
      ("priority", JStr "0"); ("countryiso", JStr "AT");
      ("is_call_log_phone_account_migration_pending", JStr "0");
      ("post_dial_digits", JStr ""); ("transcription_state", JStr "0");
      ("_id", JStr "17") ].

Definition sample_store (objs : list dict) : store :=
  fun l => nth l objs ∅.

Definition rows_text (rows : list (list pyval)) : list (list string) :=
  map (map py_str) rows.

(** * Properties *)

(** ** Rows and cells *)

Lemma csv_cells_lookup (self : PhoneCall) (out : gset string) (cols : list string)
      (row : list pyval) :
  csv_cells self out cols = Ok row ->
  forall (i : nat) (f : string),
    cols !! i = Some f ->
    exists cell, csv_cell self out f = Ok cell /\ row !! i = Some cell.
Proof.
  revert row. induction cols as [|c cols IH]; intros row Hrow i f Hi.
  - destruct i; discriminate.
  - simpl in Hrow.
    destruct (csv_cell self out c) as [v|e] eqn:Hc; [|discriminate].
    destruct (csv_cells self out cols) as [vs|e] eqn:Hcs; [|discriminate].
    simpl in Hrow. injection Hrow as <-.
    destruct i as [|i]; simpl in Hi.
    + injection Hi as <-. exists v. split; [exact Hc | reflexivity].
    + destruct (IH vs eq_refl i f Hi) as (cell & H1 & H2).
      exists cell. split; [exact H1 | exact H2].
Qed.

Lemma csv_cells_length (self : PhoneCall) (out : gset string) (cols : list string)
      (row : list pyval) :
  csv_cells self out cols = Ok row -> length row = length cols.
Proof.
  revert row. induction cols as [|c cols IH]; intros row Hrow; simpl in Hrow.
  - injection Hrow as <-. reflexivity.
  - destruct (csv_cell self out c); [|discriminate].
    destruct (csv_cells self out cols) as [vs|]; [|discriminate].
    simpl in Hrow. injection Hrow as <-. simpl. f_equal. apply IH. reflexivity.
Qed.

(** A row was produced only if every column passed the check. *)
Lemma csv_row_ok_inv (self : PhoneCall) (cols : list string) (row : list pyval) :
  csv_row self (Some cols) = Ok row ->
  csv_cells self (list_to_set cols) cols = Ok row
  /\ forall f, f ∈ cols -> f = "time" \/ f ∈ field_names.
Proof.
  unfold csv_row. simpl.
  destruct (bool_decide (list_to_set cols ∖ csv_aliases ⊆ call_fields)) eqn:Hsub;
    simpl; [|discriminate].
  intros Hcells. split; [exact Hcells|].
  intros f Hf. apply bool_decide_eq_true in Hsub.
  destruct (decide (f = "time")) as [->|Hne]; [left; reflexivity|right].
  assert (Hin : f ∈ (list_to_set cols ∖ csv_aliases : gset string)).
  { apply elem_of_difference. split.
    - apply elem_of_list_to_set. exact Hf.
    - unfold csv_aliases. rewrite elem_of_singleton. exact Hne. }
  apply Hsub in Hin. unfold call_fields in Hin.
  apply elem_of_list_to_set in Hin. exact Hin.
Qed.

Lemma csv_row_lookup (self : PhoneCall) (cols : list string) (row : list pyval)
      (i : nat) (f : string) :
  csv_row self (Some cols) = Ok row ->
  cols !! i = Some f ->
  (f = "time" \/ f ∈ field_names)
  /\ exists cell, csv_cell self (list_to_set cols) f = Ok cell /\ row !! i = Some cell.
Proof.
  intros Hrow Hi. destruct (csv_row_ok_inv _ _ _ Hrow) as [Hcells Hnames].
  split.
  - apply Hnames. apply list_elem_of_lookup. exists i. exact Hi.
  - eapply csv_cells_lookup; eauto.
Qed.

Lemma formatted_numer_not_field : "formatted_numer" ∉ field_names.
Proof.
  intros H. apply list_elem_of_In in H. simpl in H.
  repeat (destruct H as [H|H]; [discriminate H|]). exact H.
Qed.

(** The cell of an ordinary column depends on the attribute alone. *)
Lemma csv_cell_plain (self : PhoneCall) (out : gset string) (f : string) :
  f <> "date" -> f <> "time" -> f <> "formatted_numer" ->
  csv_cell self out f =
  Ok (VStr (match getattr self f with
            | VDatetime d => Datetime.strftime_dmY_HMS d
            | VTimedelta td => PyStr.rjust 8 "0" (Timedelta.str td)
            | VBool b => if b then "Yes" else "No"
            | VNone => ""
            | v => py_str v
            end)).
Proof.
  intros Hd Ht Hf. unfold csv_cell.
  apply String.eqb_neq in Hd, Ht, Hf. rewrite Hd, Ht, Hf.
  destruct (getattr self f); reflexivity.
Qed.

Lemma csv_row_plain (self : PhoneCall) (cols : list string) (row : list pyval)
      (i : nat) (f : string) (v : pyval) :
  csv_row self (Some cols) = Ok row ->
  cols !! i = Some f ->
  f <> "date" -> f <> "time" ->
  self !! f = Some v ->
  row !! i = Some (VStr (match v with
                         | VDatetime d => Datetime.strftime_dmY_HMS d
                         | VTimedelta td => PyStr.rjust 8 "0" (Timedelta.str td)
                         | VBool b => if b then "Yes" else "No"
                         | VNone => ""
                         | v => py_str v
                         end)).
Proof.
  intros Hrow Hi Hd Ht Hv.
  destruct (csv_row_lookup _ _ _ _ _ Hrow Hi) as [Hname (cell & Hcell & Hget)].
  assert (Hf : f <> "formatted_numer").
  { intros ->. destruct Hname as [Hname|Hname]; [discriminate|].
    exact (formatted_numer_not_field Hname). }
  rewrite (csv_cell_plain self _ f Hd Ht Hf) in Hcell.
  unfold getattr in Hcell. rewrite Hv in Hcell.
  injection Hcell as <-. rewrite Hget.
  destruct v as [|[|]| | | | | |]; reflexivity.
Qed.

(** C10. A flag value of zero ([MissedReason] [NOT_MISSED], an empty
    [CallFeatures]) and the [NumberType] of value 0 are written as the empty
    string in whatever column of a row they appear. *)
Theorem zero_value_renders_empty (self : PhoneCall) (cols : list string)
        (row : list pyval) (i : nat) (f : string) :
  csv_row self (Some cols) = Ok row ->
  cols !! i = Some f ->
  f <> "date" -> f <> "time" ->
  self !! f = Some (VFlag MissedReason 0)
  \/ self !! f = Some (VFlag CallFeatures 0)
  \/ self !! f = Some (VEnum NumberType 0) ->
  row !! i = Some (VStr "").
Proof.
  intros Hrow Hi Hd Ht [Hv|[Hv|Hv]];
    rewrite (csv_row_plain _ _ _ _ _ _ Hrow Hi Hd Ht Hv); reflexivity.
Qed.

Lemma zero_value_renders_empty_witness :
  let self : PhoneCall :=
    <["missed_reason" := VFlag MissedReason 0]>
      (<["numbertype" := VEnum NumberType 0]> ∅) in
  [VStr ""; VStr ""] !! 1%nat = Some (VStr "").
Proof.
  intros self.
  apply (zero_value_renders_empty self ["numbertype"; "missed_reason"]
                                  [VStr ""; VStr ""] 1 "missed_reason").
  - vm_compute. reflexivity.
  - reflexivity.
  - discriminate.
  - discriminate.
  - left. vm_compute. reflexivity.
Defined.

(** The names of zero values are not what is written: [NOT_MISSED] has a
    name, the empty feature set has none. *)
Lemma zero_value_names :
  Enum.flag_name MissedReason 0 = Some "NOT_MISSED"
  /\ Enum.flag_name CallFeatures 0 = None
  /\ Enum.name_of_value (enum_members NumberType) 0 = Some "_"
  /\ Enum.flag_str MissedReason 0 = ""
  /\ Enum.flag_str CallFeatures 0 = ""
  /\ Enum.enum_str NumberType 0 = "".
Proof. vm_compute. repeat split. Qed.

(** C6. A column list with a name that is neither a field of the record
    nor the alias [time] is rejected by [csv_row] with its [ValueError],
    whatever the record holds: no cell is computed and no row is returned.
    The name is among those the message lists. *)
Theorem unknown_column_rejected (self : PhoneCall) (cols : list string) (f : string) :
  f ∈ cols -> f ∉ field_names -> f <> "time" ->
  csv_row self (Some cols) = Raise (ValueError "Unknown field(s) in list")
  /\ f ∈ unknown_fields cols
  /\ forall row, csv_row self (Some cols) <> Ok row.
Proof.
  intros Hin Hnot Hne.
  assert (Hu : f ∈ unknown_fields cols).
  { unfold unknown_fields. apply elem_of_difference. split.
    - apply elem_of_difference. split.
      + apply elem_of_list_to_set. exact Hin.
      + unfold csv_aliases. rewrite elem_of_singleton. exact Hne.
    - unfold call_fields. rewrite elem_of_list_to_set. exact Hnot. }
  assert (Hr : csv_row self (Some cols) = Raise (ValueError "Unknown field(s) in list")).
  { unfold csv_row. simpl.
    destruct (bool_decide (list_to_set cols ∖ csv_aliases ⊆ call_fields)) eqn:Hsub;
      [|reflexivity].
    apply bool_decide_eq_true in Hsub. exfalso.
    unfold unknown_fields in Hu. apply elem_of_difference in Hu as [Hu1 Hu2].
    apply Hu2. apply Hsub. exact Hu1. }
  split; [exact Hr|]. split; [exact Hu|].
  intros row Hrow. rewrite Hr in Hrow. discriminate.
Qed.

Lemma unknown_column_rejected_witness :
  csv_row ∅ (Some ["date"; "formatted_number"])
  = Raise (ValueError "Unknown field(s) in list")
  /\ "formatted_number" ∈ unknown_fields ["date"; "formatted_number"]
  /\ forall row, csv_row ∅ (Some ["date"; "formatted_number"]) <> Ok row.
Proof.
  apply (unknown_column_rejected ∅ ["date"; "formatted_number"] "formatted_number").
  - apply list_elem_of_In. simpl. right. left. reflexivity.
  - intros H. apply list_elem_of_In in H. simpl in H.
    repeat (destruct H as [H|H]; [discriminate H|]). exact H.
  - discriminate.
Defined.

(** ** Texts made of digits *)

Fixpoint all_digits (s : string) : bool :=
  match s with
  | EmptyString => true
  | String c r => PyStr.is_digit c && all_digits r
  end.

(** [c] does not occur in [s]. *)
Fixpoint no_char (c : ascii) (s : string) : bool :=
  match s with
  | EmptyString => true
  | String a r => negb (Ascii.eqb a c) && no_char c r
  end.

Lemma app_cons (c : ascii) (a b : string) : String c a ++ b = String c (a ++ b).
Proof. reflexivity. Qed.

Lemma app_empty (b : string) : "" ++ b = b.
Proof. reflexivity. Qed.

Lemma append_empty_r (s : string) : s ++ "" = s.
Proof. induction s as [|c s IH]; [reflexivity|]. rewrite app_cons, IH. reflexivity. Qed.

Lemma app_assoc_str (a b c : string) : (a ++ b) ++ c = a ++ (b ++ c).
Proof.
  induction a as [|x a IH]; [reflexivity|].
  rewrite !app_cons, IH. reflexivity.
Qed.

Lemma length_app_str (a b : string) :
  String.length (a ++ b) = (String.length a + String.length b)%nat.
Proof.
  induction a as [|x a IH]; [reflexivity|].
  rewrite app_cons. simpl. rewrite IH. reflexivity.
Qed.

Lemma no_char_app (c : ascii) (a b : string) :
  no_char c (a ++ b) = no_char c a && no_char c b.
Proof.
  induction a as [|x a IH]; [reflexivity|].
  rewrite app_cons. simpl. rewrite IH. apply andb_assoc.
Qed.

Lemma all_digits_no_char (c : ascii) (s : string) :
  PyStr.is_digit c = false -> all_digits s = true -> no_char c s = true.
Proof.
  intros Hc. induction s as [|a s IH]; [reflexivity|].
  simpl. intros [Ha Hs]%andb_true_iff. rewrite (IH Hs), andb_true_r.
  destruct (Ascii.eqb_spec a c) as [->|]; [congruence|reflexivity].
Qed.

Lemma split_no_sep (c : ascii) (s : string) :
  no_char c s = true -> PyStr.split c s = [s].
Proof.
  induction s as [|a s IH]; [reflexivity|].
  simpl. intros [Ha Hs]%andb_true_iff.
  apply negb_true_iff in Ha. rewrite Ha, (IH Hs). reflexivity.
Qed.

Lemma split_app_sep (c : ascii) (a b : string) :
  no_char c a = true -> PyStr.split c (a ++ String c b) = a :: PyStr.split c b.
Proof.
  induction a as [|x a IH]; intros Ha.
  - rewrite app_empty. simpl. rewrite Ascii.eqb_refl. reflexivity.
  - simpl in Ha. apply andb_true_iff in Ha as [Hx Ha].
    apply negb_true_iff in Hx.
    rewrite app_cons. simpl. rewrite Hx, (IH Ha). reflexivity.
Qed.

(** Checking a property of the numbers below a bound by running through
    them. *)
Lemma forall_below (P : Z -> bool) (b : Z) :
  forallb P (map Z.of_nat (seq 0 (Z.to_nat b))) = true ->
  forall k, 0 <= k < b -> P k = true.
Proof.
  intros Hall k Hk. rewrite forallb_forall in Hall. apply Hall.
  apply in_map_iff. exists (Z.to_nat k). split; [lia|].
  apply in_seq. lia.
Qed.

(** The number a text of digits stands for. *)
Definition number (s : string) : option Z :=
  if all_digits s && negb (String.eqb s "") then PyStr.digits_value s else None.

Definition two_digits_ok (k : Z) : bool :=
  let s := PyStr.zero_pad 2 k in
  all_digits s && (String.length s =? 2)%nat
  && match number s with Some v => v =? k | None => false end.

Lemma two_digits (k : Z) :
  0 <= k < 100 ->
  all_digits (PyStr.zero_pad 2 k) = true
  /\ String.length (PyStr.zero_pad 2 k) = 2%nat
  /\ number (PyStr.zero_pad 2 k) = Some k.
Proof.
  intros Hk.
  assert (H : two_digits_ok k = true).
  { apply (forall_below two_digits_ok 100); [vm_compute; reflexivity | lia]. }
  unfold two_digits_ok in H.
  apply andb_true_iff in H as [[H1 H2]%andb_true_iff H3].
  split; [exact H1|]. split; [apply Nat.eqb_eq; exact H2|].
  destruct (number (PyStr.zero_pad 2 k)) as [v|]; [|discriminate].
  apply Z.eqb_eq in H3. congruence.
Qed.

Lemma string_of_uint_digits (d : Decimal.uint) :
  all_digits (NilEmpty.string_of_uint d) = true.
Proof. induction d; simpl; auto. Qed.

Lemma string_of_uint_nonempty (d : Decimal.uint) :
  d <> Decimal.Nil -> NilEmpty.string_of_uint d <> "".
Proof. destruct d; simpl; congruence. Qed.

(** The text of a non-negative number consists of digits and reads back
    as the number. *)
Lemma of_Z_digits (k : Z) :
  0 <= k ->
  all_digits (PyStr.of_Z k) = true /\ number (PyStr.of_Z k) = Some k.
Proof.
  intros Hk. destruct k as [|p|p]; [split; reflexivity | | lia].
  pose proof (DecimalPos.Unsigned.to_uint_nonnil p) as Hnil.
  assert (Hs : PyStr.of_Z (Z.pos p) = NilEmpty.string_of_uint (Pos.to_uint p)).
  { unfold PyStr.of_Z, Z.to_int, NilZero.string_of_int, NilZero.string_of_uint.
    destruct (Pos.to_uint p); [contradiction | reflexivity ..]. }
  rewrite Hs. split; [apply string_of_uint_digits|].
  unfold number. rewrite string_of_uint_digits. simpl andb.
  pose proof (string_of_uint_nonempty _ Hnil) as Hne.
  apply String.eqb_neq in Hne. rewrite Hne. simpl negb. cbv iota.
  unfold PyStr.digits_value. rewrite NilEmpty.usu.
  unfold Z.of_uint. rewrite DecimalPos.Unsigned.of_to. reflexivity.
Qed.

(** The digit [k] put in front of a decimal number. *)
Definition dcons (k : Z) (u : Decimal.uint) : Decimal.uint :=
  match k with
  | 0 => Decimal.D0 u | 1 => Decimal.D1 u | 2 => Decimal.D2 u | 3 => Decimal.D3 u
  | 4 => Decimal.D4 u | 5 => Decimal.D5 u | 6 => Decimal.D6 u | 7 => Decimal.D7 u
  | 8 => Decimal.D8 u | _ => Decimal.D9 u
  end.

Lemma digit_cases (k : Z) :
  0 <= k <= 9 ->
  k = 0 \/ k = 1 \/ k = 2 \/ k = 3 \/ k = 4 \/ k = 5 \/ k = 6 \/ k = 7 \/ k = 8 \/ k = 9.
Proof. lia. Qed.

Lemma of_uint_acc_dcons (k : Z) (u : Decimal.uint) (acc : positive) :
  0 <= k <= 9 ->
  Pos.of_uint_acc (dcons k u) acc = Pos.of_uint_acc u (Z.to_pos (10 * Z.pos acc + k)).
Proof.
  intros Hk.
  destruct (digit_cases k Hk) as [->|[->|[->|[->|[->|[->|[->|[->|[->| ->]]]]]]]]];
    cbn [dcons Pos.of_uint_acc]; f_equal; apply Pos2Z.inj;
    rewrite Z2Pos.id by lia; lia.
Qed.

Lemma of_uint_dcons (k : Z) (u : Decimal.uint) :
  1 <= k <= 9 ->
  Pos.of_uint (dcons k u) = Npos (Pos.of_uint_acc u (Z.to_pos k))
  /\ unorm (dcons k u) = dcons k u.
Proof.
  intros Hk.
  destruct (digit_cases k ltac:(lia)) as [->|[->|[->|[->|[->|[->|[->|[->|[->| ->]]]]]]]]];
    try lia; split; reflexivity.
Qed.

Lemma string_of_dcons (k : Z) (u : Decimal.uint) :
  0 <= k <= 9 ->
  String.length (NilEmpty.string_of_uint (dcons k u))
  = S (String.length (NilEmpty.string_of_uint u)).
Proof.
  intros Hk.
  destruct (digit_cases k Hk) as [->|[->|[->|[->|[->|[->|[->|[->|[->| ->]]]]]]]]];
    reflexivity.
Qed.

(** The text of a number from 1000 to 9999 has four characters. *)
Lemma of_Z_four_digits (y : Z) :
  1000 <= y <= 9999 -> String.length (PyStr.of_Z y) = 4%nat.
Proof.
  intros Hy.
  set (a := y / 1000). set (b := y / 100 mod 10). set (c := y / 10 mod 10).
  set (d := y mod 10).
  assert (Hd : 1 <= a <= 9 /\ 0 <= b <= 9 /\ 0 <= c <= 9 /\ 0 <= d <= 9
               /\ y = ((a * 10 + b) * 10 + c) * 10 + d).
  { subst a b c d. Z.div_mod_to_equations. lia. }
  destruct Hd as (Ha & Hb & Hc & Hdd & Hval).
  set (u := dcons a (dcons b (dcons c (dcons d Decimal.Nil)))).
  assert (Hof : Pos.of_uint u = Npos (Z.to_pos y)).
  { unfold u. destruct (of_uint_dcons a (dcons b (dcons c (dcons d Decimal.Nil))) Ha)
      as [-> _].
    rewrite !of_uint_acc_dcons by lia. cbn [Pos.of_uint_acc]. do 2 f_equal.
    rewrite !Z2Pos.id by lia. lia. }
  assert (Hto : Pos.to_uint (Z.to_pos y) = u).
  { pose proof (DecimalPos.Unsigned.to_of u) as H. rewrite Hof in H.
    cbn [N.to_uint] in H. rewrite H. unfold u. apply of_uint_dcons. exact Ha. }
  assert (Hs : PyStr.of_Z y = NilEmpty.string_of_uint u).
  { destruct y as [|p|p]; try lia.
    unfold PyStr.of_Z, Z.to_int, NilZero.string_of_int, NilZero.string_of_uint.
    cbn [Z.to_pos] in Hto. rewrite Hto.
    unfold u. destruct (digit_cases a ltac:(lia))
      as [->|[->|[->|[->|[->|[->|[->|[->|[->| ->]]]]]]]]]; try lia; reflexivity. }
  rewrite Hs. unfold u. rewrite !string_of_dcons by lia. reflexivity.
Qed.

(** The number of digits of a year from 1 to 9999. *)
Definition year_digits (y : Z) : nat :=
  if y <? 10 then 1 else if y <? 100 then 2 else if y <? 1000 then 3 else 4.

Definition short_year_ok (y : Z) : bool :=
  (y =? 0) || (String.length (PyStr.of_Z y) =? year_digits y)%nat.

Lemma of_Z_year_length (y : Z) :
  1 <= y <= 9999 -> String.length (PyStr.of_Z y) = year_digits y.
Proof.
  intros Hy. destruct (Z.ltb_spec y 1000) as [Hlt|Hge].
  - assert (H : short_year_ok y = true).
    { apply (forall_below short_year_ok 1000); [vm_compute; reflexivity | lia]. }
    unfold short_year_ok in H. apply orb_true_iff in H as [H|H].
    + apply Z.eqb_eq in H. lia.
    + apply Nat.eqb_eq. exact H.
  - rewrite of_Z_four_digits by lia. unfold year_digits.
    destruct (Z.ltb_spec y 10); [lia|]. destruct (Z.ltb_spec y 100); [lia|].
    destruct (Z.ltb_spec y 1000); [lia|]. reflexivity.
Qed.

Lemma split3 (c : ascii) (a b d : string) :
  no_char c a = true -> no_char c b = true -> no_char c d = true ->
  PyStr.split c (a ++ String c (b ++ String c d)) = [a; b; d].
Proof.
  intros Ha Hb Hd.
  rewrite (split_app_sep c a _ Ha), (split_app_sep c b _ Hb), (split_no_sep c d Hd).
  reflexivity.
Qed.

Lemma no_char3 (c x : ascii) (a b d : string) :
  Ascii.eqb x c = false ->
  no_char c a = true -> no_char c b = true -> no_char c d = true ->
  no_char c (a ++ String x (b ++ String x d)) = true.
Proof.
  intros Hx Ha Hb Hd.
  rewrite no_char_app, Ha. simpl. rewrite Hx. simpl.
  rewrite no_char_app, Hb. simpl. rewrite Hx, Hd. reflexivity.
Qed.

(** ** Durations *)

(** The shape the specification gives a duration cell: hours, minutes and
    seconds in digits, separated by colons, at least two digits for the
    hours and two each for minutes and seconds. *)
Definition hms_form (s : string) : bool :=
  match PyStr.split ":" s with
  | [h; m; x] =>
      all_digits h && (2 <=? String.length h)%nat
      && all_digits m && (String.length m =? 2)%nat
      && all_digits x && (String.length x =? 2)%nat
  | _ => false
  end.

Lemma rjust_hms (h m x : string) :
  String.length m = 2%nat -> String.length x = 2%nat ->
  PyStr.rjust 8 "0" (h ++ ":" ++ m ++ ":" ++ x)
  = PyStr.rjust 2 "0" h ++ ":" ++ m ++ ":" ++ x.
Proof.
  intros Hm Hx. unfold PyStr.rjust.
  rewrite !length_app_str, Hm, Hx. simpl String.length.
  replace (8 - (String.length h + (1 + (2 + (1 + 2)))))%nat
    with (2 - String.length h)%nat by lia.
  rewrite app_assoc_str. reflexivity.
Qed.

Lemma hms_form_parts (h m x : string) :
  all_digits h = true -> all_digits m = true -> all_digits x = true ->
  String.length h = 2%nat -> String.length m = 2%nat -> String.length x = 2%nat ->
  hms_form (h ++ ":" ++ m ++ ":" ++ x) = true.
Proof.
  intros Hh Hm Hx Lh Lm Lx. unfold hms_form.
  change (h ++ ":" ++ m ++ ":" ++ x) with (h ++ String ":" (m ++ String ":" x)).
  rewrite split3 by (apply all_digits_no_char; [reflexivity | assumption]).
  rewrite Hh, Hm, Hx, Lh, Lm, Lx. reflexivity.
Qed.

Lemma timedelta_str_below_a_day (n : Z) :
  0 <= n < 86400 ->
  Timedelta.of_seconds n = Ok (Timedelta.mk 0 n 0)
  /\ Timedelta.str (Timedelta.mk 0 n 0)
     = PyStr.of_Z (n / 3600) ++ ":" ++ PyStr.zero_pad 2 (n / 60 mod 60) ++ ":"
       ++ PyStr.zero_pad 2 (n mod 60).
Proof.
  intros Hn. split.
  - unfold Timedelta.of_seconds.
    rewrite (Z.div_small n 86400), (Z.mod_small n 86400) by lia.
    reflexivity.
  - unfold Timedelta.str. simpl.
    replace (n / 60 / 60) with (n / 3600); [reflexivity|].
    rewrite Z.div_div by lia. reflexivity.
Qed.

(** C4, as amended. A duration of at least 0 and less than 86400 seconds
    is written as [HH:MM:SS], two digits each and eight characters in all:
    the hours, the minutes and the seconds of the duration. In a row, the
    cell of an attribute holding that duration is this text. *)
Theorem duration_below_a_day_is_hms (n : Z) :
  0 <= n < 86400 ->
  exists td,
    Timedelta.of_seconds n = Ok td
    /\ PyStr.rjust 8 "0" (Timedelta.str td)
       = PyStr.zero_pad 2 (n / 3600) ++ ":" ++ PyStr.zero_pad 2 (n / 60 mod 60)
         ++ ":" ++ PyStr.zero_pad 2 (n mod 60)
    /\ hms_form (PyStr.rjust 8 "0" (Timedelta.str td)) = true
    /\ String.length (PyStr.rjust 8 "0" (Timedelta.str td)) = 8%nat
    /\ forall (self : PhoneCall) (cols : list string) (row : list pyval)
              (i : nat) (f : string),
        csv_row self (Some cols) = Ok row ->
        cols !! i = Some f -> f <> "date" -> f <> "time" ->
        self !! f = Some (VTimedelta td) ->
        row !! i = Some (VStr (PyStr.rjust 8 "0" (Timedelta.str td))).
Proof.
  intros Hn. destruct (timedelta_str_below_a_day n Hn) as [Hof Hstr].
  exists (Timedelta.mk 0 n 0). split; [exact Hof|].
  assert (Hh : 0 <= n / 3600 < 100).
  { split; [apply Z.div_pos; lia|]. apply Z.div_lt_upper_bound; lia. }
  assert (Hm : 0 <= n / 60 mod 60 < 100).
  { pose proof (Z.mod_pos_bound (n / 60) 60). lia. }
  assert (Hs : 0 <= n mod 60 < 100).
  { pose proof (Z.mod_pos_bound n 60). lia. }
  destruct (two_digits _ Hh) as (Dh & Lh & _).
  destruct (two_digits _ Hm) as (Dm & Lm & _).
  destruct (two_digits _ Hs) as (Ds & Ls & _).
  assert (Hcell : PyStr.rjust 8 "0" (Timedelta.str (Timedelta.mk 0 n 0))
                  = PyStr.zero_pad 2 (n / 3600) ++ ":"
                    ++ PyStr.zero_pad 2 (n / 60 mod 60) ++ ":"
                    ++ PyStr.zero_pad 2 (n mod 60)).
  { rewrite Hstr. apply rjust_hms; assumption. }
  split; [exact Hcell|]. split.
  { rewrite Hcell. apply hms_form_parts; assumption. }
  split.
  { rewrite Hcell, !length_app_str, Lh, Lm, Ls. reflexivity. }
  intros self cols row i f Hrow Hi Hd Ht Hv.
  exact (csv_row_plain _ _ _ _ _ _ Hrow Hi Hd Ht Hv).
Qed.

Lemma duration_below_a_day_is_hms_witness :
  exists td,
    Timedelta.of_seconds 3661 = Ok td
    /\ PyStr.rjust 8 "0" (Timedelta.str td) = "01:01:01"
    /\ hms_form (PyStr.rjust 8 "0" (Timedelta.str td)) = true
    /\ String.length (PyStr.rjust 8 "0" (Timedelta.str td)) = 8%nat
    /\ forall (self : PhoneCall) (cols : list string) (row : list pyval)
              (i : nat) (f : string),
        csv_row self (Some cols) = Ok row ->
        cols !! i = Some f -> f <> "date" -> f <> "time" ->
        self !! f = Some (VTimedelta td) ->
        row !! i = Some (VStr (PyStr.rjust 8 "0" (Timedelta.str td))).
Proof.
  apply (duration_below_a_day_is_hms 3661). lia.
Defined.

(** The two durations the specification names. *)
Example duration_examples :
  map (fun n => match Timedelta.of_seconds n with
                | Ok td => PyStr.rjust 8 "0" (Timedelta.str td)
                | Raise _ => "" end) [0; 3661]
  = ["00:00:00"; "01:01:01"].
Proof. vm_compute. reflexivity. Qed.

(** C4 as stated fails from one day on: 86400 seconds are written with a
    day count in front, which is not the [HH:MM:SS] shape. *)
Lemma duration_of_a_day_not_hms :
  exists td,
    Timedelta.of_seconds 86400 = Ok td
    /\ csv_row (<["duration" := VTimedelta td]> ∅) (Some ["duration"])
       = Ok [VStr "1 day, 0:00:00"]
    /\ hms_form "1 day, 0:00:00" = false.
Proof.
  exists (Timedelta.mk 1 0 0). vm_compute. repeat split.
Qed.

(** ** The date and time columns *)

(** Reading back a text [DD.MM.YYYY HH:MM:SS]: year, month, day, hour,
    minute and second. *)
Definition parse_timestamp (s : string) : option (Z * Z * Z * Z * Z * Z) :=
  match PyStr.split " " s with
  | [dmy; hms] =>
      match PyStr.split "." dmy, PyStr.split ":" hms with
      | [d; m; y], [hh; mi; ss] =>
          match number d, number m, number y, number hh, number mi, number ss with
          | Some d, Some m, Some y, Some hh, Some mi, Some ss =>
              Some (y, m, d, hh, mi, ss)
          | _, _, _, _, _, _ => None
          end
      | _, _ => None
      end
  | _ => None
  end.

Lemma days_in_month_le (y m : Z) : Datetime.days_in_month y m <= 31.
Proof.
  unfold Datetime.days_in_month.
  destruct (m =? 2); [destruct (Datetime.is_leap y); lia|].
  destruct ((m =? 4) || (m =? 6) || (m =? 9) || (m =? 11)); lia.
Qed.

Lemma parse_strftime (d : Datetime.t) :
  Datetime.valid d ->
  parse_timestamp (Datetime.strftime_dmY d ++ " " ++ Datetime.strftime_HMS d)
  = Some (Datetime.year d, Datetime.month d, Datetime.day d,
          Datetime.hour d, Datetime.minute d, Datetime.second d).
Proof.
  intros (Hy & Hm & Hd & HH & HM & HS & _).
  unfold Datetime.MINYEAR, Datetime.MAXYEAR in Hy.
  pose proof (days_in_month_le (Datetime.year d) (Datetime.month d)) as Hdim.
  destruct (two_digits (Datetime.day d)) as (Dd & _ & Nd); [lia|].
  destruct (two_digits (Datetime.month d)) as (Dm & _ & Nm); [lia|].
  destruct (of_Z_digits (Datetime.year d)) as (Dy & Ny); [lia|].
  destruct (two_digits (Datetime.hour d)) as (DH & _ & NH); [lia|].
  destruct (two_digits (Datetime.minute d)) as (DM & _ & NM); [lia|].
  destruct (two_digits (Datetime.second d)) as (DS & _ & NS); [lia|].
  unfold parse_timestamp, Datetime.strftime_dmY, Datetime.strftime_HMS.
  set (sd := PyStr.zero_pad 2 (Datetime.day d)) in *.
  set (sm := PyStr.zero_pad 2 (Datetime.month d)) in *.
  set (sy := PyStr.of_Z (Datetime.year d)) in *.
  set (sH := PyStr.zero_pad 2 (Datetime.hour d)) in *.
  set (sM := PyStr.zero_pad 2 (Datetime.minute d)) in *.
  set (sS := PyStr.zero_pad 2 (Datetime.second d)) in *.
  change ((sd ++ "." ++ sm ++ "." ++ sy) ++ " " ++ sH ++ ":" ++ sM ++ ":" ++ sS)
    with ((sd ++ String "." (sm ++ String "." sy))
            ++ String " " (sH ++ String ":" (sM ++ String ":" sS))).
  rewrite split_app_sep
    by (apply no_char3; [reflexivity | apply all_digits_no_char; [reflexivity | assumption] ..]).
  rewrite split_no_sep
    by (apply no_char3; [reflexivity | apply all_digits_no_char; [reflexivity | assumption] ..]).
  rewrite !split3 by (apply all_digits_no_char; [reflexivity | assumption]).
  rewrite Nd, Nm, Ny, NH, NM, NS. reflexivity.
Qed.

Lemma strftime_HMS_length (d : Datetime.t) :
  Datetime.valid d -> String.length (Datetime.strftime_HMS d) = 8%nat.
Proof.
  intros (_ & _ & _ & HH & HM & HS & _).
  destruct (two_digits (Datetime.hour d)) as (_ & LH & _); [lia|].
  destruct (two_digits (Datetime.minute d)) as (_ & LM & _); [lia|].
  destruct (two_digits (Datetime.second d)) as (_ & LS & _); [lia|].
  unfold Datetime.strftime_HMS.
  rewrite !length_app_str, LH, LM, LS. reflexivity.
Qed.

Lemma default_check_date_time :
  bool_decide ((list_to_set ["date"; "time"] : gset string) ∖ csv_aliases ⊆ call_fields) = true.
Proof. vm_compute. reflexivity. Qed.

Lemma csv_cell_date (self : PhoneCall) (out : gset string) (d : Datetime.t) :
  self !! "date" = Some (VDatetime d) ->
  csv_cell self out "date"
  = Ok (VStr (if bool_decide ("time" ∈ out)
              then Datetime.strftime_dmY d
              else Datetime.strftime_dmY_HMS d)).
Proof.
  intros Hd. unfold csv_cell, self_date. rewrite Hd. reflexivity.
Qed.

Lemma csv_cell_time (self : PhoneCall) (out : gset string) (d : Datetime.t) :
  self !! "date" = Some (VDatetime d) ->
  csv_cell self out "time" = Ok (VStr (Datetime.strftime_HMS d)).
Proof.
  intros Hd. unfold csv_cell, self_date. rewrite Hd. reflexivity.
Qed.

(** [s] consists of groups of digits of the given lengths, with [sep]
    between them. *)
Definition digit_groups (sep : ascii) (lens : list nat) (s : string) : bool :=
  forallb all_digits (PyStr.split sep s)
  && bool_decide (map String.length (PyStr.split sep s) = lens).

Lemma digit_groups3 (c : ascii) (a b d : string) :
  PyStr.is_digit c = false ->
  all_digits a = true -> all_digits b = true -> all_digits d = true ->
  digit_groups c [String.length a; String.length b; String.length d]
    (a ++ String c (b ++ String c d)) = true.
Proof.
  intros Hc Ha Hb Hd. unfold digit_groups.
  rewrite split3 by (apply all_digits_no_char; assumption).
  cbn [forallb map]. rewrite Ha, Hb, Hd. cbn [andb].
  apply bool_decide_eq_true_2. reflexivity.
Qed.

Lemma strftime_HMS_shape (d : Datetime.t) :
  Datetime.valid d -> digit_groups ":" [2; 2; 2]%nat (Datetime.strftime_HMS d) = true.
Proof.
  intros (_ & _ & _ & HH & HM & HS & _).
  destruct (two_digits (Datetime.hour d)) as (DH & LH & _); [lia|].
  destruct (two_digits (Datetime.minute d)) as (DM & LM & _); [lia|].
  destruct (two_digits (Datetime.second d)) as (DS & LS & _); [lia|].
  pose proof (digit_groups3 ":" _ _ _ eq_refl DH DM DS) as H.
  rewrite LH, LM, LS in H. exact H.
Qed.

Lemma strftime_dmY_shape (d : Datetime.t) :
  Datetime.valid d ->
  digit_groups "." [2; 2; year_digits (Datetime.year d)]%nat (Datetime.strftime_dmY d)
  = true.
Proof.
  intros (Hy & Hm & Hd & _).
  unfold Datetime.MINYEAR, Datetime.MAXYEAR in Hy.
  pose proof (days_in_month_le (Datetime.year d) (Datetime.month d)) as Hdim.
  destruct (two_digits (Datetime.day d)) as (Dd & Ld & _); [lia|].
  destruct (two_digits (Datetime.month d)) as (Dm & Lm & _); [lia|].
  destruct (of_Z_digits (Datetime.year d)) as (Dy & _); [lia|].
  pose proof (digit_groups3 "." _ _ _ eq_refl Dd Dm Dy) as H.
  rewrite Ld, Lm, (of_Z_year_length (Datetime.year d)) in H by lia. exact H.
Qed.

Lemma strftime_dmY_length (d : Datetime.t) :
  Datetime.valid d ->
  String.length (Datetime.strftime_dmY d) = (6 + year_digits (Datetime.year d))%nat.
Proof.
  intros (Hy & Hm & Hd & _).
  unfold Datetime.MINYEAR, Datetime.MAXYEAR in Hy.
  pose proof (days_in_month_le (Datetime.year d) (Datetime.month d)) as Hdim.
  destruct (two_digits (Datetime.day d)) as (_ & Ld & _); [lia|].
  destruct (two_digits (Datetime.month d)) as (_ & Lm & _); [lia|].
  unfold Datetime.strftime_dmY.
  rewrite !length_app_str, Ld, Lm, (of_Z_year_length (Datetime.year d)) by lia.
  reflexivity.
Qed.

(** Two timestamps written alike have the same wall clock to the second. *)
Lemma same_columns_same_clock (d d' : Datetime.t) :
  Datetime.valid d -> Datetime.valid d' ->
  Datetime.strftime_dmY d' = Datetime.strftime_dmY d ->
  Datetime.strftime_HMS d' = Datetime.strftime_HMS d ->
  Datetime.wall_seconds d' = Datetime.wall_seconds d.
Proof.
  intros Hv Hv' Hdate Htime.
  pose proof (parse_strftime d Hv) as Hp.
  pose proof (parse_strftime d' Hv') as Hp'.
  rewrite Hdate, Htime, Hp in Hp'.
  injection Hp' as Hy Hm Hd HH HM HS.
  unfold Datetime.wall_seconds. rewrite Hy, Hm, Hd, HH, HM, HS. reflexivity.
Qed.

(** C3. With the columns [date] and [time] a row consists of the date
    alone, [%d.%m.%Y], and of the time, [%H:%M:%S]. The time is three
    groups of two digits, eight characters. The date is two digits of day,
    two of month and the year in decimal without padding: [DD.MM.YYYY],
    ten characters, from the year 1000 on, and shorter before. The two
    texts joined by a space read back as the year, month, day, hour,
    minute and second of the record's timestamp, which are those of its
    wall clock in the local zone: the offset from UTC is not written, so
    two timestamps with the same two columns have the same wall clock to
    the second, and their instants differ by the difference of their
    offsets and microseconds. In any row, the [date] column is the date
    alone when [time] is among the columns and date and time together when
    it is not. *)
Theorem date_and_time_columns (self : PhoneCall) (d : Datetime.t) :
  self !! "date" = Some (VDatetime d) ->
  Datetime.valid d ->
  csv_row self (Some ["date"; "time"])
  = Ok [VStr (Datetime.strftime_dmY d); VStr (Datetime.strftime_HMS d)]
  /\ String.length (Datetime.strftime_HMS d) = 8%nat
  /\ parse_timestamp (Datetime.strftime_dmY d ++ " " ++ Datetime.strftime_HMS d)
     = Some (Datetime.year d, Datetime.month d, Datetime.day d,
             Datetime.hour d, Datetime.minute d, Datetime.second d)
  /\ (forall (cols : list string) (row : list pyval) (i : nat),
      csv_row self (Some cols) = Ok row ->
      cols !! i = Some "date" ->
      row !! i
      = Some (VStr (if bool_decide ("time" ∈ cols)
                    then Datetime.strftime_dmY d
                    else Datetime.strftime_dmY d ++ " " ++ Datetime.strftime_HMS d)))
  /\ digit_groups ":" [2; 2; 2]%nat (Datetime.strftime_HMS d) = true
  /\ digit_groups "." [2; 2; year_digits (Datetime.year d)]%nat
       (Datetime.strftime_dmY d) = true
  /\ (String.length (Datetime.strftime_dmY d) = 10%nat <-> 1000 <= Datetime.year d)
  /\ (forall d' : Datetime.t,
      Datetime.valid d' ->
      Datetime.strftime_dmY d' = Datetime.strftime_dmY d ->
      Datetime.strftime_HMS d' = Datetime.strftime_HMS d ->
      Datetime.wall_seconds d' = Datetime.wall_seconds d
      /\ Datetime.instant d' - Datetime.instant d
         = (Datetime.utcoffset d - Datetime.utcoffset d') * 1000000
           + (Datetime.microsecond d' - Datetime.microsecond d)).
Proof.
  intros Hd Hvalid.
  split; [|split; [exact (strftime_HMS_length d Hvalid)|split; [|split]]].
  - unfold csv_row. simpl or_default.
    rewrite default_check_date_time. simpl negb. cbv iota.
    unfold csv_cells.
    rewrite (csv_cell_date self _ d Hd), (csv_cell_time self _ d Hd).
    assert (Ht : bool_decide ("time" ∈ (list_to_set ["date"; "time"] : gset string)) = true)
      by (vm_compute; reflexivity).
    rewrite Ht. reflexivity.
  - apply parse_strftime. exact Hvalid.
  - intros cols row i Hrow Hi.
    destruct (csv_row_lookup _ _ _ _ _ Hrow Hi) as [_ (cell & Hcell & Hget)].
    rewrite (csv_cell_date self _ d Hd) in Hcell.
    injection Hcell as <-. rewrite Hget. do 2 f_equal.
    destruct (decide ("time" ∈ cols)) as [Hin|Hnin].
    + rewrite !bool_decide_eq_true_2; [reflexivity | exact Hin |].
      apply elem_of_list_to_set. exact Hin.
    + rewrite !bool_decide_eq_false_2; [reflexivity | exact Hnin |].
      rewrite elem_of_list_to_set. exact Hnin.
  - split; [exact (strftime_HMS_shape d Hvalid)|].
    split; [exact (strftime_dmY_shape d Hvalid)|]. split.
    + rewrite (strftime_dmY_length d Hvalid). unfold year_digits.
      destruct (Z.ltb_spec (Datetime.year d) 10); [lia|].
      destruct (Z.ltb_spec (Datetime.year d) 100); [lia|].
      destruct (Z.ltb_spec (Datetime.year d) 1000); lia.
    + intros d' Hvalid' Hdate Htime.
      pose proof (same_columns_same_clock d d' Hvalid Hvalid' Hdate Htime) as Hw.
      split; [exact Hw|]. unfold Datetime.instant. rewrite Hw. lia.
Qed.

Lemma date_and_time_columns_witness :
  let d := Datetime.mk 2024 3 3 23 57 0 0 3600 in
  let self : PhoneCall := <["date" := VDatetime d]> ∅ in
  csv_row self (Some ["date"; "time"])
  = Ok [VStr (Datetime.strftime_dmY d); VStr (Datetime.strftime_HMS d)]
  /\ String.length (Datetime.strftime_HMS d) = 8%nat
  /\ parse_timestamp (Datetime.strftime_dmY d ++ " " ++ Datetime.strftime_HMS d)
     = Some (2024, 3, 3, 23, 57, 0)
  /\ (forall (cols : list string) (row : list pyval) (i : nat),
      csv_row self (Some cols) = Ok row ->
      cols !! i = Some "date" ->
      row !! i
      = Some (VStr (if bool_decide ("time" ∈ cols)
                    then Datetime.strftime_dmY d
                    else Datetime.strftime_dmY d ++ " " ++ Datetime.strftime_HMS d)))
  /\ digit_groups ":" [2; 2; 2]%nat (Datetime.strftime_HMS d) = true
  /\ digit_groups "." [2; 2; year_digits 2024]%nat (Datetime.strftime_dmY d) = true
  /\ (String.length (Datetime.strftime_dmY d) = 10%nat <-> 1000 <= 2024)
  /\ (forall d' : Datetime.t,
      Datetime.valid d' ->
      Datetime.strftime_dmY d' = Datetime.strftime_dmY d ->
      Datetime.strftime_HMS d' = Datetime.strftime_HMS d ->
      Datetime.wall_seconds d' = Datetime.wall_seconds d
      /\ Datetime.instant d' - Datetime.instant d
         = (3600 - Datetime.utcoffset d') * 1000000
           + (Datetime.microsecond d' - 0)).
Proof.
  intros d self.
  apply (date_and_time_columns self d).
  - vm_compute. reflexivity.
  - unfold Datetime.valid. vm_compute. repeat split; discriminate.
Defined.

Example date_and_time_columns_ex :
  let d := Datetime.mk 2024 3 3 23 57 0 0 3600 in
  Datetime.strftime_dmY d = "03.03.2024" /\ Datetime.strftime_HMS d = "23:57:00".
Proof. vm_compute. split; reflexivity. Qed.

(** C3 as stated fails on two counts. The columns do not give the
    timestamp back: in the hour repeated at the end of summer time two
    records one hour apart are written with the same date and time. And
    the date is not always [DD.MM.YYYY]: a record of the year 999 is
    written with three digits of year. *)
Lemma repeated_hour_same_columns :
  let run (raw : string) :=
    (decode_object Europe_Vienna true 0 (sample_object raw)).1.1 in
  match run "1729989000000", run "1729992600000", run "-30627460800000" with
  | Ok c1, Ok c2, Ok c3 =>
      match c1 !! "date", c2 !! "date" with
      | Some (VDatetime d1), Some (VDatetime d2) =>
          Datetime.instant d2 - Datetime.instant d1 = 3600 * 1000000
          /\ Datetime.utcoffset d1 = 7200 /\ Datetime.utcoffset d2 = 3600
      | _, _ => False
      end
      /\ csv_row c1 (Some ["date"; "time"]) = Ok [VStr "27.10.2024"; VStr "02:30:00"]
      /\ csv_row c2 (Some ["date"; "time"]) = Ok [VStr "27.10.2024"; VStr "02:30:00"]
      /\ csv_row c3 (Some ["date"; "time"]) = Ok [VStr "15.06.999"; VStr "13:05:00"]
  | _, _, _ => False
  end.
Proof. vm_compute. repeat split. Qed.

(** ** Decoding one object *)

Section DecoderFacts.

Variable tz : timezone.

Lemma fields_nodup : NoDup field_names.
Proof. apply (bool_decide_unpack _). vm_compute. exact I. Qed.

(** A field is fit for decoding when its key is present with a value the
    decoder accepts, or absent with a default declared. *)
Definition present_ok (obj : dict) (f : field) : bool :=
  match obj !! fname f with
  | Some v => is_ok (decode_value tz (ftyp f) v)
  | None => has_default f
  end.

Lemma present_ok_delete (obj : dict) (key : string) (fs : list field) :
  key ∉ map fname fs ->
  forallb (present_ok (delete key obj)) fs = forallb (present_ok obj) fs.
Proof.
  induction fs as [|f fs IH]; intros Hk; [reflexivity|].
  simpl in *. apply not_elem_of_cons in Hk as [Hne Hk].
  rewrite (IH Hk). unfold present_ok at 1 3.
  rewrite lookup_delete_ne by congruence. reflexivity.
Qed.

(** The field loop succeeds exactly when every field is fit. *)
Lemma decode_fields_ok_iff (fs : list field) (multiple : bool) (n : nat)
      (obj : dict) (call : gmap string pyval) :
  NoDup (map fname fs) ->
  is_ok (decode_fields tz fs multiple n obj call).1.1
  = forallb (present_ok obj) fs.
Proof.
  revert obj call. induction fs as [|f fs IH]; intros obj call Hnd; [reflexivity|].
  simpl in Hnd. apply NoDup_cons in Hnd as [Hk Hnd].
  simpl. unfold present_ok at 1.
  destruct (obj !! fname f) as [v|] eqn:Hv.
  - destruct (decode_value tz (ftyp f) v) as [pv|e] eqn:Hdec; simpl.
    + rewrite IH by exact Hnd. apply present_ok_delete. exact Hk.
    + reflexivity.
  - destruct (has_default f); simpl; [apply IH; exact Hnd | reflexivity].
Qed.

(** What a successful field loop leaves behind: nothing printed, the keys
    of the fields removed from the object and no other key touched, and in
    [call] the decoded value of every field that was present. *)
Lemma decode_fields_ok_spec (fs : list field) (multiple : bool) (n : nat)
      (obj obj' : dict) (call call' : gmap string pyval) (out : list string) :
  NoDup (map fname fs) ->
  decode_fields tz fs multiple n obj call = (Ok call', obj', out) ->
  out = []
  /\ (forall k, obj' !! k = if decide (k ∈ map fname fs) then None else obj !! k)
  /\ (forall k, k ∉ map fname fs -> call' !! k = call !! k)
  /\ (forall f, f ∈ fs ->
        match obj !! fname f with
        | Some v => exists pv, decode_value tz (ftyp f) v = Ok pv
                               /\ call' !! fname f = Some pv
        | None => has_default f = true /\ call' !! fname f = call !! fname f
        end).
Proof.
  revert obj call. induction fs as [|f fs IH]; intros obj call Hnd Hrun.
  - simpl in Hrun. injection Hrun as <- <- <-.
    split; [reflexivity|]. split; [|split].
    + intros k. destruct (decide (k ∈ map fname [])) as [Hin|_]; [|reflexivity].
      simpl in Hin. apply elem_of_nil in Hin. destruct Hin.
    + intros k _. reflexivity.
    + intros f Hf. apply elem_of_nil in Hf. destruct Hf.
  - simpl in Hnd. apply NoDup_cons in Hnd as [Hk Hnd].
    simpl in Hrun.
    destruct (obj !! fname f) as [v|] eqn:Hv.
    + destruct (decode_value tz (ftyp f) v) as [pv|e] eqn:Hdec; [|discriminate].
      destruct (IH _ _ Hnd Hrun) as (Hout & Hobj & Hframe & Hvals).
      split; [exact Hout|]. split; [|split].
      * intros k. rewrite Hobj. simpl.
        destruct (decide (k = fname f)) as [->|Hne].
        -- rewrite lookup_delete_eq.
           rewrite (decide_True (P := fname f ∈ fname f :: map fname fs)) by left.
           destruct (decide (fname f ∈ map fname fs)); reflexivity.
        -- rewrite lookup_delete_ne by congruence.
           destruct (decide (k ∈ map fname fs)) as [Hin|Hnin].
           ++ rewrite decide_True by (right; exact Hin). reflexivity.
           ++ rewrite decide_False; [reflexivity|].
              intros [->|Hin]%elem_of_cons; [congruence | exact (Hnin Hin)].
      * intros k [Hne Hk']%not_elem_of_cons.
        rewrite (Hframe k Hk'). apply lookup_insert_ne. congruence.
      * intros g [->|Hg]%elem_of_cons.
        -- rewrite Hv. exists pv. split; [exact Hdec|].
           rewrite (Hframe _ Hk). apply lookup_insert_eq.
        -- assert (Hne : fname g <> fname f).
           { intros Heq. apply Hk. rewrite <- Heq.
             apply list_elem_of_fmap. exists g. split; [reflexivity | exact Hg]. }
           specialize (Hvals g Hg). rewrite lookup_delete_ne in Hvals by congruence.
           destruct (obj !! fname g); [exact Hvals|].
           destruct Hvals as [Hdef Hc]. split; [exact Hdef|].
           rewrite Hc. apply lookup_insert_ne. congruence.
    + destruct (has_default f) eqn:Hdef; [|discriminate].
      destruct (IH _ _ Hnd Hrun) as (Hout & Hobj & Hframe & Hvals).
      split; [exact Hout|]. split; [|split].
      * intros k. rewrite Hobj. simpl.
        destruct (decide (k ∈ map fname fs)) as [Hin|Hnin].
        -- rewrite decide_True by (right; exact Hin). reflexivity.
        -- destruct (decide (k = fname f)) as [->|Hne].
           ++ rewrite decide_True by left. exact Hv.
           ++ rewrite decide_False; [reflexivity|].
              intros [->|Hin]%elem_of_cons; [congruence | exact (Hnin Hin)].
      * intros k [Hne Hk']%not_elem_of_cons. exact (Hframe k Hk').
      * intros g [->|Hg]%elem_of_cons.
        -- rewrite Hv. split; [exact Hdef|]. exact (Hframe _ Hk).
        -- exact (Hvals g Hg).
Qed.

(** Whatever the outcome, the field loop only removes keys. *)
Lemma decode_fields_only_removes (fs : list field) (multiple : bool) (n : nat)
      (obj : dict) (call : gmap string pyval) (k : string) :
  (decode_fields tz fs multiple n obj call).1.2 !! k = None
  \/ (decode_fields tz fs multiple n obj call).1.2 !! k = obj !! k.
Proof.
  revert obj call. induction fs as [|f fs IH]; intros obj call; [right; reflexivity|].
  simpl. destruct (obj !! fname f) as [v|] eqn:Hv.
  - destruct (decode_value tz (ftyp f) v) as [pv|e]; simpl.
    + destruct (IH (delete (fname f) obj) (<[fname f := pv]> call)) as [H|H];
        [left; exact H|].
      rewrite H. destruct (decide (k = fname f)) as [->|Hne].
      * left. apply lookup_delete_eq.
      * right. apply lookup_delete_ne. congruence.
    + destruct (decide (k = fname f)) as [->|Hne].
      * left. apply lookup_delete_eq.
      * right. apply lookup_delete_ne. congruence.
  - destruct (has_default f); simpl; [apply IH | right; reflexivity].
Qed.

End DecoderFacts.

(** From here on the field table is used through its properties only. *)
Opaque fields.

Lemma has_default_true (f : field) :
  has_default f = true -> exists d, fdefault f = Some d.
Proof. unfold has_default. destruct (fdefault f) as [d|]; [eauto | discriminate]. Qed.

Lemma init_fields_spec (fs : list field) (call : gmap string pyval) :
  NoDup (map fname fs) ->
  (forall f, f ∈ fs -> has_default f = false -> is_Some (call !! fname f)) ->
  exists self,
    init_fields fs call = Ok self
    /\ forall f, f ∈ fs ->
         self !! fname f = match call !! fname f with
                           | Some v => Some v
                           | None => fdefault f
                           end.
Proof.
  induction fs as [|f fs IH]; intros Hnd Hreq.
  - exists ∅. split; [reflexivity|]. intros f Hf. apply elem_of_nil in Hf. destruct Hf.
  - simpl in Hnd. apply NoDup_cons in Hnd as [Hk Hnd].
    destruct IH as (self0 & Hinit & Hget); [exact Hnd | |].
    { intros g Hg. apply Hreq. right. exact Hg. }
    assert (Hother : forall g, g ∈ fs -> fname g <> fname f).
    { intros g Hg Heq. apply Hk. rewrite <- Heq.
      apply list_elem_of_fmap. exists g. split; [reflexivity | exact Hg]. }
    simpl. rewrite Hinit. simpl.
    destruct (call !! fname f) as [v|] eqn:Hv.
    + exists (<[fname f := v]> self0). split; [reflexivity|].
      intros g [->|Hg]%elem_of_cons.
      * rewrite Hv. apply lookup_insert_eq.
      * rewrite lookup_insert_ne by (apply not_eq_sym, Hother, Hg). apply Hget, Hg.
    + destruct (fdefault f) as [d|] eqn:Hd.
      * exists (<[fname f := d]> self0). split; [reflexivity|].
        intros g [->|Hg]%elem_of_cons.
        -- rewrite Hv, Hd. apply lookup_insert_eq.
        -- rewrite lookup_insert_ne by (apply not_eq_sym, Hother, Hg). apply Hget, Hg.
      * exfalso. destruct (Hreq f) as [v Hv']; [left | | congruence].
        unfold has_default. rewrite Hd. reflexivity.
Qed.

(** The keyword arguments a successful field loop collects always make a
    record. *)
Lemma init_after_decode (tz : timezone) (multiple : bool) (n : nat)
      (obj obj' : dict) (call' : gmap string pyval) (out : list string) :
  decode_fields tz fields multiple n obj ∅ = (Ok call', obj', out) ->
  exists self,
    PhoneCall_init call' = Ok self
    /\ forall f, f ∈ fields ->
         match obj !! fname f with
         | Some v => exists pv, decode_value tz (ftyp f) v = Ok pv
                                /\ self !! fname f = Some pv
         | None => exists d, fdefault f = Some d /\ self !! fname f = Some d
         end.
Proof.
  intros Hrun.
  destruct (decode_fields_ok_spec tz _ _ _ _ _ _ _ _ fields_nodup Hrun)
    as (_ & _ & _ & Hvals).
  destruct (init_fields_spec fields call' fields_nodup) as (self & Hinit & Hget).
  { intros f Hf Hdef. specialize (Hvals f Hf).
    destruct (obj !! fname f).
    - destruct Hvals as (pv & _ & Hpv). rewrite Hpv. eauto.
    - destruct Hvals as [Hd _]. congruence. }
  exists self. split; [exact Hinit|].
  intros f Hf. specialize (Hvals f Hf). rewrite (Hget f Hf).
  destruct (obj !! fname f).
  - destruct Hvals as (pv & Hdec & Hpv). exists pv. rewrite Hpv. split; [exact Hdec | reflexivity].
  - destruct Hvals as [Hdef Hc]. rewrite Hc, lookup_empty.
    destruct (has_default_true f Hdef) as [d Hd]. exists d. split; [exact Hd | exact Hd].
Qed.

(** Decoding one object succeeds exactly when every field is fit. *)
Lemma decode_object_ok_iff (tz : timezone) (multiple : bool) (n : nat) (obj : dict) :
  is_ok (decode_object tz multiple n obj).1.1 = forallb (present_ok tz obj) fields.
Proof.
  rewrite <- (decode_fields_ok_iff tz fields multiple n obj ∅ fields_nodup).
  unfold decode_object.
  destruct (decode_fields tz fields multiple n obj ∅) as [[[call'|e] obj'] out] eqn:Hrun;
    [|reflexivity].
  destruct (init_after_decode _ _ _ _ _ _ _ Hrun) as (self & Hinit & _).
  cbn [fst]. rewrite Hinit. reflexivity.
Qed.

(** What a successfully decoded object gives: nothing is printed, the
    object has lost the keys of all fields and kept the others, and the
    record holds the decoded value of each field present and the default of
    each field absent. *)
Lemma decode_object_ok_spec (tz : timezone) (multiple : bool) (n : nat)
      (obj obj' : dict) (self : PhoneCall) (out : list string) :
  decode_object tz multiple n obj = (Ok self, obj', out) ->
  out = []
  /\ (forall k, obj' !! k = if decide (k ∈ field_names) then None else obj !! k)
  /\ forall f, f ∈ fields ->
       match obj !! fname f with
       | Some v => exists pv, decode_value tz (ftyp f) v = Ok pv
                              /\ self !! fname f = Some pv
       | None => exists d, fdefault f = Some d /\ self !! fname f = Some d
       end.
Proof.
  unfold decode_object.
  destruct (decode_fields tz fields multiple n obj ∅) as [[[call'|e] o] out0] eqn:Hrun;
    [|discriminate].
  intros Heq. injection Heq as Hinit <- <-.
  destruct (decode_fields_ok_spec tz _ _ _ _ _ _ _ _ fields_nodup Hrun)
    as (Hout & Hobj & _ & _).
  destruct (init_after_decode _ _ _ _ _ _ _ Hrun) as (self0 & Hinit0 & Hvals).
  assert (self0 = self) as -> by congruence.
  split; [exact Hout|]. split; [exact Hobj | exact Hvals].
Qed.

(** Whatever the outcome, decoding an object only removes keys from it. *)
Lemma decode_object_only_removes (tz : timezone) (multiple : bool) (n : nat)
      (obj : dict) (k : string) :
  (decode_object tz multiple n obj).1.2 !! k = None
  \/ (decode_object tz multiple n obj).1.2 !! k = obj !! k.
Proof.
  pose proof (decode_fields_only_removes tz fields multiple n obj ∅ k) as H.
  unfold decode_object.
  destruct (decode_fields tz fields multiple n obj ∅) as [[[call'|e] o] out0];
    exact H.
Qed.

(** ** Presence of fields *)

Lemma fields_forallb (P : field -> bool) :
  forallb P fields = true -> forall f, f ∈ fields -> P f = true.
Proof.
  intros H f Hf. rewrite forallb_forall in H. apply H.
  apply list_elem_of_In. exact Hf.
Qed.

Lemma forallb_fields_intro (P : field -> bool) :
  (forall f, f ∈ fields -> P f = true) -> forallb P fields = true.
Proof.
  intros H. apply forallb_forall. intros f Hf. apply H.
  apply list_elem_of_In. exact Hf.
Qed.

Lemma present_ok_true (tz : timezone) (obj : dict) :
  forallb (present_ok tz obj) fields = true
  <-> (forall f, f ∈ fields -> fdefault f = None -> is_Some (obj !! fname f))
      /\ (forall f v, f ∈ fields -> obj !! fname f = Some v ->
            is_ok (decode_value tz (ftyp f) v) = true).
Proof.
  split.
  - intros H. split.
    + intros f Hf Hdef. pose proof (fields_forallb _ H f Hf) as Hp.
      unfold present_ok, has_default in Hp. rewrite Hdef in Hp.
      destruct (obj !! fname f); [eauto | discriminate].
    + intros f v Hf Hv. pose proof (fields_forallb _ H f Hf) as Hp.
      unfold present_ok in Hp. rewrite Hv in Hp. exact Hp.
  - intros [Hreq Hdec]. apply forallb_fields_intro. intros f Hf.
    unfold present_ok. destruct (obj !! fname f) as [v|] eqn:Hv.
    + apply (Hdec f v Hf Hv).
    + unfold has_default. destruct (fdefault f) eqn:Hd; [reflexivity|].
      destruct (Hreq f Hf Hd) as [v Hv']. congruence.
Qed.

(** C8, as amended. A field without a default that is absent from the
    object makes decoding fail; a field with a default that is absent gets
    its default; and decoding succeeds exactly when every field without a
    default is present and every field that is present, with or without a
    default, has a value its decoder accepts. *)
Theorem field_presence_policy (tz : timezone) (multiple : bool) (n : nat) (obj : dict) :
  (forall f, f ∈ fields -> fdefault f = None -> obj !! fname f = None ->
     is_ok (decode_object tz multiple n obj).1.1 = false)
  /\ (forall f d self obj' out,
        f ∈ fields -> fdefault f = Some d -> obj !! fname f = None ->
        decode_object tz multiple n obj = (Ok self, obj', out) ->
        self !! fname f = Some d)
  /\ (is_ok (decode_object tz multiple n obj).1.1 = true
      <-> (forall f, f ∈ fields -> fdefault f = None -> is_Some (obj !! fname f))
          /\ (forall f v, f ∈ fields -> obj !! fname f = Some v ->
                is_ok (decode_value tz (ftyp f) v) = true)).
Proof.
  split; [|split].
  - intros f Hf Hdef Habs.
    destruct (is_ok (decode_object tz multiple n obj).1.1) eqn:Hok; [|reflexivity].
    rewrite decode_object_ok_iff in Hok. apply present_ok_true in Hok as [Hreq _].
    destruct (Hreq f Hf Hdef) as [v Hv]. congruence.
  - intros f d self obj' out Hf Hdef Habs Hrun.
    destruct (decode_object_ok_spec _ _ _ _ _ _ _ Hrun) as (_ & _ & Hvals).
    specialize (Hvals f Hf). rewrite Habs in Hvals.
    destruct Hvals as (d' & Hd' & Hself). congruence.
  - rewrite decode_object_ok_iff. apply present_ok_true.
Qed.

(** C8 as stated fails: with every field that has no default present and
    decodable, an undefined code in the optional [numbertype] still makes
    decoding fail. *)
Lemma optional_field_can_fail :
  let obj := <["numbertype" := JStr "99"]> (sample_object "1709506620000") in
  forallb (fun f => has_default f
                    || match obj !! fname f with
                       | Some v => is_ok (decode_value Europe_Vienna (ftyp f) v)
                       | None => false
                       end) fields = true
  /\ (decode_object Europe_Vienna true 0 obj).1.1
     = Raise (ValueError "99 is not a valid NumberType").
Proof. vm_compute. split; reflexivity. Qed.

(** ** Enumeration and flag codes *)

Lemma flag_call_nonneg (c : flag_class) (v : Z) : 0 <= v -> Enum.flag_call c v = v.
Proof.
  intros Hv. unfold Enum.flag_call, Enum.missing_value.
  destruct (Enum.is_member (flag_members c) v); [reflexivity|].
  assert (Hlt : (v <? 0) = false) by (apply Z.ltb_ge; exact Hv).
  rewrite Hlt.
  destruct (negb ((Z.lnot (Enum.all_bits c) <=? v) && (v <=? Enum.all_bits c))
            || negb (Z.land v (Z.lxor (Enum.all_bits c) (Enum.flag_mask c)) =? 0));
    rewrite Hlt; reflexivity.
Qed.

(** C1, as amended. An enumeration field carrying a stringified integer
    that is no member of its enumeration makes decoding fail, so no record
    is built from it. A flag field accepts every stringified integer: its
    decoder does not fail, a non-negative integer is kept with all its
    bits, and that value is what the record holds. *)
Theorem undefined_codes (tz : timezone) (multiple : bool) (n : nat) (obj : dict)
        (f : field) (s : string) (v : Z) :
  f ∈ fields ->
  obj !! fname f = Some (JStr s) ->
  PyStr.int_of_str s = Some v ->
  (forall c, ftyp f = TEnum c ->
     Enum.is_member (enum_members c) v = false ->
     is_ok (decode_object tz multiple n obj).1.1 = false)
  /\ (forall c, ftyp f = TFlag c ->
        decode_value tz (ftyp f) (JStr s) = Ok (VFlag c (Enum.flag_call c v))
        /\ (0 <= v -> Enum.flag_call c v = v)
        /\ forall self obj' out,
            decode_object tz multiple n obj = (Ok self, obj', out) ->
            self !! fname f = Some (VFlag c (Enum.flag_call c v))).
Proof.
  intros Hf Hobj Hint. split.
  - intros c Hty Hmem.
    destruct (is_ok (decode_object tz multiple n obj).1.1) eqn:Hok; [|reflexivity].
    rewrite decode_object_ok_iff in Hok. apply present_ok_true in Hok as [_ Hdec].
    specialize (Hdec f _ Hf Hobj). rewrite Hty in Hdec.
    unfold decode_value, py_int in Hdec. rewrite Hint in Hdec. simpl in Hdec.
    unfold Enum.call in Hdec. rewrite Hmem in Hdec. discriminate.
  - intros c Hty.
    assert (Hdec : decode_value tz (ftyp f) (JStr s) = Ok (VFlag c (Enum.flag_call c v))).
    { rewrite Hty. unfold decode_value, py_int. rewrite Hint. reflexivity. }
    split; [exact Hdec|]. split; [apply flag_call_nonneg|].
    intros self obj' out Hrun.
    destruct (decode_object_ok_spec _ _ _ _ _ _ _ Hrun) as (_ & _ & Hvals).
    specialize (Hvals f Hf). rewrite Hobj in Hvals.
    destruct Hvals as (pv & Hpv & Hself). congruence.
Qed.

(** C1 as stated fails for flag fields: a missed reason of 8, a bit of no
    known flag, is decoded without an error, kept in the record and written
    as the number. *)
Lemma unknown_flag_bit_is_kept :
  let obj := <["missed_reason" := JStr "8"]> (sample_object "1709506620000") in
  Enum.flags_in MissedReason 8 = []
  /\ Z.land 8 (Enum.flag_mask MissedReason) = 0
  /\ is_ok (decode_object Europe_Vienna true 0 obj).1.1 = true
  /\ match (decode_object Europe_Vienna true 0 obj).1.1 with
     | Ok self =>
         self !! "missed_reason" = Some (VFlag MissedReason 8)
         /\ csv_row self (Some ["missed_reason"]) = Ok [VStr "8"]
     | Raise _ => False
     end.
Proof. vm_compute. repeat split. Qed.

(** An undefined enumeration code raises the enumeration's [ValueError],
    which the [except TypeError] handler does not catch: nothing is
    printed, and the message names the enumeration, not the field. *)
Lemma undefined_enum_code_report :
  let obj := <["type" := JStr "99"]> (sample_object "1709506620000") in
  let '(r, _, out) := decode_object Europe_Vienna true 0 obj in
  r = Raise (ValueError "99 is not a valid CallType") /\ out = [].
Proof. vm_compute. split; reflexivity. Qed.

Lemma undefined_codes_witness :
  let obj := <["type" := JStr "99"]> (sample_object "1709506620000") in
  let f := required "type" (TEnum CallType) in
  (forall c, ftyp f = TEnum c ->
     Enum.is_member (enum_members c) 99 = false ->
     is_ok (decode_object Europe_Vienna true 0 obj).1.1 = false)
  /\ (forall c, ftyp f = TFlag c ->
        decode_value Europe_Vienna (ftyp f) (JStr "99") = Ok (VFlag c (Enum.flag_call c 99))
        /\ (0 <= 99 -> Enum.flag_call c 99 = 99)
        /\ forall self obj' out,
            decode_object Europe_Vienna true 0 obj = (Ok self, obj', out) ->
            self !! fname f = Some (VFlag c (Enum.flag_call c 99))).
Proof.
  intros obj f.
  apply (undefined_codes Europe_Vienna true 0 obj f "99" 99).
  - apply list_elem_of_In. vm_compute. do 4 right. left. reflexivity.
  - vm_compute. reflexivity.
  - vm_compute. reflexivity.
Defined.

Lemma field_presence_policy_witness :
  let obj := delete "date" (sample_object "1709506620000") in
  (forall f, f ∈ fields -> fdefault f = None -> obj !! fname f = None ->
     is_ok (decode_object Europe_Vienna true 0 obj).1.1 = false)
  /\ (forall f d self obj' out,
        f ∈ fields -> fdefault f = Some d -> obj !! fname f = None ->
        decode_object Europe_Vienna true 0 obj = (Ok self, obj', out) ->
        self !! fname f = Some d)
  /\ (is_ok (decode_object Europe_Vienna true 0 obj).1.1 = true
      <-> (forall f, f ∈ fields -> fdefault f = None -> is_Some (obj !! fname f))
          /\ (forall f v, f ∈ fields -> obj !! fname f = Some v ->
                is_ok (decode_value Europe_Vienna (ftyp f) v) = true)).
Proof.
  intros obj. exact (field_presence_policy Europe_Vienna true 0 obj).
Defined.

(** A required key that is missing is reported by the [KeyError] of
    [pop]; an optional key that is missing leaves the default. *)
Example missing_fields_ex :
  (decode_object Europe_Vienna false 0 (delete "date" (sample_object "0"))).1.1
  = Raise (KeyError "date")
  /\ match (decode_object Europe_Vienna false 0 (sample_object "0")).1.1 with
     | Ok self => self !! "display_name" = Some (VStr "")
                  /\ self !! "numbertype" = Some VNone
     | Raise _ => False
     end.
Proof. vm_compute. repeat split. Qed.

(** ** Boolean fields *)




(** The record decoded from the sample object, and what is left of the
    object. *)
Definition sample_call : PhoneCall :=
  match (decode_object Europe_Vienna true 0 (sample_object "1709506620000")).1.1 with
  | Ok self => self
  | Raise _ => ∅
  end.

Definition sample_rest : dict :=
  (decode_object Europe_Vienna true 0 (sample_object "1709506620000")).1.2.

Lemma sample_decodes :
  decode_object Europe_Vienna true 0 (sample_object "1709506620000")
  = (Ok sample_call, sample_rest, []).
Proof.
  assert (Hok : is_ok (decode_object Europe_Vienna true 0
                         (sample_object "1709506620000")).1.1 = true)
    by (vm_compute; reflexivity).
  assert (Hout : (decode_object Europe_Vienna true 0
                    (sample_object "1709506620000")).2 = [])
    by (vm_compute; reflexivity).
  unfold sample_call, sample_rest.
  destruct (decode_object Europe_Vienna true 0 (sample_object "1709506620000"))
    as [[[self|e] rest] out]; [|discriminate Hok].
  simpl in Hout. rewrite Hout. reflexivity.
Qed.


Example boolean_cells_ex :
  csv_row sample_call (Some ["is_read"; "phone_account_hidden"])
  = Ok [VStr "Yes"; VStr "No"].
Proof. vm_compute. reflexivity. Qed.

(** ** Combined flags *)




Definition pair_spec (c : flag_class) (m1 m2 : string * Z) : Prop :=
  Enum.flag_call c (Z.lor m1.2 m2.2) = Z.lor m1.2 m2.2
  /\ (Enum.flags_in c (Z.lor m1.2 m2.2) = [m1.1; m2.1]
      \/ Enum.flags_in c (Z.lor m1.2 m2.2) = [m2.1; m1.1])
  /\ (Enum.flag_str c (Z.lor m1.2 m2.2)
      = Enum.flag_str c m1.2 ++ ", " ++ Enum.flag_str c m2.2
      \/ Enum.flag_str c (Z.lor m1.2 m2.2)
         = Enum.flag_str c m2.2 ++ ", " ++ Enum.flag_str c m1.2).

Global Instance pair_spec_dec c m1 m2 : Decision (pair_spec c m1 m2).
Proof. unfold pair_spec. apply _. Defined.




(** The labels: words capitalised, [RTT], [VoLTE] and [WiFi] spelt as
    such. *)
Example combined_flag_texts :
  py_str (VFlag MissedReason (Z.lor 0x10000 0x20000))
  = "User Missed No Answer, User Missed Short Ring"
  /\ py_str (VFlag CallFeatures (Z.lor 32 64)) = "RTT, VoLTE"
  /\ py_str (VFlag CallFeatures (Z.lor 8 4)) = "Hd Call, WiFi"
  /\ py_str (VFlag CallFeatures (Z.lor 16 1)) = "Assisted Dialing Used, Video".
Proof. vm_compute. repeat split. Qed.

(** ** The effect of decoding on its input *)

Lemma date_field_in_fields : required "date" TDatetime ∈ fields.
Proof. apply list_elem_of_In. vm_compute. left. reflexivity. Qed.

Lemma decode_object_needs_date (tz : timezone) (multiple : bool) (n : nat)
      (obj obj' : dict) (self : PhoneCall) (out : list string) :
  decode_object tz multiple n obj = (Ok self, obj', out) ->
  is_Some (obj !! "date").
Proof.
  intros Hrun.
  destruct (decode_object_ok_spec _ _ _ _ _ _ _ Hrun) as (_ & _ & Hvals).
  specialize (Hvals _ date_field_in_fields).
  cbn [fname fdefault required] in Hvals.
  destruct (obj !! "date") as [v|]; [eauto|].
  destruct Hvals as (d & Hd & _). discriminate.
Qed.

Lemma store_set_eq (σ : store) (l : nat) (d : dict) : store_set σ l d l = d.
Proof. unfold store_set. rewrite Nat.eqb_refl. reflexivity. Qed.

Lemma store_set_ne (σ : store) (l l' : nat) (d : dict) :
  l' <> l -> store_set σ l d l' = σ l'.
Proof.
  intros Hne. unfold store_set.
  destruct (Nat.eqb_spec l' l); [contradiction | reflexivity].
Qed.

(** After a successful run of the outer loop every object it visited has
    lost the keys of all fields, no other key of any object has changed,
    and the objects it did not visit are as they were. Each object visited
    had a [date] to lose. *)
Lemma decode_objects_ok_spec (tz : timezone) (ls : list nat) (multiple : bool)
      (calls calls' : list PhoneCall) (σ σ' : store) (out : list string) :
  decode_objects tz ls multiple calls σ = (Ok calls', σ', out) ->
  out = []
  /\ length calls' = (length calls + length ls)%nat
  /\ forall l,
      (l ∈ ls -> (forall k, k ∈ field_names -> σ' l !! k = None)
                 /\ is_Some (σ l !! "date"))
      /\ (forall k, k ∉ field_names -> σ' l !! k = σ l !! k)
      /\ (l ∉ ls -> σ' l = σ l).
Proof.
  revert calls σ. induction ls as [|l0 rest IH]; intros calls σ Hrun.
  - simpl in Hrun. injection Hrun as <- <- <-.
    split; [reflexivity|]. split; [simpl; lia|].
    intros l. split; [|split].
    + intros Hl. apply elem_of_nil in Hl. destruct Hl.
    + reflexivity.
    + reflexivity.
  - simpl in Hrun.
    destruct (decode_object tz multiple (length calls) (σ l0))
      as [[[call|e] obj'] out0] eqn:Hobj; [|discriminate].
    destruct (IH _ _ Hrun) as (Hout & Hlen & Hstore).
    destruct (decode_object_ok_spec _ _ _ _ _ _ _ Hobj) as (_ & Hkeys & _).
    pose proof (decode_object_needs_date _ _ _ _ _ _ _ Hobj) as Hdate.
    split; [exact Hout|].
    split; [rewrite Hlen, length_app; simpl; lia|].
    intros l. destruct (Hstore l) as (Hin & Hframe & Hout').
    split; [|split].
    + intros Hl. destruct (decide (l ∈ rest)) as [Hr|Hr].
      * destruct (Hin Hr) as [Hs Hd]. split; [exact Hs|].
        destruct (decide (l = l0)) as [->|Hne]; [exact Hdate|].
        rewrite store_set_ne in Hd by exact Hne. exact Hd.
      * apply elem_of_cons in Hl as [->|Hl]; [|contradiction].
        split; [|exact Hdate].
        intros k Hk. rewrite (Hout' Hr), store_set_eq, Hkeys.
        rewrite decide_True by exact Hk. reflexivity.
    + intros k Hk. rewrite (Hframe k Hk).
      destruct (decide (l = l0)) as [->|Hne].
      * rewrite store_set_eq, Hkeys. rewrite decide_False by exact Hk. reflexivity.
      * rewrite store_set_ne by exact Hne. reflexivity.
    + intros [Hne Hr]%not_elem_of_cons.
      rewrite (Hout' Hr). apply store_set_ne. exact Hne.
Qed.

(** Whatever the outcome, the outer loop only removes keys. *)
Lemma decode_objects_only_removes (tz : timezone) (ls : list nat) (multiple : bool)
      (calls : list PhoneCall) (σ : store) (l : nat) (k : string) :
  (decode_objects tz ls multiple calls σ).1.2 l !! k = None
  \/ (decode_objects tz ls multiple calls σ).1.2 l !! k = σ l !! k.
Proof.
  revert calls σ. induction ls as [|l0 rest IH]; intros calls σ; [right; reflexivity|].
  simpl.
  pose proof (decode_object_only_removes tz multiple (length calls) (σ l0) k) as Hobj.
  destruct (decode_object tz multiple (length calls) (σ l0))
    as [[[call|e] obj'] out0]; simpl in Hobj |- *.
  - destruct (IH (calls ++ [call])%list (store_set σ l0 obj')) as [H|H]; [left; exact H|].
    rewrite H. destruct (decide (l = l0)) as [->|Hne].
    + rewrite store_set_eq. exact Hobj.
    + right. rewrite store_set_ne by exact Hne. reflexivity.
  - destruct (decide (l = l0)) as [->|Hne].
    + rewrite store_set_eq. exact Hobj.
    + right. rewrite store_set_ne by exact Hne. reflexivity.
Qed.

(** The objects a document consists of. *)
Definition objects_of (doc : json_doc) : list nat :=
  match doc with
  | Obj l => [l]
  | Arr ls => ls
  end.

(** C9. [from_json] changes the dictionaries it is given. After a
    successful decode every input object has lost the keys of all fields of
    the record, so it differs from what the caller passed in; its other
    keys are as before. Whatever the outcome, keys are only ever removed,
    never added or changed. *)
Theorem from_json_strips_input (tz : timezone) (doc : json_doc) (σ σ' : store)
        (r : decoded) (out : list string) (l : nat) :
  from_json tz doc σ = (Ok r, σ', out) ->
  l ∈ objects_of doc ->
  (forall k, k ∈ field_names -> σ' l !! k = None)
  /\ (forall k, k ∉ field_names -> σ' l !! k = σ l !! k)
  /\ σ' l <> σ l
  /\ (forall l' k, (from_json tz doc σ).1.2 l' !! k = None
                   \/ (from_json tz doc σ).1.2 l' !! k = σ l' !! k).
Proof.
  intros Hrun Hl.
  assert (Hloop : exists multiple calls,
             decode_objects tz (objects_of doc) multiple [] σ = (Ok calls, σ', out)).
  { unfold from_json in Hrun. destruct doc as [l1|ls]; unfold objects_of.
    - destruct (decode_objects tz [l1] false [] σ) as [[[calls|e] s1] o1] eqn:Hd;
        [|discriminate].
      exists false, calls. destruct calls; [discriminate|].
      injection Hrun as _ <- <-. exact Hd.
    - destruct (decode_objects tz ls true [] σ) as [[[calls|e] s1] o1] eqn:Hd;
        [|discriminate].
      exists true, calls. injection Hrun as _ <- <-. exact Hd. }
  destruct Hloop as (multiple & calls & Hloop).
  destruct (decode_objects_ok_spec _ _ _ _ _ _ _ _ Hloop) as (_ & _ & Hstore).
  destruct (Hstore l) as (Hin & Hframe & _).
  destruct (Hin Hl) as [Hstrip [v Hdate]].
  split; [exact Hstrip|]. split; [exact Hframe|]. split.
  - intros Heq.
    assert (Hnone : σ' l !! "date" = None).
    { apply Hstrip. apply list_elem_of_fmap. exists (required "date" TDatetime).
      split; [reflexivity | exact date_field_in_fields]. }
    rewrite Heq in Hnone. congruence.
  - intros l' k. unfold from_json. destruct doc as [l1|ls].
    + pose proof (decode_objects_only_removes tz [l1] false [] σ l' k) as H.
      destruct (decode_objects tz [l1] false [] σ) as [[[cs|e] s1] o1]; exact H.
    + pose proof (decode_objects_only_removes tz ls true [] σ l' k) as H.
      destruct (decode_objects tz ls true [] σ) as [[[cs|e] s1] o1]; exact H.
Qed.

(** A batch of two sample objects. *)
Definition two_calls_store : store :=
  sample_store [sample_object "1709506620000"; sample_object "1709420220000"].

Definition two_calls_run : result decoded * store * list string :=
  from_json Europe_Vienna (Arr [0; 1]%nat) two_calls_store.

Definition two_calls_decoded : decoded :=
  match two_calls_run.1.1 with
  | Ok r => r
  | Raise _ => Many []
  end.

Lemma two_calls_run_ok :
  from_json Europe_Vienna (Arr [0; 1]%nat) two_calls_store
  = (Ok two_calls_decoded, two_calls_run.1.2, []).
Proof.
  assert (Hok : is_ok two_calls_run.1.1 = true) by (vm_compute; reflexivity).
  assert (Hout : two_calls_run.2 = []) by (vm_compute; reflexivity).
  unfold two_calls_decoded. fold two_calls_run.
  destruct two_calls_run as [[[r|e] s] out]; [|discriminate Hok].
  simpl in Hout. rewrite Hout. reflexivity.
Qed.

Lemma from_json_strips_input_witness :
  (forall k, k ∈ field_names -> two_calls_run.1.2 1%nat !! k = None)
  /\ (forall k, k ∉ field_names ->
        two_calls_run.1.2 1%nat !! k = two_calls_store 1%nat !! k)
  /\ two_calls_run.1.2 1%nat <> two_calls_store 1%nat
  /\ (forall l' k,
        (from_json Europe_Vienna (Arr [0; 1]%nat) two_calls_store).1.2 l' !! k = None
        \/ (from_json Europe_Vienna (Arr [0; 1]%nat) two_calls_store).1.2 l' !! k
           = two_calls_store l' !! k).
Proof.
  apply (from_json_strips_input Europe_Vienna (Arr [0; 1]%nat) two_calls_store
           two_calls_run.1.2 two_calls_decoded [] 1%nat).
  - exact two_calls_run_ok.
  - apply list_elem_of_In. simpl. right. left. reflexivity.
Defined.

(** The sample object before and after: 24 keys, then none. *)
Example stripped_ex :
  size (two_calls_store 0%nat) = 24%nat /\ size (two_calls_run.1.2 0%nat) = 0%nat.
Proof. vm_compute. split; reflexivity. Qed.

(** ** The date range *)

(** A call older than the start bound ends the loop: nothing that follows
    it is looked at. *)
Lemma write_calls_break (start : Datetime.t) (stop : option Datetime.t)
      (call : PhoneCall) (d : Datetime.t) (rest : list PhoneCall)
      (rows : list (list pyval)) :
  call !! "date" = Some (VDatetime d) ->
  Datetime.lt d start = true ->
  write_calls (Some start) stop (call :: rest) rows = (Ok tt, rows).
Proof.
  intros Hd Hlt. cbn [write_calls]. unfold loop_body, call_date. rewrite Hd.
  cbn [bind]. rewrite Hlt. reflexivity.
Qed.

(** A call at or after the stop bound is passed over and the loop goes
    on. *)
Lemma write_calls_continue (start stop : option Datetime.t) (s : Datetime.t)
      (call : PhoneCall) (d : Datetime.t) (rest : list PhoneCall)
      (rows : list (list pyval)) :
  call !! "date" = Some (VDatetime d) ->
  stop = Some s ->
  match start with Some b => Datetime.lt d b = false | None => True end ->
  Datetime.ge d s = true ->
  write_calls start stop (call :: rest) rows = write_calls start stop rest rows.
Proof.
  intros Hd -> Hstart Hge. cbn [write_calls]. unfold loop_body, call_date.
  rewrite Hd. cbn [bind].
  destruct start as [b|]; [rewrite Hstart|]; rewrite Hge; reflexivity.
Qed.

(** A call within the bounds is written. *)
Lemma write_calls_emit (start stop : option Datetime.t)
      (call : PhoneCall) (d : Datetime.t) (row : list pyval)
      (rest : list PhoneCall) (rows : list (list pyval)) :
  call !! "date" = Some (VDatetime d) ->
  match start with Some b => Datetime.lt d b = false | None => True end ->
  match stop with Some s => Datetime.ge d s = false | None => True end ->
  csv_row call None = Ok row ->
  write_calls start stop (call :: rest) rows
  = write_calls start stop rest (rows ++ [row]).
Proof.
  intros Hd Hstart Hstop Hrow. cbn [write_calls]. unfold loop_body, call_date.
  rewrite Hd. cbn [bind].
  destruct start as [b|]; [rewrite Hstart|];
    (destruct stop as [s|]; [rewrite Hstop|]); rewrite Hrow; reflexivity.
Qed.

Example vienna_offsets :
  zone_utcoffset Europe_Vienna = 3900
  /\ map (fromutc_utcoffset Europe_Vienna)
         [1709506620; 1711846799; 1711846800; 1719835200; 1729990799; 1729990800]
     = [3600; 3600; 7200; 7200; 7200; 3600].
Proof. vm_compute. split; reflexivity. Qed.

(** The dates of a run: what the date and time columns show for each
    object of the store. *)
Definition shown_dates (rows : list (list pyval)) : list (list string) :=
  map (fun row => map py_str (take 2 row)) rows.

Definition run_dates (start_date stop_date : option date_arg) (dates : list string)
  : result unit * list (list string) :=
  let '(r, rows, _, _) :=
    convert_to_csv Europe_Vienna (Arr (seq 0 (length dates))) start_date stop_date
                   (sample_store (map sample_object dates)) in
  (r, shown_dates rows).

(** The three calls of the specification's example, at noon UTC of 5, 3
    and 1 March 2024: with a start of 4 March only the first is written,
    with a stop of 3 March the last two. *)
Example range_examples :
  let dates := ["1709640000000"; "1709467200000"; "1709294400000"] in
  run_dates (Some (ADate (Datetime.mkdate 2024 3 4))) None dates
  = (Ok tt, [["Date"; "Time"]; ["05.03.2024"; "13:00:00"]])
  /\ run_dates None (Some (ADate (Datetime.mkdate 2024 3 3))) dates
     = (Ok tt, [["Date"; "Time"]; ["03.03.2024"; "13:00:00"];
                ["01.03.2024"; "13:00:00"]]).
Proof. vm_compute. split; reflexivity. Qed.

(** C2, the code at the failing input. A call made on 3 March 2024 at
    23:57 Vienna time is shown with that date and time when no range is
    given. With 3 March as the stop date it is passed over, although it
    lies within the stop day; with 4 March as the start date it is written,
    although it is older than the start of that day. The bounds are
    midnights taken at the offset the zone object itself carries, 1:05
    ahead of UTC, while the calls carry the offsets of Central European
    time. *)
Theorem range_bounds_use_zone_offset :
  let dates := ["1709506620000"] in
  run_dates None None dates = (Ok tt, [["Date"; "Time"]; ["03.03.2024"; "23:57:00"]])
  /\ run_dates None (Some (ADate (Datetime.mkdate 2024 3 3))) dates
     = (Ok tt, [["Date"; "Time"]])
  /\ run_dates (Some (ADate (Datetime.mkdate 2024 3 4))) None dates
     = (Ok tt, [["Date"; "Time"]; ["03.03.2024"; "23:57:00"]])
  /\ Datetime.utcoffset (midnight Europe_Vienna (ADate (Datetime.mkdate 2024 3 4)))
     = 3900.
Proof. vm_compute. repeat split. Qed.

(** In summer the bound falls on the other side: a call made on 2 July
    2024 at 00:30 Vienna time is written with 1 July as the stop date. *)
Example summer_stop_bound :
  run_dates None (Some (ADate (Datetime.mkdate 2024 7 1))) ["1719873000000"]
  = (Ok tt, [["Date"; "Time"]; ["02.07.2024"; "00:30:00"]]).
Proof. vm_compute. reflexivity. Qed.

(** * Further properties of the decoder *)

(** ** Flag values *)

Lemma name_of_value_In (members : list (string * Z)) (v : Z) (n : string) :
  Enum.name_of_value members v = Some n -> In (n, v) members.
Proof.
  induction members as [|[n0 x] rest IH]; simpl; [discriminate|].
  destruct (Z.eqb_spec x v) as [->|Hne].
  - intros H. injection H as <-. left. reflexivity.
  - intros H. right. apply IH. exact H.
Qed.

Lemma In_name_of_value (members : list (string * Z)) (v : Z) (n : string) :
  In (n, v) members -> Enum.is_member members v = true.
Proof.
  unfold Enum.is_member.
  induction members as [|[n0 x] rest IH]; simpl; [intros []|].
  intros [H|H].
  - injection H as -> ->. rewrite Z.eqb_refl. reflexivity.
  - destruct (x =? v); [reflexivity | apply IH; exact H].
Qed.

Lemma flag_member_nonneg (c : flag_class) (v : Z) :
  Enum.is_member (flag_members c) v = true -> 0 <= v.
Proof.
  unfold Enum.is_member.
  destruct (Enum.name_of_value (flag_members c) v) as [n|] eqn:Hn; [|discriminate].
  intros _. apply name_of_value_In in Hn.
  assert (Hall : forallb (fun m => 0 <=? snd m) (flag_members c) = true)
    by (destruct c; vm_compute; reflexivity).
  rewrite forallb_forall in Hall. specialize (Hall _ Hn). simpl in Hall. lia.
Qed.

Lemma all_bits_nonneg (c : flag_class) : 0 <= Enum.all_bits c.
Proof. destruct c; vm_compute; discriminate. Qed.

Lemma bit_length_bound (v : Z) : v < 0 -> - v < 2 ^ Enum.bit_length v.
Proof.
  intros Hv. unfold Enum.bit_length.
  destruct (Z.eqb_spec v 0) as [->|_]; [lia|].
  pose proof (Z.log2_spec (Z.abs v)) as H.
  replace (Z.log2 (Z.abs v) + 1) with (Z.succ (Z.log2 (Z.abs v))) by lia. lia.
Qed.

(** The value of a decoded flag set is never negative: the class call
    brings a negative integer into the range of the set. *)
Lemma flag_call_range (c : flag_class) (v : Z) : 0 <= Enum.flag_call c v.
Proof.
  unfold Enum.flag_call.
  destruct (Enum.is_member (flag_members c) v) eqn:Hm;
    [apply flag_member_nonneg with c; exact Hm|].
  unfold Enum.missing_value.
  pose proof (all_bits_nonneg c) as HA.
  set (A := Enum.all_bits c) in *.
  destruct (negb ((Z.lnot A <=? v) && (v <=? A))
            || negb (Z.land v (Z.lxor A (Enum.flag_mask c)) =? 0)) eqn:Hcond.
  - destruct (Z.ltb_spec v 0) as [Hneg|Hpos].
    + pose proof (bit_length_bound v Hneg) as Hb.
      destruct (Z.ltb_spec (Z.max (A + 1) (2 ^ Enum.bit_length v) + v) 0); lia.
    + destruct (Z.ltb_spec v 0); lia.
  - apply orb_false_iff in Hcond as [Hr _].
    apply negb_false_iff, andb_true_iff in Hr as [Hlo Hhi].
    apply Z.leb_le in Hlo. unfold Z.lnot in Hlo.
    destruct (Z.ltb_spec v 0); lia.
Qed.

(** ** The types of the attributes *)

Definition enum_class_eqb (a b : enum_class) : bool :=
  match a, b with
  | CallType, CallType | NumberType, NumberType
  | BlockedReason, BlockedReason | NumberPresentation, NumberPresentation => true
  | _, _ => false
  end.

Definition flag_class_eqb (a b : flag_class) : bool :=
  match a, b with
  | MissedReason, MissedReason | CallFeatures, CallFeatures => true
  | _, _ => false
  end.

(** [v] is what the decoder stores for a field of type [t]: a datetime; a
    normalised timedelta of whole seconds; a member of the field's
    enumeration; a non-negative value of the field's flag set; a bool; an
    int (or a bool, which is an int); a str. *)
Definition has_type (t : ftype) (v : pyval) : bool :=
  match t, v with
  | TDatetime, VDatetime _ => true
  | TTimedelta, VTimedelta td =>
      (0 <=? Timedelta.seconds td) && (Timedelta.seconds td <? 86400)
      && (Timedelta.microseconds td =? 0)
      && (- Timedelta.max_days <=? Timedelta.days td)
      && (Timedelta.days td <=? Timedelta.max_days)
  | TEnum c, VEnum c' n => enum_class_eqb c c' && Enum.is_member (enum_members c) n
  | TFlag c, VFlag c' n => flag_class_eqb c c' && (0 <=? n)
  | TBool, VBool _ => true
  | TInt, VInt _ | TInt, VBool _ => true
  | TStr, VStr _ => true
  | _, _ => false
  end.

Lemma enum_class_eqb_refl (c : enum_class) : enum_class_eqb c c = true.
Proof. destruct c; reflexivity. Qed.

Lemma flag_class_eqb_refl (c : flag_class) : flag_class_eqb c c = true.
Proof. destruct c; reflexivity. Qed.

Lemma enum_call_member (c : enum_class) (n v : Z) :
  Enum.call c n = Ok v -> v = n /\ Enum.is_member (enum_members c) n = true.
Proof.
  unfold Enum.call. destruct (Enum.is_member (enum_members c) n); [|discriminate].
  intros H. injection H as <-. split; reflexivity.
Qed.

Lemma of_seconds_type (n : Z) (td : Timedelta.t) :
  Timedelta.of_seconds n = Ok td -> has_type TTimedelta (VTimedelta td) = true.
Proof.
  unfold Timedelta.of_seconds.
  destruct ((n / 86400 <? - Timedelta.max_days) || (Timedelta.max_days <? n / 86400))
    eqn:Hr; [discriminate|].
  intros H. injection H as <-. simpl.
  apply orb_false_iff in Hr as [H1 H2].
  apply Z.ltb_ge in H1, H2.
  pose proof (Z.mod_pos_bound n 86400).
  repeat (apply andb_true_iff; split); try apply Z.leb_le; try apply Z.ltb_lt;
    try reflexivity; lia.
Qed.

Lemma flag_value_type (c : flag_class) (n : Z) :
  has_type (TFlag c) (VFlag c (Enum.flag_call c n)) = true.
Proof.
  simpl. rewrite flag_class_eqb_refl. apply Z.leb_le, flag_call_range.
Qed.

Lemma decode_value_type (tz : timezone) (t : ftype) (value : json) (pv : pyval) :
  decode_value tz t value = Ok pv -> has_type t pv = true.
Proof.
  destruct t as [| |c|c| | |].
  - unfold decode_value.
    assert (H : forall r : result Z,
               (try ms <- r in try utc <- utcfromtimestamp_ms ms in
                try d <- astimezone tz utc in Ok (VDatetime d)) = Ok pv ->
               has_type TDatetime pv = true).
    { intros [ms|e]; simpl; [|discriminate].
      destruct (utcfromtimestamp_ms ms) as [utc|e]; simpl; [|discriminate].
      destruct (astimezone tz utc) as [d|e]; simpl; [|discriminate].
      intros H. injection H as <-. reflexivity. }
    destruct value; apply H.
  - unfold decode_value.
    assert (H : forall r : result Z,
               (try n <- r in try td <- Timedelta.of_seconds n in
                Ok (VTimedelta td)) = Ok pv ->
               has_type TTimedelta pv = true).
    { intros [n|e]; simpl; [|discriminate].
      destruct (Timedelta.of_seconds n) as [td|e] eqn:Htd; simpl; [|discriminate].
      intros H. injection H as <-. apply (of_seconds_type n). exact Htd. }
    destruct value; apply H.
  - destruct value as [|b|n|s]; simpl; try discriminate.
    + destruct (Enum.is_member (enum_members c) (Z_of_bool b)) eqn:Hm; [|discriminate].
      intros H. injection H as <-. simpl. rewrite enum_class_eqb_refl. exact Hm.
    + destruct (Enum.call c n) as [v|e] eqn:Hc; simpl; [|discriminate].
      intros H. injection H as <-. apply enum_call_member in Hc as [-> Hm].
      simpl. rewrite enum_class_eqb_refl. exact Hm.
    + destruct (PyStr.int_of_str s) as [n|]; simpl; [|discriminate].
      destruct (Enum.call c n) as [v|e] eqn:Hc; simpl; [|discriminate].
      intros H. injection H as <-. apply enum_call_member in Hc as [-> Hm].
      simpl. rewrite enum_class_eqb_refl. exact Hm.
  - destruct value as [|b|n|s]; simpl; try discriminate.
    + intros H. injection H as <-. apply flag_value_type.
    + intros H. injection H as <-. apply flag_value_type.
    + destruct (PyStr.int_of_str s) as [n|]; simpl; [|discriminate].
      intros H. injection H as <-. apply flag_value_type.
  - destruct value; simpl; intros H; injection H as <-; reflexivity.
  - destruct value as [|b|n|s]; simpl; try discriminate.
    + intros H. injection H as <-. reflexivity.
    + intros H. injection H as <-. reflexivity.
    + destruct (PyStr.int_of_str s) as [n|]; simpl; [|discriminate].
      intros H. injection H as <-. reflexivity.
  - destruct value; simpl; intros H; injection H as <-; reflexivity.
Qed.

(** X1. Every attribute of a decoded record is of the declared type of its
    field, or is the field's default when the key was absent. In
    particular an enumeration attribute is a defined member, a flag
    attribute is not negative and a duration is normalised. *)
Theorem decoded_record_types (tz : timezone) (multiple : bool) (n : nat)
        (obj obj' : dict) (self : PhoneCall) (out : list string) (f : field) :
  decode_object tz multiple n obj = (Ok self, obj', out) ->
  f ∈ fields ->
  exists v,
    self !! fname f = Some v
    /\ (has_type (ftyp f) v = true
        \/ (obj !! fname f = None /\ fdefault f = Some v)).
Proof.
  intros Hrun Hf.
  destruct (decode_object_ok_spec _ _ _ _ _ _ _ Hrun) as (_ & _ & Hvals).
  specialize (Hvals f Hf).
  destruct (obj !! fname f) as [raw|].
  - destruct Hvals as (pv & Hdec & Hself). exists pv. split; [exact Hself|].
    left. apply (decode_value_type tz _ raw). exact Hdec.
  - destruct Hvals as (d & Hd & Hself). exists d. split; [exact Hself|].
    right. split; [reflexivity | exact Hd].
Qed.

Lemma decoded_record_types_witness :
  exists v,
    sample_call !! "type" = Some v
    /\ (has_type (TEnum CallType) v = true
        \/ (sample_object "1709506620000" !! "type" = None /\ None = Some v)).
Proof.
  apply (decoded_record_types Europe_Vienna true 0 (sample_object "1709506620000")
           sample_rest sample_call [] (required "type" (TEnum CallType))).
  - exact sample_decodes.
  - apply list_elem_of_In. vm_compute. do 4 right. left. reflexivity.
Defined.

(** ** Rendering a decoded record *)

Lemma csv_cell_total (self : PhoneCall) (out : gset string) (f : string)
      (d : Datetime.t) :
  self !! "date" = Some (VDatetime d) ->
  exists cell, csv_cell self out f = Ok cell.
Proof.
  intros Hd. unfold csv_cell, self_date. rewrite Hd. cbn [bind].
  destruct (String.eqb f "date"); [eauto|].
  destruct (String.eqb f "time"); [eauto|].
  destruct (getattr self f) eqn:Hv; try (destruct (String.eqb f "formatted_numer"));
    try (destruct (negb (truthy _))); eauto.
Qed.

Lemma csv_cells_total (self : PhoneCall) (out : gset string) (cols : list string)
      (d : Datetime.t) :
  self !! "date" = Some (VDatetime d) ->
  exists row, csv_cells self out cols = Ok row.
Proof.
  intros Hd. induction cols as [|c cols [row IH]]; [exists []; reflexivity|].
  destruct (csv_cell_total self out c d Hd) as [cell Hc].
  exists (cell :: row). simpl. rewrite Hc. cbn [bind]. rewrite IH. reflexivity.
Qed.

Lemma decoded_has_date (tz : timezone) (multiple : bool) (n : nat)
      (obj obj' : dict) (self : PhoneCall) (out : list string) :
  decode_object tz multiple n obj = (Ok self, obj', out) ->
  exists d, self !! "date" = Some (VDatetime d).
Proof.
  intros Hrun.
  destruct (decode_object_ok_spec _ _ _ _ _ _ _ Hrun) as (_ & _ & Hvals).
  specialize (Hvals _ date_field_in_fields). cbn [fname ftyp fdefault required] in Hvals.
  destruct (obj !! "date") as [raw|].
  - destruct Hvals as (pv & Hdec & Hself).
    pose proof (decode_value_type tz _ raw _ Hdec) as Hty.
    destruct pv; try discriminate Hty. eauto.
  - destruct Hvals as (d & Hdef & _). discriminate Hdef.
Qed.

Lemma default_columns_known :
  forall f, f ∈ default_csv_fields -> f = "time" \/ f ∈ field_names.
Proof.
  assert (H : forallb (fun f => String.eqb f "time"
                                || existsb (String.eqb f) field_names)
                      default_csv_fields = true) by (vm_compute; reflexivity).
  intros f Hf. rewrite forallb_forall in H.
  apply list_elem_of_In in Hf. specialize (H f Hf).
  apply orb_true_iff in H as [H|H].
  - left. apply String.eqb_eq. exact H.
  - right. apply existsb_exists in H as (g & Hg & Heq).
    apply String.eqb_eq in Heq. subst g. apply list_elem_of_In. exact Hg.
Qed.

Lemma csv_row_check (cols : list string) :
  (forall f, f ∈ cols -> f = "time" \/ f ∈ field_names) ->
  bool_decide ((list_to_set cols : gset string) ∖ csv_aliases ⊆ call_fields) = true.
Proof.
  intros Hcols. apply bool_decide_eq_true_2. intros f Hf.
  apply elem_of_difference in Hf as [Hin Hnot].
  apply elem_of_list_to_set in Hin.
  unfold csv_aliases in Hnot. rewrite elem_of_singleton in Hnot.
  destruct (Hcols f Hin) as [->|Hname]; [contradiction|].
  unfold call_fields. apply elem_of_list_to_set. exact Hname.
Qed.

(** X2. A record that [from_json] decoded is rendered without an error by
    the default columns and by every list of known columns, and the row
    has one cell for each label of the header. *)
Theorem decoded_record_renders (tz : timezone) (multiple : bool) (n : nat)
        (obj obj' : dict) (self : PhoneCall) (out : list string)
        (cols : option (list string)) :
  decode_object tz multiple n obj = (Ok self, obj', out) ->
  (forall f, f ∈ or_default cols -> f = "time" \/ f ∈ field_names) ->
  exists row,
    csv_row self cols = Ok row
    /\ length row = length (csv_header cols).
Proof.
  intros Hrun Hcols.
  destruct (decoded_has_date _ _ _ _ _ _ _ Hrun) as [d Hd].
  destruct (csv_cells_total self (list_to_set (or_default cols)) (or_default cols) d Hd)
    as [row Hrow].
  exists row. split.
  - unfold csv_row. rewrite (csv_row_check _ Hcols). exact Hrow.
  - unfold csv_header. rewrite length_map. apply (csv_cells_length _ _ _ _ Hrow).
Qed.

Lemma decoded_record_renders_witness :
  exists row,
    csv_row sample_call None = Ok row
    /\ length row = length (csv_header None).
Proof.
  apply (decoded_record_renders Europe_Vienna true 0 (sample_object "1709506620000")
           sample_rest sample_call [] None).
  - exact sample_decodes.
  - exact default_columns_known.
Defined.

(** ** Keys outside the record *)

Lemma decode_fields_extra_key (tz : timezone) (fs : list field) (multiple : bool)
      (n : nat) (obj : dict) (call : gmap string pyval) (k : string) (x : json) :
  k ∉ map fname fs ->
  decode_fields tz fs multiple n (<[k := x]> obj) call
  = let '(r, o, out) := decode_fields tz fs multiple n obj call in
    (r, <[k := x]> o, out).
Proof.
  revert obj call. induction fs as [|f fs IH]; intros obj call Hk; [reflexivity|].
  simpl in Hk. apply not_elem_of_cons in Hk as [Hne Hk].
  simpl. rewrite lookup_insert_ne by congruence.
  destruct (obj !! fname f) as [v|].
  - destruct (decode_value tz (ftyp f) v) as [pv|e].
    + rewrite <- (IH _ _ Hk). f_equal. apply delete_insert_ne. congruence.
    + rewrite delete_insert_ne by congruence. reflexivity.
  - destruct (has_default f); [apply IH; exact Hk | reflexivity].
Qed.

(** X3. A key that is not a field of the record has no effect on decoding:
    with it the object gives the same record, or the same exception, and
    the same printed lines as without it, and the key is still in the
    object afterwards. *)
Theorem unknown_key_ignored (tz : timezone) (multiple : bool) (n : nat)
        (obj : dict) (k : string) (x : json) :
  k ∉ field_names ->
  decode_object tz multiple n (<[k := x]> obj)
  = let '(r, o, out) := decode_object tz multiple n obj in (r, <[k := x]> o, out).
Proof.
  intros Hk. unfold decode_object.
  rewrite (decode_fields_extra_key tz fields multiple n obj ∅ k x Hk).
  destruct (decode_fields tz fields multiple n obj ∅) as [[[call|e] o] out];
    reflexivity.
Qed.

Lemma unknown_key_ignored_witness :
  decode_object Europe_Vienna true 0 (<["comment" := JStr "x"]> (sample_object "0"))
  = let '(r, o, out) := decode_object Europe_Vienna true 0 (sample_object "0") in
    (r, <["comment" := JStr "x"]> o, out).
Proof.
  apply (unknown_key_ignored Europe_Vienna true 0 (sample_object "0") "comment" (JStr "x")).
  intros H. apply list_elem_of_In in H. revert H. vm_compute.
  intros H. repeat (destruct H as [H|H]; [discriminate H|]). exact H.
Defined.

(** ** Failures of the decoder *)

(** The fields whose decoder calls [int] on the raw value whatever it
    is. *)
Definition int_decoded (t : ftype) : bool :=
  match t with
  | TDatetime | TTimedelta | TInt => true
  | _ => false
  end.

Lemma bind_ok {A B : Type} (r : result A) (k : A -> result B) (b : B) :
  bind r k = Ok b -> exists a, r = Ok a /\ k a = Ok b.
Proof.
  destruct r as [a|e]; [|discriminate].
  intros H. exists a. split; [reflexivity | exact H].
Qed.

Lemma bind_raise {A B : Type} (r : result A) (k : A -> result B) (e : exn) :
  bind r k = Raise e -> r = Raise e \/ exists a, r = Ok a /\ k a = Raise e.
Proof.
  destruct r as [a|e0]; cbn [bind]; intros H.
  - right. exists a. split; [reflexivity | exact H].
  - left. injection H as <-. reflexivity.
Qed.

(** The classes of the exceptions a decoder raises, apart from the
    [TypeError] of [int]. *)
Definition range_error (e : exn) : Prop :=
  match e with
  | ValueError _ | OverflowError _ | OSError _ => True
  | _ => False
  end.

Lemma of_wall_seconds_errors (s us off : Z) (e : exn) :
  Datetime.of_wall_seconds s us off = Raise e -> range_error e.
Proof.
  unfold Datetime.of_wall_seconds.
  destruct ((s / 86400 + 1 <? 1)
            || (Datetime.ymd2ord Datetime.MAXYEAR 12 31 <? s / 86400 + 1)).
  - intros H. injection H as <-. exact I.
  - destruct (Datetime.ord2ymd (s / 86400 + 1)) as [[y m] d]. discriminate.
Qed.

Lemma utcfromtimestamp_ms_errors (ms : Z) (e : exn) :
  utcfromtimestamp_ms ms = Raise e -> range_error e.
Proof.
  unfold utcfromtimestamp_ms.
  destruct (Float.true_divide ms 1000) as [t|]; [|intros H; injection H as <-; exact I].
  destruct (Float.to_timeval t) as [secs us].
  destruct ((secs <? - 2 ^ 63) || (2 ^ 63 <? secs));
    [intros H; injection H as <-; exact I|].
  destruct ((secs =? 2 ^ 63) || _ || _); [intros H; injection H as <-; exact I|].
  destruct (Datetime.of_wall_seconds _ _ 0); [discriminate|].
  intros H. injection H as <-. exact I.
Qed.

Lemma py_int_errors (value : json) (e : exn) :
  py_int value = Raise e -> is_TypeError e = true \/ range_error e.
Proof.
  destruct value as [|b|n|s]; cbn [py_int]; try discriminate.
  - intros H. injection H as <-. left. reflexivity.
  - destruct (PyStr.int_of_str s); [discriminate|].
    intros H. injection H as <-. right. exact I.
Qed.

Lemma decode_datetime_eq (tz : timezone) (value : json) :
  decode_value tz TDatetime value
  = try ms <- py_int value in
    try utc <- utcfromtimestamp_ms ms in
    try d <- astimezone tz utc in
    Ok (VDatetime d).
Proof. destruct value; reflexivity. Qed.

Lemma decode_timedelta_eq (tz : timezone) (value : json) :
  decode_value tz TTimedelta value
  = try n <- py_int value in
    try td <- Timedelta.of_seconds n in
    Ok (VTimedelta td).
Proof. destruct value; reflexivity. Qed.

(** The decoder of a value raises [TypeError] only where [int] raises it
    on the raw value of a datetime, duration or int field; otherwise it
    raises [ValueError], [OverflowError] or [OSError], and never
    [KeyError] or [AttributeError]. *)
Lemma decode_value_errors (tz : timezone) (t : ftype) (value : json) (e : exn) :
  decode_value tz t value = Raise e ->
  if is_TypeError e
  then int_decoded t = true /\ py_int value = Raise e
  else range_error e.
Proof.
  assert (Hint : forall e', py_int value = Raise e' -> int_decoded t = true ->
                            if is_TypeError e'
                            then int_decoded t = true /\ py_int value = Raise e'
                            else range_error e').
  { intros e' He' Ht. destruct (py_int_errors _ _ He') as [Hty|Hr].
    - rewrite Hty. split; assumption.
    - destruct e'; try destruct Hr; exact I. }
  assert (Hrange : forall e', range_error e' ->
                              if is_TypeError e'
                              then int_decoded t = true /\ py_int value = Raise e'
                              else range_error e').
  { intros e' Hr. destruct e'; try destruct Hr; exact I. }
  destruct t as [| |c|c| | |].
  - rewrite decode_datetime_eq. intros H.
    apply bind_raise in H as [H|(ms & _ & H)]; [apply Hint; [exact H | reflexivity]|].
    apply Hrange.
    apply bind_raise in H as [H|(utc & _ & H)];
      [exact (utcfromtimestamp_ms_errors _ _ H)|].
    apply bind_raise in H as [H|(d & _ & H)]; [|discriminate].
    unfold astimezone in H. exact (of_wall_seconds_errors _ _ _ _ H).
  - rewrite decode_timedelta_eq. intros H.
    apply bind_raise in H as [H|(n & _ & H)]; [apply Hint; [exact H | reflexivity]|].
    apply Hrange.
    apply bind_raise in H as [H|(td & _ & H)]; [|discriminate].
    unfold Timedelta.of_seconds in H.
    destruct ((n / 86400 <? - Timedelta.max_days) || (Timedelta.max_days <? n / 86400));
      [|discriminate].
    injection H as <-. exact I.
  - intros H. apply Hrange.
    destruct value as [|b|n|s]; cbn in H.
    + injection H as <-. exact I.
    + destruct (Enum.is_member (enum_members c) (Z_of_bool b)); [discriminate|].
      injection H as <-. exact I.
    + unfold Enum.call in H.
      destruct (Enum.is_member (enum_members c) n); cbn [bind] in H; [discriminate|].
      injection H as <-. exact I.
    + destruct (PyStr.int_of_str s) as [n|]; cbn [bind] in H;
        [|injection H as <-; exact I].
      unfold Enum.call in H.
      destruct (Enum.is_member (enum_members c) n); cbn [bind] in H; [discriminate|].
      injection H as <-. exact I.
  - intros H. apply Hrange.
    destruct value as [|b|n|s]; cbn in H; try discriminate.
    + injection H as <-. exact I.
    + destruct (PyStr.int_of_str s) as [n|]; cbn [bind] in H; [discriminate|].
      injection H as <-. exact I.
  - destruct value; cbn; discriminate.
  - intros H. destruct value as [|b|n|s]; cbn in H; try discriminate.
    + injection H as <-. split; reflexivity.
    + destruct (PyStr.int_of_str s) as [n|] eqn:Hs; cbn [bind] in H; [discriminate|].
      injection H as <-. exact I.
  - destruct value; cbn; discriminate.
Qed.

(** How the field loop ends when it fails: on a [KeyError] a field without
    default was absent; on any other exception the decoder of a field that
    was present raised it, and the report is printed if the exception is a
    [TypeError]. *)
Lemma decode_fields_failure (tz : timezone) (fs : list field) (multiple : bool)
      (n : nat) (obj obj' : dict) (call : gmap string pyval) (e : exn)
      (out : list string) :
  NoDup (map fname fs) ->
  decode_fields tz fs multiple n obj call = (Raise e, obj', out) ->
  exists f,
    f ∈ fs
    /\ match obj !! fname f with
       | None => fdefault f = None /\ e = KeyError (fname f) /\ out = []
       | Some value =>
           decode_value tz (ftyp f) value = Raise e
           /\ out = if is_TypeError e
                    then failure_report (fname f) value multiple n else []
       end.
Proof.
  revert obj call. induction fs as [|f fs IH]; intros obj call Hnd Hrun;
    [discriminate|].
  simpl in Hnd. apply NoDup_cons in Hnd as [Hk Hnd].
  simpl in Hrun.
  assert (Hlift : forall o c,
             decode_fields tz fs multiple n o c = (Raise e, obj', out) ->
             (forall g, g ∈ fs -> o !! fname g = obj !! fname g) ->
             exists g, g ∈ f :: fs
               /\ match obj !! fname g with
                  | None => fdefault g = None /\ e = KeyError (fname g) /\ out = []
                  | Some value =>
                      decode_value tz (ftyp g) value = Raise e
                      /\ out = if is_TypeError e
                               then failure_report (fname g) value multiple n else []
                  end).
  { intros o c Hr Hsame. destruct (IH _ _ Hnd Hr) as (g & Hg & Hcase).
    exists g. split; [right; exact Hg|]. rewrite <- (Hsame g Hg). exact Hcase. }
  destruct (obj !! fname f) as [v|] eqn:Hv.
  - destruct (decode_value tz (ftyp f) v) as [pv|e0] eqn:Hdec.
    + apply (Hlift _ _ Hrun). intros g Hg. apply lookup_delete_ne.
      intros Heq. apply Hk. rewrite Heq.
      apply list_elem_of_fmap. exists g. split; [reflexivity | exact Hg].
    + injection Hrun as <- _ <-. exists f. split; [left|].
      rewrite Hv. split; [exact Hdec | reflexivity].
  - destruct (has_default f) eqn:Hdef.
    + apply (Hlift _ _ Hrun). intros g Hg. reflexivity.
    + injection Hrun as <- _ <-. exists f. split; [left|].
      rewrite Hv. unfold has_default in Hdef.
      destruct (fdefault f); [discriminate|]. repeat split.
Qed.

Lemma decode_object_failure (tz : timezone) (multiple : bool) (n : nat)
      (obj obj' : dict) (e : exn) (out : list string) :
  decode_object tz multiple n obj = (Raise e, obj', out) ->
  exists f,
    f ∈ fields
    /\ match obj !! fname f with
       | None => fdefault f = None /\ e = KeyError (fname f) /\ out = []
       | Some value =>
           decode_value tz (ftyp f) value = Raise e
           /\ out = if is_TypeError e
                    then failure_report (fname f) value multiple n else []
       end.
Proof.
  unfold decode_object.
  destruct (decode_fields tz fields multiple n obj ∅) as [[[call'|e0] o] out0] eqn:Hrun.
  - destruct (init_after_decode _ _ _ _ _ _ _ Hrun) as (self & Hinit & _).
    rewrite Hinit. discriminate.
  - intros H. injection H as <- <- <-.
    exact (decode_fields_failure _ _ _ _ _ _ _ _ _ fields_nodup Hrun).
Qed.

(** X4. Decoding an object fails with a [KeyError] only for a field that
    has no default and whose key is absent from the object; the exception
    carries that key and nothing is printed. *)
Theorem key_error_means_missing_field (tz : timezone) (multiple : bool) (n : nat)
        (obj obj' : dict) (k : string) (out : list string) :
  decode_object tz multiple n obj = (Raise (KeyError k), obj', out) ->
  obj !! k = None
  /\ out = []
  /\ exists f, f ∈ fields /\ fname f = k /\ fdefault f = None.
Proof.
  intros Hrun. destruct (decode_object_failure _ _ _ _ _ _ _ Hrun) as (f & Hf & Hcase).
  destruct (obj !! fname f) as [v|] eqn:Hv.
  - destruct Hcase as [Hdec _]. apply decode_value_errors in Hdec. destruct Hdec.
  - destruct Hcase as (Hdef & Heq & Hout). injection Heq as ->.
    split; [exact Hv|]. split; [exact Hout|]. exists f. repeat split; assumption.
Qed.

Definition no_date_run : result PhoneCall * dict * list string :=
  decode_object Europe_Vienna true 0 (delete "date" (sample_object "0")).

Lemma no_date_run_fails :
  decode_object Europe_Vienna true 0 (delete "date" (sample_object "0"))
  = (Raise (KeyError "date"), no_date_run.1.2, no_date_run.2).
Proof.
  assert (H : no_date_run.1.1 = Raise (KeyError "date")) by (vm_compute; reflexivity).
  fold no_date_run. destruct no_date_run as [[r o] out]. simpl in H. rewrite H.
  reflexivity.
Qed.

Lemma key_error_means_missing_field_witness :
  delete "date" (sample_object "0") !! "date" = None
  /\ no_date_run.2 = []
  /\ exists f, f ∈ fields /\ fname f = "date" /\ fdefault f = None.
Proof.
  apply (key_error_means_missing_field Europe_Vienna true 0
           (delete "date" (sample_object "0")) no_date_run.1.2 "date" no_date_run.2).
  exact no_date_run_fails.
Defined.

(** X5. The failure report is printed exactly when the exception is a
    [TypeError]. A [TypeError] is raised only by [int] on the raw value of
    a datetime, duration or int field that is present in the object, a
    value that is neither a string nor a number (of the values modelled
    here, a null). The report names that field and shows that raw value;
    any other failure prints nothing. *)
Theorem report_only_for_type_error (tz : timezone) (multiple : bool) (n : nat)
        (obj obj' : dict) (e : exn) (out : list string) :
  decode_object tz multiple n obj = (Raise e, obj', out) ->
  if is_TypeError e
  then exists f v, f ∈ fields /\ int_decoded (ftyp f) = true
                   /\ obj !! fname f = Some v
                   /\ py_int v = Raise e
                   /\ out = failure_report (fname f) v multiple n
  else out = [].
Proof.
  intros Hrun. destruct (decode_object_failure _ _ _ _ _ _ _ Hrun) as (f & Hf & Hcase).
  destruct (obj !! fname f) as [v|] eqn:Hv.
  - destruct Hcase as [Hdec Hout].
    pose proof (decode_value_errors _ _ _ _ Hdec) as Hcls.
    destruct (is_TypeError e); [|exact Hout].
    destruct Hcls as [Hint Hpy]. exists f, v. repeat split; assumption.
  - destruct Hcase as (_ & -> & ->). reflexivity.
Qed.

Definition null_id_object : dict := <["photo_id" := JNull]> (sample_object "0").

Definition null_id_run : result PhoneCall * dict * list string :=
  decode_object Europe_Vienna true 4 null_id_object.

Definition null_id_error : exn :=
  match null_id_run.1.1 with
  | Raise e => e
  | Ok _ => KeyError ""
  end.

Lemma null_id_run_fails :
  decode_object Europe_Vienna true 4 null_id_object
  = (Raise null_id_error, null_id_run.1.2, null_id_run.2).
Proof.
  assert (H : is_ok null_id_run.1.1 = false) by (vm_compute; reflexivity).
  unfold null_id_error. fold null_id_run.
  destruct null_id_run as [[[s|e] o] out]; [discriminate H | reflexivity].
Qed.

Lemma report_only_for_type_error_witness :
  if is_TypeError null_id_error
  then exists f v, f ∈ fields /\ int_decoded (ftyp f) = true
                   /\ null_id_object !! fname f = Some v
                   /\ py_int v = Raise null_id_error
                   /\ null_id_run.2 = failure_report (fname f) v true 4
  else null_id_run.2 = [].
Proof.
  apply (report_only_for_type_error Europe_Vienna true 4 null_id_object
           null_id_run.1.2).
  exact null_id_run_fails.
Defined.

Example report_ex :
  null_id_run.2
  = ["Failed parsing field photo_id for value " ++ dquote ++ "None" ++ dquote ++ ".";
     "Call 5"].
Proof. vm_compute. reflexivity. Qed.

(** ** Failures in a batch *)

Lemma decode_objects_failure (tz : timezone) (ls : list nat) (multiple : bool)
      (calls : list PhoneCall) (σ σ' : store) (e : exn) (out : list string) :
  NoDup ls ->
  decode_objects tz ls multiple calls σ = (Raise e, σ', out) ->
  exists (i : nat) (l : nat),
    ls !! i = Some l
    /\ (forall j lj, (j < i)%nat -> ls !! j = Some lj ->
          is_ok (decode_object tz multiple (length calls + j) (σ lj)).1.1 = true)
    /\ decode_object tz multiple (length calls + i) (σ l) = (Raise e, σ' l, out)
    /\ (forall l', l' ∉ take (S i) ls -> σ' l' = σ l').
Proof.
  revert calls σ. induction ls as [|l0 ls IH]; intros calls σ Hnd Hrun; [discriminate|].
  apply NoDup_cons in Hnd as [Hl0 Hnd].
  simpl in Hrun.
  destruct (decode_object tz multiple (length calls) (σ l0))
    as [[[call|e0] obj'] out0] eqn:Hobj.
  - destruct (IH _ _ Hnd Hrun) as (i & l & Hi & Hbefore & Hdec & Hframe).
    assert (Hother : forall j lj, ls !! j = Some lj -> store_set σ l0 obj' lj = σ lj).
    { intros j lj Hj. apply store_set_ne. intros ->. apply Hl0.
      apply list_elem_of_lookup. exists j. exact Hj. }
    exists (S i), l. split; [exact Hi|]. split; [|split].
    + intros [|j] lj Hlt Hj.
      * cbn in Hj. injection Hj as <-. rewrite Nat.add_0_r, Hobj. reflexivity.
      * cbn in Hj. rewrite <- (Hother j lj Hj).
        specialize (Hbefore j lj ltac:(lia) Hj).
        rewrite length_app in Hbefore. simpl in Hbefore.
        replace (length calls + S j)%nat with (length calls + 1 + j)%nat by lia.
        exact Hbefore.
    + rewrite length_app in Hdec. simpl in Hdec.
      replace (length calls + S i)%nat with (length calls + 1 + i)%nat by lia.
      rewrite <- (Hother i l Hi). exact Hdec.
    + intros l' Hl'. cbn [take] in Hl'. apply not_elem_of_cons in Hl' as [Hne Hl'].
      rewrite (Hframe l' Hl'). apply store_set_ne. exact Hne.
  - injection Hrun as <- <- <-.
    exists 0%nat, l0. split; [reflexivity|]. split; [|split].
    + intros j lj Hlt. lia.
    + rewrite Nat.add_0_r, Hobj. f_equal. f_equal. symmetry. apply store_set_eq.
    + intros l' Hl'. cbn [take] in Hl'. apply not_elem_of_cons in Hl' as [Hne _].
      apply store_set_ne. exact Hne.
Qed.

(** X6. When decoding a list of distinct objects fails, the decoder has
    stopped at the first object that cannot be decoded: every object
    before it decodes, the exception and the lines printed are those of
    decoding that object, which is left as that attempt left it, and the
    objects after it are untouched. The report of a [TypeError] ends with
    the 1-based position of that object in the list. *)
Theorem batch_stops_at_first_failure (tz : timezone) (ls : list nat)
        (σ σ' : store) (e : exn) (out : list string) :
  NoDup ls ->
  from_json tz (Arr ls) σ = (Raise e, σ', out) ->
  exists (i : nat) (l : nat),
    ls !! i = Some l
    /\ (forall j lj, (j < i)%nat -> ls !! j = Some lj ->
          is_ok (decode_object tz true j (σ lj)).1.1 = true)
    /\ decode_object tz true i (σ l) = (Raise e, σ' l, out)
    /\ (forall l', l' ∉ take (S i) ls -> σ' l' = σ l')
    /\ (is_TypeError e = true ->
        last out = Some ("Call " ++ PyStr.of_Z (Z.of_nat i + 1))).
Proof.
  intros Hnd. unfold from_json.
  destruct (decode_objects tz ls true [] σ) as [[[calls|e0] s1] o1] eqn:Hrun;
    [discriminate|].
  intros H. injection H as <- <- <-.
  destruct (decode_objects_failure _ _ _ _ _ _ _ _ Hnd Hrun)
    as (i & l & Hi & Hbefore & Hdec & Hframe).
  simpl in Hbefore, Hdec.
  exists i, l. split; [exact Hi|]. split; [exact Hbefore|].
  split; [exact Hdec|]. split; [exact Hframe|].
  intros Hty.
  destruct (decode_object_failure _ _ _ _ _ _ _ Hdec) as (f & Hf & Hcase).
  destruct (σ l !! fname f) as [v|].
  - destruct Hcase as [_ Hout]. rewrite Hty in Hout. rewrite Hout. reflexivity.
  - destruct Hcase as (_ & -> & _). discriminate Hty.
Qed.

Definition bad_batch_store : store :=
  sample_store [sample_object "1709506620000"; null_id_object;
                sample_object "1709420220000"].

Definition bad_batch_run : result decoded * store * list string :=
  from_json Europe_Vienna (Arr [0; 1; 2]%nat) bad_batch_store.

Definition bad_batch_error : exn :=
  match bad_batch_run.1.1 with
  | Raise e => e
  | Ok _ => KeyError ""
  end.

Lemma bad_batch_run_fails :
  from_json Europe_Vienna (Arr [0; 1; 2]%nat) bad_batch_store
  = (Raise bad_batch_error, bad_batch_run.1.2, bad_batch_run.2).
Proof.
  assert (H : is_ok bad_batch_run.1.1 = false) by (vm_compute; reflexivity).
  unfold bad_batch_error. fold bad_batch_run.
  destruct bad_batch_run as [[[s|e] o] out]; [discriminate H | reflexivity].
Qed.

Lemma batch_stops_at_first_failure_witness :
  exists (i : nat) (l : nat),
    [0; 1; 2]%nat !! i = Some l
    /\ (forall j lj, (j < i)%nat -> [0; 1; 2]%nat !! j = Some lj ->
          is_ok (decode_object Europe_Vienna true j (bad_batch_store lj)).1.1 = true)
    /\ decode_object Europe_Vienna true i (bad_batch_store l)
       = (Raise bad_batch_error, bad_batch_run.1.2 l, bad_batch_run.2)
    /\ (forall l', l' ∉ take (S i) [0; 1; 2]%nat ->
          bad_batch_run.1.2 l' = bad_batch_store l')
    /\ (is_TypeError bad_batch_error = true ->
        last bad_batch_run.2 = Some ("Call " ++ PyStr.of_Z (Z.of_nat i + 1))).
Proof.
  apply (batch_stops_at_first_failure Europe_Vienna [0; 1; 2]%nat bad_batch_store
           bad_batch_run.1.2 bad_batch_error bad_batch_run.2).
  - apply (bool_decide_unpack _). vm_compute. exact I.
  - exact bad_batch_run_fails.
Defined.

Example bad_batch_ex :
  last bad_batch_run.2 = Some "Call 2"
  /\ size (bad_batch_run.1.2 0%nat) = 0%nat
  /\ size (bad_batch_run.1.2 2%nat) = 24%nat.
Proof. vm_compute. repeat split. Qed.

(** * Further properties of the conversion *)

(** ** The loop over the calls *)

(** The row of a call under the default columns. *)
Definition default_row (call : PhoneCall) : list pyval :=
  match csv_row call None with
  | Ok row => row
  | Raise _ => []
  end.

(** The instant of a call's date. *)
Definition call_instant (call : PhoneCall) : Z :=
  match call !! "date" with
  | Some (VDatetime d) => Datetime.instant d
  | _ => 0
  end.

Definition before_start (start : option Datetime.t) (call : PhoneCall) : bool :=
  match start with
  | Some s => call_instant call <? Datetime.instant s
  | None => false
  end.

Definition after_stop (stop : option Datetime.t) (call : PhoneCall) : bool :=
  match stop with
  | Some s => Datetime.instant s <=? call_instant call
  | None => false
  end.


(** The calls up to the first one that lies before the start bound. *)
Fixpoint until_start (start : option Datetime.t) (calls : list PhoneCall)
  : list PhoneCall :=
  match calls with
  | [] => []
  | call :: rest =>
      if before_start start call then [] else call :: until_start start rest
  end.

(** A call as [from_json] builds it, as far as the loop is concerned: it
    has a datetime as its date. *)
Definition dated (call : PhoneCall) : Prop :=
  exists d, call !! "date" = Some (VDatetime d).

Lemma dated_row (call : PhoneCall) :
  dated call -> csv_row call None = Ok (default_row call).
Proof.
  intros [d Hd].
  destruct (csv_cells_total call (list_to_set default_csv_fields) default_csv_fields d Hd)
    as [row Hrow].
  assert (H : csv_row call None = Ok row).
  { unfold csv_row. cbn [or_default].
    rewrite (csv_row_check _ default_columns_known). exact Hrow. }
  unfold default_row. rewrite H. reflexivity.
Qed.

Lemma loop_body_dated (start stop : option Datetime.t) (call : PhoneCall) :
  dated call ->
  loop_body start stop call
  = if before_start start call then Break
    else if after_stop stop call then Continue
    else Write (default_row call).
Proof.
  intros Hdated. pose proof (dated_row call Hdated) as Hrow.
  destruct Hdated as [d Hd].
  unfold loop_body, call_date, before_start, after_stop, call_instant.
  rewrite Hd, Hrow. unfold Datetime.lt, Datetime.ge.
  destruct start as [s|], stop as [e|]; cbn [bind];
    repeat match goal with |- context [if ?b then _ else _] => destruct b end;
    reflexivity.
Qed.

(** What the loop writes: of the calls up to the first one before the
    start bound, those that are not at or after the stop bound, in
    order. *)
Lemma write_calls_spec (start stop : option Datetime.t) (calls : list PhoneCall)
      (rows : list (list pyval)) :
  Forall dated calls ->
  write_calls start stop calls rows
  = (Ok tt,
     (rows ++ map default_row
                  (filter (fun c => after_stop stop c = false)
                          (until_start start calls)))%list).
Proof.
  intros Hall. revert rows. induction Hall as [|call rest Hc Hrest IH]; intros rows.
  - simpl. rewrite app_nil_r. reflexivity.
  - cbn [write_calls until_start]. rewrite (loop_body_dated _ _ _ Hc).
    destruct (before_start start call) eqn:Hb.
    + simpl. rewrite app_nil_r. reflexivity.
    + destruct (after_stop stop call) eqn:Ha.
      * rewrite IH. rewrite filter_cons_False by (rewrite Ha; discriminate).
        reflexivity.
      * rewrite IH. rewrite filter_cons_True by exact Ha.
        cbn [map]. rewrite <- app_assoc. reflexivity.
Qed.









(** ** The conversion as a whole *)

Lemma decode_objects_dated (tz : timezone) (ls : list nat) (multiple : bool)
      (calls calls' : list PhoneCall) (σ σ' : store) (out : list string) :
  decode_objects tz ls multiple calls σ = (Ok calls', σ', out) ->
  Forall dated calls -> Forall dated calls'.
Proof.
  revert calls σ. induction ls as [|l0 ls IH]; intros calls σ Hrun Hall.
  - simpl in Hrun. injection Hrun as <- _ _. exact Hall.
  - simpl in Hrun.
    destruct (decode_object tz multiple (length calls) (σ l0))
      as [[[call|e] obj'] out0] eqn:Hobj; [|discriminate].
    apply (IH _ _ Hrun). apply Forall_app_2; [exact Hall|].
    constructor; [|constructor].
    exact (decoded_has_date _ _ _ _ _ _ _ Hobj).
Qed.

Lemma until_start_none (calls : list PhoneCall) : until_start None calls = calls.
Proof. induction calls as [|c calls IH]; [reflexivity|]. simpl. rewrite IH. reflexivity. Qed.

Lemma filter_all (P : PhoneCall -> Prop) `{forall c, Decision (P c)}
      (calls : list PhoneCall) :
  Forall P calls -> filter P calls = calls.
Proof.
  induction 1 as [|c rest Hc _ IH]; [reflexivity|].
  rewrite filter_cons_True by exact Hc. rewrite IH. reflexivity.
Qed.

(** X8. With the buffer in memory as the output ([output=None]), on an
    array, once the stop bound is computed and the array is decoded, the
    conversion ends without an error. For every decoded call the body of
    the loop leaves the loop, passes the call over or hands its row of the
    default columns to the writer, and raises nothing. The header is
    written first, then a row for each call that the range selects, in
    the order of the array, and nothing is printed. Without a start and a
    stop date every call is written, so the output has one row more than
    the array has objects. *)
Theorem array_conversion (tz : timezone) (ls : list nat)
        (start_date stop_date : option date_arg) (stop : option Datetime.t)
        (σ σ' : store) (calls : list PhoneCall) (out : list string) :
  stop_bound tz stop_date = Ok stop ->
  from_json tz (Arr ls) σ = (Ok (Many calls), σ', out) ->
  convert_to_csv tz (Arr ls) start_date stop_date σ
  = (Ok tt,
     (map VStr (csv_header None)
      :: map default_row
             (filter (fun c => after_stop stop c = false)
                     (until_start (start_bound tz start_date) calls)))%list,
     σ', [])
  /\ length calls = length ls
  /\ (start_date = None -> stop_date = None ->
      (convert_to_csv tz (Arr ls) start_date stop_date σ).1.1.2
      = (map VStr (csv_header None) :: map default_row calls)%list)
  /\ Forall (fun c =>
               loop_body (start_bound tz start_date) stop c
               = if before_start (start_bound tz start_date) c then Break
                 else if after_stop stop c then Continue
                 else Write (default_row c)) calls.
Proof.
  intros Hstop Hjson.
  assert (Hloop : decode_objects tz ls true [] σ = (Ok calls, σ', out)).
  { unfold from_json in Hjson.
    destruct (decode_objects tz ls true [] σ) as [[[cs|e] s1] o1]; [|discriminate].
    injection Hjson as <- <- <-. reflexivity. }
  destruct (decode_objects_ok_spec _ _ _ _ _ _ _ _ Hloop) as (Hout & Hlen & _).
  pose proof (decode_objects_dated _ _ _ _ _ _ _ _ Hloop (Forall_nil_2 _)) as Hdated.
  assert (Hconv : convert_to_csv tz (Arr ls) start_date stop_date σ
                  = (Ok tt,
                     (map VStr (csv_header None)
                      :: map default_row
                             (filter (fun c => after_stop stop c = false)
                                     (until_start (start_bound tz start_date) calls)))%list,
                     σ', [])).
  { unfold convert_to_csv. rewrite Hstop, Hjson.
    rewrite (write_calls_spec _ _ _ _ Hdated). subst out. reflexivity. }
  split; [exact Hconv|]. split; [simpl in Hlen; exact Hlen|]. split.
  - intros -> ->. rewrite Hconv. cbn [fst snd start_bound option_map].
    simpl in Hstop. injection Hstop as <-.
    rewrite until_start_none, filter_all; [reflexivity|].
    apply Forall_forall. intros c _. reflexivity.
  - apply (Forall_impl _ _ _ Hdated). intros c Hc. apply loop_body_dated. exact Hc.
Qed.

Lemma Ok_inj {A : Type} (a b : A) : Ok a = Ok b -> a = b.
Proof. intros H. injection H as H. exact H. Qed.

Definition two_calls : list PhoneCall :=
  match two_calls_decoded with
  | Many cs => cs
  | One c => [c]
  end.

Lemma two_calls_from_json :
  from_json Europe_Vienna (Arr [0; 1]%nat) two_calls_store
  = (Ok (Many two_calls), two_calls_run.1.2, []).
Proof.
  assert (Hmany : two_calls_decoded = Many two_calls).
  { pose proof two_calls_run_ok as H. unfold from_json in H.
    destruct (decode_objects Europe_Vienna [0; 1]%nat true [] two_calls_store)
      as [[[cs|e] s1] o1]; [|discriminate].
    apply (f_equal (fun x => x.1.1)) in H. cbn [fst] in H. apply Ok_inj in H.
    unfold two_calls. rewrite <- H. reflexivity. }
  pose proof two_calls_run_ok as Hrun. rewrite Hmany in Hrun. exact Hrun.
Qed.

Lemma array_conversion_witness :
  convert_to_csv Europe_Vienna (Arr [0; 1]%nat) None None two_calls_store
  = (Ok tt,
     (map VStr (csv_header None)
      :: map default_row
             (filter (fun c => after_stop None c = false)
                     (until_start (start_bound Europe_Vienna None) two_calls)))%list,
     two_calls_run.1.2, [])
  /\ length two_calls = length [0; 1]%nat
  /\ (@None date_arg = None -> @None date_arg = None ->
      (convert_to_csv Europe_Vienna (Arr [0; 1]%nat) None None two_calls_store).1.1.2
      = (map VStr (csv_header None) :: map default_row two_calls)%list)
  /\ Forall (fun c =>
               loop_body (start_bound Europe_Vienna None) None c
               = if before_start (start_bound Europe_Vienna None) c then Break
                 else if after_stop None c then Continue
                 else Write (default_row c)) two_calls.
Proof.
  apply (array_conversion Europe_Vienna [0; 1]%nat None None None two_calls_store
           two_calls_run.1.2 two_calls []).
  - reflexivity.
  - exact two_calls_from_json.
Defined.

(** X9. On a single object the conversion never succeeds. When the bound
    and the decoding are fine, the header is written and then the loop
    raises a [TypeError], because what [from_json] returns for one object
    is a record and not a list; no row of data is written. *)
Theorem single_object_conversion_fails (tz : timezone) (l : nat)
        (start_date stop_date : option date_arg) (σ : store) :
  (convert_to_csv tz (Obj l) start_date stop_date σ).1.1.1 <> Ok tt
  /\ (is_ok (stop_bound tz stop_date) = true ->
      is_ok (from_json tz (Obj l) σ).1.1 = true ->
      (convert_to_csv tz (Obj l) start_date stop_date σ).1.1.1
      = Raise (TypeError "'PhoneCall' object is not iterable")
      /\ (convert_to_csv tz (Obj l) start_date stop_date σ).1.1.2
         = [map VStr (csv_header None)]).
Proof.
  unfold convert_to_csv.
  destruct (stop_bound tz stop_date) as [stop|e]; [|split; [discriminate|discriminate]].
  assert (Hone : match (from_json tz (Obj l) σ).1.1 with
                 | Ok (Many _) => False
                 | _ => True
                 end).
  { unfold from_json.
    destruct (decode_objects tz [l] false [] σ) as [[[[|c cs]|e] s1] o1]; exact I. }
  destruct (from_json tz (Obj l) σ) as [[[[c|cs]|e] s1] o1]; cbn [fst snd] in *.
  - split; [discriminate|]. intros _ _. split; reflexivity.
  - destruct Hone.
  - split; [discriminate|]. intros _ H. discriminate H.
Qed.

(** * The calendar *)

(** ** Ordinals and dates *)

(** Days of the year before month [m], and days of month [m], for a year
    that is or is not a leap year. *)
Definition dbm (leap : bool) (m : Z) : Z :=
  nth (Z.to_nat (m - 1)) [0; 31; 59; 90; 120; 151; 181; 212; 243; 273; 304; 334] 0
  + (if (2 <? m) && leap then 1 else 0).

Definition dim (leap : bool) (m : Z) : Z :=
  if m =? 2 then (if leap then 29 else 28)
  else if (m =? 4) || (m =? 6) || (m =? 9) || (m =? 11) then 30
  else 31.

(** The month and the day of the [n]-th day of a year, counted from 0: the
    last part of [ord2ymd]. *)
Definition month_day (leapyear : bool) (n : Z) : Z * Z :=
  let month := Z.shiftr (n + 50) 5 in
  let preceding := Datetime.days_before_month 1 month
                   + (if (2 <? month) && leapyear then 1 else 0) in
  if n <? preceding then
    let month' := month - 1 in
    let preceding' := preceding
                      - (nth (Z.to_nat (month' - 1))
                             [31; 28; 31; 30; 31; 30; 31; 31; 30; 31; 30; 31] 0
                         + (if (month' =? 2) && leapyear then 1 else 0)) in
    (month', n - preceding' + 1)
  else (month, n - preceding + 1).

Definition month_day_ok (leap : bool) (n : Z) : bool :=
  let '(m, d) := month_day leap n in
  (1 <=? m) && (m <=? 12) && (1 <=? d) && (d <=? dim leap m)
  && (dbm leap m + d =? n + 1).

Lemma month_day_checked (leap : bool) :
  forallb (month_day_ok leap) (map Z.of_nat (seq 0 (Z.to_nat (if leap then 366 else 365)))) = true.
Proof. destruct leap; vm_compute; reflexivity. Qed.

Lemma year_start (n400 n100 n4 n1 : Z) :
  0 <= n100 <= 3 -> 0 <= n4 <= 24 -> 0 <= n1 <= 3 ->
  Datetime.days_before_year (n400 * 400 + 1 + n100 * 100 + n4 * 4 + n1)
  = 146097 * n400 + 36524 * n100 + 1461 * n4 + 365 * n1.
Proof.
  intros. unfold Datetime.days_before_year. Z.div_mod_to_equations. lia.
Qed.

Lemma leap_year (n400 n100 n4 n1 : Z) :
  0 <= n100 <= 3 -> 0 <= n4 <= 24 -> 0 <= n1 <= 3 ->
  Datetime.is_leap (n400 * 400 + 1 + n100 * 100 + n4 * 4 + n1)
  = (n1 =? 3) && (negb (n4 =? 24) || (n100 =? 3)).
Proof.
  intros H100 H4 H1. unfold Datetime.is_leap.
  set (y := n400 * 400 + 1 + n100 * 100 + n4 * 4 + n1).
  destruct (Z.eqb_spec (y mod 4) 0), (Z.eqb_spec (y mod 100) 0),
    (Z.eqb_spec (y mod 400) 0), (Z.eqb_spec n1 3), (Z.eqb_spec n4 24),
    (Z.eqb_spec n100 3); simpl; try reflexivity; exfalso; subst y;
    Z.div_mod_to_equations; lia.
Qed.

Lemma days_before_month_dbm (y m : Z) : Datetime.days_before_month y m = dbm (Datetime.is_leap y) m.
Proof. reflexivity. Qed.

Lemma days_in_month_dim (y m : Z) : Datetime.days_in_month y m = dim (Datetime.is_leap y) m.
Proof. reflexivity. Qed.

Lemma month_day_spec (leap : bool) (n : Z) :
  0 <= n < 365 ->
  1 <= (month_day leap n).1 <= 12
  /\ 1 <= (month_day leap n).2 <= dim leap (month_day leap n).1
  /\ dbm leap (month_day leap n).1 + (month_day leap n).2 = n + 1.
Proof.
  intros Hn.
  assert (H : month_day_ok leap n = true).
  { pose proof (month_day_checked leap) as Hall. rewrite forallb_forall in Hall.
    apply Hall. apply in_map_iff. exists (Z.to_nat n). split; [lia|].
    apply in_seq. destruct leap; lia. }
  unfold month_day_ok in H. destruct (month_day leap n) as [m d]. simpl.
  repeat (apply andb_true_iff in H as [H ?]). lia.
Qed.

Lemma ord2ymd_spec (n0 : Z) :
  Datetime.ymd2ord (Datetime.ord2ymd n0).1.1 (Datetime.ord2ymd n0).1.2 (Datetime.ord2ymd n0).2 = n0
  /\ 1 <= (Datetime.ord2ymd n0).1.2 <= 12
  /\ 1 <= (Datetime.ord2ymd n0).2 <= Datetime.days_in_month (Datetime.ord2ymd n0).1.1 (Datetime.ord2ymd n0).1.2
  /\ (1 <= n0 -> 1 <= (Datetime.ord2ymd n0).1.1)
  /\ (n0 <= Datetime.ymd2ord Datetime.MAXYEAR 12 31 -> (Datetime.ord2ymd n0).1.1 <= Datetime.MAXYEAR).
Proof.
  unfold Datetime.ord2ymd.
  set (n := n0 - 1).
  set (n400 := n / Datetime.DI400Y). set (r400 := n mod Datetime.DI400Y).
  set (n100 := r400 / Datetime.DI100Y). set (r100 := r400 mod Datetime.DI100Y).
  set (n4 := r100 / Datetime.DI4Y). set (r4 := r100 mod Datetime.DI4Y).
  set (n1 := r4 / 365). set (r1 := r4 mod 365).
  assert (Hfacts :
            0 <= n100 <= 4 /\ 0 <= n4 <= 24 /\ 0 <= n1 <= 4 /\ 0 <= r1 < 365
            /\ n = 146097 * n400 + 36524 * n100 + 1461 * n4 + 365 * n1 + r1
            /\ (n100 = 4 -> n4 = 0 /\ n1 = 0 /\ r1 = 0)
            /\ (n1 = 4 -> r1 = 0 /\ n4 <= 23 /\ n100 <= 3)).
  { subst n400 r400 n100 r100 n4 r4 n1 r1. unfold Datetime.DI400Y, Datetime.DI100Y, Datetime.DI4Y.
    Z.div_mod_to_equations. lia. }
  destruct Hfacts as (H100 & H4 & H1 & Hr1 & Hn & Hc100 & Hc1).
  assert (Hmax : Datetime.ymd2ord Datetime.MAXYEAR 12 31 = 3652059) by reflexivity.
  clearbody n400 n100 n4 n1 r1. clear r400 r100 r4.
  destruct ((n1 =? 4) || (n100 =? 4)) eqn:Hlast.
  - cbn [fst snd].
    replace (n400 * 400 + 1 + n100 * 100 + n4 * 4 + n1 - 1)
      with (n400 * 400 + n100 * 100 + n4 * 4 + n1) by lia.
    set (p := n400 * 400 + n100 * 100 + n4 * 4 + n1).
    assert (Hleap : Datetime.is_leap p = true).
    { unfold Datetime.is_leap.
      apply orb_true_iff in Hlast as [Hl|Hl]; apply Z.eqb_eq in Hl;
        destruct (Z.eqb_spec (p mod 4) 0), (Z.eqb_spec (p mod 100) 0),
          (Z.eqb_spec (p mod 400) 0); simpl; try reflexivity; exfalso; subst p;
        Z.div_mod_to_equations; lia. }
    assert (Hord : Datetime.ymd2ord p 12 31 = n0).
    { unfold Datetime.ymd2ord. rewrite days_before_month_dbm, Hleap.
      unfold Datetime.days_before_year, Datetime.MAXYEAR in *. subst n. cbn [dbm].
      change (dbm true 12) with 335.
      apply orb_true_iff in Hlast as [Hl|Hl]; apply Z.eqb_eq in Hl; subst p;
        Z.div_mod_to_equations; lia. }
    split; [exact Hord|]. split; [lia|]. split.
    + rewrite days_in_month_dim, Hleap. change (dim true 12) with 31. lia.
    + unfold Datetime.MAXYEAR in *. subst p n.
      apply orb_true_iff in Hlast as [Hl|Hl]; apply Z.eqb_eq in Hl; split; intros; lia.
  - apply orb_false_iff in Hlast as [Hl1 Hl100].
    apply Z.eqb_neq in Hl1, Hl100.
    set (leapyear := (n1 =? 3) && (negb (n4 =? 24) || (n100 =? 3))).
    set (year := n400 * 400 + 1 + n100 * 100 + n4 * 4 + n1).
    assert (Hbranch :
              (let month := Z.shiftr (r1 + 50) 5 in
               let preceding := Datetime.days_before_month 1 month
                                + (if (2 <? month) && leapyear then 1 else 0) in
               if r1 <? preceding then
                 let month' := month - 1 in
                 let preceding' := preceding
                                   - (nth (Z.to_nat (month' - 1))
                                          [31; 28; 31; 30; 31; 30; 31; 31; 30; 31; 30; 31] 0
                                      + (if (month' =? 2) && leapyear then 1 else 0)) in
                 (year, month', r1 - preceding' + 1)
               else (year, month, r1 - preceding + 1))
              = (year, (month_day leapyear r1).1, (month_day leapyear r1).2)).
    { unfold month_day. cbv zeta.
      destruct (r1 <? _); reflexivity. }
    cbv zeta in Hbranch. cbv zeta. rewrite Hbranch. cbn [fst snd].
    destruct (month_day_spec leapyear r1 Hr1) as (Hm & Hd & Hsum).
    assert (Hly : Datetime.is_leap year = leapyear) by (apply leap_year; lia).
    split.
    { unfold Datetime.ymd2ord. rewrite days_before_month_dbm, Hly.
      unfold year. rewrite year_start by lia. lia. }
    split; [exact Hm|]. split.
    { rewrite days_in_month_dim, Hly. exact Hd. }
    unfold Datetime.MAXYEAR in *. subst year n. split; intros; lia.
Qed.

(** ** Wall clocks and instants *)

(** A datetime built from a count of wall-clock seconds has that count,
    the given microseconds and offset, and is a valid datetime. *)
Lemma of_wall_seconds_spec (s us off : Z) (d : Datetime.t) :
  Datetime.of_wall_seconds s us off = Ok d ->
  Datetime.wall_seconds d = s
  /\ Datetime.microsecond d = us
  /\ Datetime.utcoffset d = off
  /\ (0 <= us < 1000000 -> Datetime.valid d).
Proof.
  unfold Datetime.of_wall_seconds.
  destruct ((s / 86400 + 1 <? 1)
            || (Datetime.ymd2ord Datetime.MAXYEAR 12 31 <? s / 86400 + 1)) eqn:Hr;
    [discriminate|].
  apply orb_false_iff in Hr as [Hlo Hhi]. apply Z.ltb_ge in Hlo, Hhi.
  pose proof (ord2ymd_spec (s / 86400 + 1)) as (Hord & Hm & Hd & Hy1 & Hy2).
  destruct (Datetime.ord2ymd (s / 86400 + 1)) as [[y m] dd]. cbn [fst snd] in *.
  intros H. injection H as <-.
  unfold Datetime.wall_seconds, Datetime.valid, Datetime.MINYEAR. cbn.
  rewrite Hord. specialize (Hy1 Hlo). specialize (Hy2 Hhi).
  split; [Z.div_mod_to_equations; lia|].
  split; [reflexivity|]. split; [reflexivity|].
  intros Hus. repeat split; try lia; Z.div_mod_to_equations; lia.
Qed.

Lemma add_days_eq (dt : Datetime.t) (n : Z) :
  Datetime.of_wall_seconds (Datetime.wall_seconds dt + n * 86400)
    (Datetime.microsecond dt) (Datetime.utcoffset dt)
  = Datetime.add_days dt n.
Proof.
  exact (eq_refl (Datetime.of_wall_seconds (Datetime.wall_seconds dt + n * 86400)
                    (Datetime.microsecond dt) (Datetime.utcoffset dt))).
Qed.

Lemma add_days_spec (dt : Datetime.t) (n : Z) (d : Datetime.t) :
  Datetime.add_days dt n = Ok d ->
  Datetime.wall_seconds d = Datetime.wall_seconds dt + n * 86400
  /\ Datetime.microsecond d = Datetime.microsecond dt
  /\ Datetime.utcoffset d = Datetime.utcoffset dt
  /\ (0 <= Datetime.microsecond dt < 1000000 -> Datetime.valid d).
Proof. rewrite <- add_days_eq. apply of_wall_seconds_spec. Qed.

(** ** The seconds and microseconds of a time stamp *)

(** *** Rounding to the nearest, ties to even *)

Lemma rhe_spec (a d : Z) :
  0 < d -> - d <= 2 * (Float.round_half_even a d * d - a) <= d.
Proof.
  intros Hd. unfold Float.round_half_even.
  pose proof (Z.div_mod a d ltac:(lia)) as Ha.
  pose proof (Z.mod_pos_bound a d Hd) as Hr.
  destruct (Z.ltb_spec (2 * (a mod d)) d); [lia|].
  destruct (Z.ltb_spec d (2 * (a mod d))); [lia|].
  destruct (Z.even (a / d)); lia.
Qed.

Lemma rhe_near (a d b : Z) :
  0 < d -> - d < 2 * (a - b * d) < d -> Float.round_half_even a d = b.
Proof.
  intros Hd Hab. pose proof (rhe_spec a d Hd) as H.
  set (q := Float.round_half_even a d) in *.
  assert (Hlt : - (2 * d) < 2 * (q - b) * d < 2 * d) by lia.
  assert (q - b = 0) by nia. lia.
Qed.

Lemma rhe_le (a d b : Z) :
  0 < d -> a <= b * d -> Float.round_half_even a d <= b.
Proof.
  intros Hd Hab. pose proof (rhe_spec a d Hd) as H.
  set (q := Float.round_half_even a d) in *.
  assert (2 * (q - b) * d <= d) by lia.
  assert (q - b <= 0) by nia. lia.
Qed.

Lemma rhe_ge (a d b : Z) :
  0 < d -> b * d <= a -> b <= Float.round_half_even a d.
Proof.
  intros Hd Hab. pose proof (rhe_spec a d Hd) as H.
  set (q := Float.round_half_even a d) in *.
  assert (- d <= 2 * (q - b) * d) by lia.
  assert (0 <= q - b) by nia. lia.
Qed.

(** *** The product with a million *)

Lemma pow2_pos (k : Z) : 0 <= k -> 0 < 2 ^ k.
Proof. intros. apply Z.pow_pos_nonneg; lia. Qed.

Lemma nearest_scaled_spec (x e : Z) :
  e < 0 -> Z.abs x < 2 ^ (20 - e) ->
  exists S,
    0 < S
    /\ e <= (Float.nearest_scaled x e).2 < 0
    /\ 2 ^ (- e) = 2 ^ (- (Float.nearest_scaled x e).2) * S
    /\ - S <= 2 * ((Float.nearest_scaled x e).1 * S - x) <= S
    /\ (S = 1 \/ S * 2 ^ 32 <= 2 ^ (- e)).
Proof.
  intros He Hx. unfold Float.nearest_scaled.
  destruct (Z.ltb_spec (Z.abs x) (2 ^ 53)) as [Hsmall|Hbig].
  - exists 1. cbn [fst snd]. repeat split; lia.
  - set (a := Z.abs x) in *.
    assert (Ha : 0 < a) by (pose proof (pow2_pos 53); lia).
    assert (Hlog : 53 <= Z.log2 a < 20 - e).
    { split.
      - apply Z.log2_le_pow2; lia.
      - apply Z.log2_lt_pow2; lia. }
    set (s := Z.log2 a - 52) in *.
    assert (Hs : 1 <= s <= - e - 33) by lia.
    pose proof (pow2_pos s ltac:(lia)) as HS.
    pose proof (rhe_spec a (2 ^ s) HS) as Hr.
    set (m := Float.round_half_even a (2 ^ s)) in *.
    assert (Hsgn : Z.sgn x * a = x).
    { unfold a. rewrite Z.mul_comm. apply Z.abs_sgn. }
    assert (Hsgn2 : Z.sgn x * Z.sgn x = 1).
    { destruct x; simpl in *; lia. }
    destruct (Z.eqb_spec m (2 ^ 53)) as [Hm|Hm]; cbn [fst snd].
    + exists (2 ^ (s + 1)).
      assert (Hp : 2 ^ (s + 1) = 2 * 2 ^ s) by (rewrite Z.pow_add_r by lia; lia).
      split; [lia|]. split; [lia|]. split.
      { rewrite <- Z.pow_add_r by lia. f_equal. lia. }
      split.
      { rewrite Hp. replace (Z.sgn x * 2 ^ 52 * (2 * 2 ^ s))
          with (Z.sgn x * (2 ^ 53 * 2 ^ s)) by (change (2 ^ 53) with (2 * 2 ^ 52); ring).
        rewrite <- Hm.
        assert (Hd : Z.sgn x * (m * 2 ^ s) - x = Z.sgn x * (m * 2 ^ s - a)).
        { rewrite <- Hsgn at 2. ring. }
        rewrite Hd. destruct x; simpl Z.sgn in *; lia. }
      right. rewrite <- Z.pow_add_r by lia. apply Z.pow_le_mono_r; lia.
    + exists (2 ^ s). split; [exact HS|]. split; [lia|]. split.
      { rewrite <- Z.pow_add_r by lia. f_equal. lia. }
      split.
      { assert (Hd : Z.sgn x * m * 2 ^ s - x = Z.sgn x * (m * 2 ^ s - a)).
        { rewrite <- Hsgn at 2. ring. }
        rewrite Hd. destruct x; simpl Z.sgn in *; lia. }
      right. rewrite <- Z.pow_add_r by lia. apply Z.pow_le_mono_r; lia.
Qed.

Lemma rem_abs_bound (a b : Z) : 0 < b -> - b < Z.rem a b < b.
Proof.
  intros Hb. pose proof (Z.rem_bound_abs a b ltac:(lia)). lia.
Qed.

(** The microseconds of a time stamp are below a million. *)
Lemma to_timeval_us (t : Z * Z) : 0 <= (Float.to_timeval t).2 < 1000000.
Proof.
  destruct t as [m e]. unfold Float.to_timeval, Float.modf.
  destruct (Z.leb_spec 0 e) as [He|He].
  - change (0 * 1000000) with 0.
    unfold Float.nearest_scaled. change (Z.abs 0 <? 2 ^ 53) with true. cbv iota.
    destruct (Z.leb_spec 0 e); [|lia]. rewrite Z.mul_0_l. cbn. lia.
  - pose proof (pow2_pos (- e) ltac:(lia)) as HP.
    pose proof (rem_abs_bound m (2 ^ (- e)) HP) as Hfr.
    set (frac := Z.rem m (2 ^ (- e))) in *.
    set (x := frac * 1000000).
    assert (Hx : Z.abs x < 2 ^ (20 - e)).
    { replace (20 - e) with (20 + - e) by lia. rewrite Z.pow_add_r by lia.
      change (2 ^ 20) with 1048576. unfold x. lia. }
    destruct (nearest_scaled_spec x e He Hx) as (S & HS & Hef & HPQ & Herr & _).
    destruct (Float.nearest_scaled x e) as [mf ef]. cbn [fst snd] in *.
    destruct (Z.leb_spec 0 ef) as [?|_]; [lia|].
    pose proof (pow2_pos (- ef) ltac:(lia)) as HQ.
    set (Q := 2 ^ (- ef)) in *. set (P := 2 ^ (- e)) in *.
    assert (Hhi : Float.round_half_even mf Q <= 1000000).
    { apply rhe_le; [exact HQ|]. unfold x in Herr. nia. }
    assert (Hlo : - 1000000 <= Float.round_half_even mf Q).
    { apply rhe_ge; [exact HQ|]. unfold x in Herr. nia. }
    set (us := Float.round_half_even mf Q) in *.
    destruct (Z.leb_spec 1000000 us); cbn [snd]; [lia|].
    destruct (Z.ltb_spec us 0); cbn [snd]; lia.
Qed.

(** *** The division by a thousand *)

Lemma ilog2_ratio_upper (a d : Z) :
  0 < a -> 0 < d ->
  a * 2 ^ (Z.max 0 (- (Float.ilog2_ratio a d + 1)))
  < d * 2 ^ (Z.max 0 (Float.ilog2_ratio a d + 1)).
Proof.
  intros Ha Hd. unfold Float.ilog2_ratio.
  pose proof (Z.log2_spec a Ha) as [_ Hau].
  pose proof (Z.log2_spec d Hd) as [Hdl _].
  pose proof (Z.log2_nonneg a) as Hla. pose proof (Z.log2_nonneg d) as Hld.
  set (la := Z.log2 a) in *. set (ld := Z.log2 d) in *.
  destruct (Z.leb_spec 0 (la - ld)) as [Hl|Hl].
  - destruct (Z.ltb_spec a (d * 2 ^ (la - ld))) as [Ht|Ht].
    + replace (la - ld - 1 + 1) with (la - ld) by lia.
      rewrite Z.max_l by lia. rewrite Z.max_r by lia. change (2 ^ 0) with 1. lia.
    + rewrite Z.max_l by lia. rewrite Z.max_r by lia. change (2 ^ 0) with 1.
      replace (Z.succ la) with (ld + (la - ld + 1)) in Hau by lia.
      rewrite Z.pow_add_r in Hau by lia.
      pose proof (pow2_pos (la - ld + 1) ltac:(lia)). nia.
  - destruct (Z.ltb_spec (a * 2 ^ (- (la - ld))) d) as [Ht|Ht].
    + replace (la - ld - 1 + 1) with (la - ld) by lia.
      rewrite Z.max_r by lia. rewrite Z.max_l by lia. change (2 ^ 0) with 1. lia.
    + rewrite Z.max_r by lia. rewrite Z.max_l by lia. change (2 ^ 0) with 1.
      pose proof (pow2_pos (- (la - ld + 1)) ltac:(lia)) as Hp.
      assert (Hpow : 2 ^ Z.succ la * 2 ^ (- (la - ld + 1)) = 2 ^ ld).
      { rewrite <- Z.pow_add_r by lia. f_equal. lia. }
      nia.
Qed.

Lemma ilog2_1000 (a : Z) :
  0 < a < 8589934592000 -> Float.ilog2_ratio a 1000 <= 32.
Proof.
  intros Ha. unfold Float.ilog2_ratio. change (Z.log2 1000) with 9.
  assert (Hl : Z.log2 a < 43).
  { apply Z.log2_lt_pow2; [lia|]. change (2 ^ 43) with 8796093022208. lia. }
  destruct (Z.eq_dec (Z.log2 a) 42) as [Heq|Hne].
  - rewrite Heq. change (42 - 9) with 33. change (0 <=? 33) with true. cbv iota.
    change (1000 * 2 ^ 33) with 8589934592000.
    destruct (Z.ltb_spec a 8589934592000); lia.
  - destruct (if 0 <=? Z.log2 a - 9 then _ else _); lia.
Qed.

Lemma frac_bounds (m ms P q r : Z) :
  1048576 <= P -> 0 <= r <= 999 -> ms = 1000 * q + r ->
  - 1000 <= 2 * (m * 1000 - ms * P) <= 1000 ->
  0 <= m - q * P < P
  /\ - 500000 <= (m - q * P) * 1000000 - 1000 * (r * P) <= 500000.
Proof.
  intros HP Hr -> Hm.
  assert (HrP : 0 <= r * P <= 999 * P) by nia.
  replace ((1000 * q + r) * P) with (1000 * (q * P) + r * P) in Hm by ring.
  lia.
Qed.

Lemma us_exact (mf f r P Q S : Z) :
  0 < S -> 0 < Q -> P = Q * S -> 1048576 <= P ->
  S = 1 \/ S * 4294967296 <= P ->
  - S <= 2 * (mf * S - f * 1000000) <= S ->
  - 500000 <= f * 1000000 - 1000 * (r * P) <= 500000 ->
  - Q < 2 * (mf - 1000 * r * Q) < Q.
Proof.
  intros HS HQ HPQ HP Hsmall Herr Hfr.
  assert (Hmargin : S + 1000000 < P) by (destruct Hsmall as [->|Hs]; lia).
  assert (Hd : - (Q * S) < 2 * (mf - 1000 * r * Q) * S < Q * S).
  { replace (2 * (mf - 1000 * r * Q) * S)
      with (2 * (mf * S - f * 1000000) + 2 * (f * 1000000 - 1000 * (r * (Q * S)))) by ring.
    rewrite <- HPQ. lia. }
  destruct Hd as [Hd1 Hd2]. split.
  - apply (Z.mul_lt_mono_pos_r S); [exact HS|]. lia.
  - apply (Z.mul_lt_mono_pos_r S); [exact HS|]. lia.
Qed.

(** Up to [2^33] seconds the split of [ms / 1000] into seconds and
    microseconds is exact. *)
Lemma timeval_exact (ms : Z) :
  0 <= ms < 8589934592000 ->
  exists t, Float.true_divide ms 1000 = Some t
            /\ Float.to_timeval t = (ms / 1000, ms mod 1000 * 1000).
Proof.
  intros Hms. destruct (Z.eq_dec ms 0) as [->|Hne].
  { exists (0, 0). split; reflexivity. }
  assert (Hpos : 0 < ms) by lia.
  unfold Float.true_divide. destruct (Z.eqb_spec ms 0) as [?|_]; [lia|].
  rewrite Z.abs_eq by lia. rewrite Z.sgn_pos by lia.
  pose proof (ilog2_1000 ms ltac:(lia)) as Hk.
  pose proof (ilog2_ratio_upper ms 1000 Hpos ltac:(lia)) as Hup.
  unfold Float.nearest_ratio.
  set (k := Float.ilog2_ratio ms 1000) in *.
  set (e := k - 52).
  assert (He : e <= - 20) by (unfold e; lia).
  destruct (Z.leb_spec 0 e) as [?|_]; [lia|].
  pose proof (pow2_pos (- e) ltac:(lia)) as HP.
  assert (HP20 : 2 ^ 20 <= 2 ^ (- e)) by (apply Z.pow_le_mono_r; lia).
  change (2 ^ 20) with 1048576 in HP20.
  pose proof (rhe_spec (ms * 2 ^ (- e)) 1000 ltac:(lia)) as Hm.
  assert (HmsP : ms * 2 ^ (- e) + 500 < 1000 * 9007199254740992).
  { change 9007199254740992 with (2 ^ 53).
    destruct (Z.le_gt_cases 0 (k + 1)) as [Hk1|Hk1].
    - rewrite Z.max_l in Hup by lia. rewrite Z.max_r in Hup by lia.
      change (2 ^ 0) with 1 in Hup.
      assert (Hpp : 2 ^ (k + 1) * 2 ^ (- e) = 2 ^ 53).
      { unfold e. rewrite <- Z.pow_add_r by lia. f_equal. lia. }
      clear - Hup Hpp HP20 HP. nia.
    - rewrite Z.max_r in Hup by lia. rewrite Z.max_l in Hup by lia.
      change (2 ^ 0) with 1 in Hup.
      assert (Hpp : 2 ^ (- e) = 2 ^ (- (k + 1)) * 2 ^ 53).
      { unfold e. rewrite <- Z.pow_add_r by lia. f_equal. lia. }
      change (2 ^ 53) with 9007199254740992 in *.
      clear - Hup Hpp Hpos. nia. }
  clear Hup Hk.
  set (P := 2 ^ (- e)) in *.
  set (m := Float.round_half_even (ms * P) 1000) in *.
  change (2 ^ 53) with 9007199254740992.
  destruct (Z.eqb_spec m 9007199254740992) as [?|_]; [lia|].
  destruct (Z.ltb_spec 971 e) as [?|_]; [lia|].
  exists (1 * m, e). split; [reflexivity|]. rewrite Z.mul_1_l.
  (* the seconds and the fraction *)
  pose proof (Z.div_mod ms 1000 ltac:(lia)) as Hdm.
  pose proof (Z.mod_pos_bound ms 1000 ltac:(lia)) as Hr.
  set (q := ms / 1000) in *. set (r := ms mod 1000) in *.
  destruct (frac_bounds m ms P q r HP20 ltac:(lia) Hdm Hm) as [Hf Hfr'].
  unfold Float.to_timeval, Float.modf.
  destruct (Z.leb_spec 0 e) as [?|_]; [lia|]. fold P.
  assert (Hq : m / P = q).
  { symmetry. apply (Z.div_unique m P q (m - q * P)); [left; exact Hf | ring]. }
  assert (Hfm : m mod P = m - q * P).
  { symmetry. apply (Z.mod_unique m P q (m - q * P)); [left; exact Hf | ring]. }
  assert (Hm0 : 0 <= m).
  { pose proof (Z.mul_nonneg_nonneg q P). assert (0 <= q) by (unfold q; apply Z.div_pos; lia).
    lia. }
  rewrite Z.quot_div_nonneg by lia. rewrite Z.rem_mod_nonneg by lia.
  rewrite Hq, Hfm. set (f := m - q * P) in *.
  assert (Hx : Z.abs (f * 1000000) < 2 ^ (20 - e)).
  { replace (20 - e) with (20 + - e) by lia. rewrite Z.pow_add_r by lia.
    fold P. change (2 ^ 20) with 1048576. lia. }
  destruct (nearest_scaled_spec (f * 1000000) e ltac:(lia) Hx)
    as (S & HS & Hef & HPQ & Herr & Hsmall).
  destruct (Float.nearest_scaled (f * 1000000) e) as [mf ef]. cbn [fst snd] in *.
  destruct (Z.leb_spec 0 ef) as [?|_]; [lia|].
  pose proof (pow2_pos (- ef) ltac:(lia)) as HQ.
  fold P in HPQ, Hsmall. set (Q := 2 ^ (- ef)) in *.
  change (2 ^ 32) with 4294967296 in Hsmall.
  rewrite (rhe_near mf Q (1000 * r) HQ
             (us_exact mf f r P Q S HS HQ HPQ HP20 Hsmall Herr Hfr')).
  destruct (Z.leb_spec 1000000 (1000 * r)) as [?|_]; [lia|].
  destruct (Z.ltb_spec (1000 * r) 0) as [?|_]; [lia|].
  f_equal. lia.
Qed.

(** ** The decoded date *)

(** Microseconds of UTC between 0001-01-01 and the epoch. *)
Definition epoch_us : Z := (Datetime.epoch_ord - 1) * 86400 * 1000000.

Lemma utcfromtimestamp_ms_spec (ms : Z) (utc : Datetime.t) :
  utcfromtimestamp_ms ms = Ok utc ->
  exists t,
    Float.true_divide ms 1000 = Some t
    /\ Datetime.wall_seconds utc
       = (Float.to_timeval t).1 + (Datetime.epoch_ord - 1) * 86400
    /\ Datetime.microsecond utc = (Float.to_timeval t).2
    /\ Datetime.valid utc.
Proof.
  unfold utcfromtimestamp_ms.
  destruct (Float.true_divide ms 1000) as [t|] eqn:Ht; [|discriminate].
  pose proof (to_timeval_us t) as Hus.
  destruct (Float.to_timeval t) as [secs us] eqn:Htv. cbn [fst snd] in *.
  destruct ((secs <? - 2 ^ 63) || (2 ^ 63 <? secs)); [discriminate|].
  destruct (_ || _ || _); [discriminate|].
  destruct (Datetime.of_wall_seconds _ _ _) as [d|e] eqn:Hd; [|discriminate].
  intros [= <-].
  destruct (of_wall_seconds_spec _ _ _ _ Hd) as (Hw & Hus' & _ & Hv).
  exists t. rewrite Htv. cbn [fst snd].
  split; [reflexivity|]. split; [exact Hw|]. split; [exact Hus'|].
  exact (Hv Hus).
Qed.

Lemma astimezone_spec (tz : timezone) (utc d : Datetime.t) :
  astimezone tz utc = Ok d ->
  let off := fromutc_utcoffset tz (Datetime.wall_seconds utc
                                   - (Datetime.epoch_ord - 1) * 86400) in
  Datetime.wall_seconds d = Datetime.wall_seconds utc + off
  /\ Datetime.microsecond d = Datetime.microsecond utc
  /\ Datetime.utcoffset d = off
  /\ (0 <= Datetime.microsecond utc < 1000000 -> Datetime.valid d).
Proof.
  unfold astimezone. intros Hd. exact (of_wall_seconds_spec _ _ _ _ Hd).
Qed.

Lemma decode_datetime_spec (tz : timezone) (value : json) (ms : Z) (pv : pyval) :
  py_int value = Ok ms ->
  decode_value tz TDatetime value = Ok pv ->
  exists d secs us,
    pv = VDatetime d
    /\ timeval_of_ms ms = Some (secs, us)
    /\ Datetime.valid d
    /\ Datetime.instant d = secs * 1000000 + us + epoch_us
    /\ Datetime.utcoffset d = fromutc_utcoffset tz secs
    /\ Datetime.wall_seconds d
       = secs + (Datetime.epoch_ord - 1) * 86400 + fromutc_utcoffset tz secs.
Proof.
  intros Hint Hdec.
  rewrite decode_datetime_eq in Hdec.
  apply bind_ok in Hdec as (ms' & Hms & Hdec). rewrite Hint in Hms. injection Hms as <-.
  apply bind_ok in Hdec as (utc & Hutc & Hdec).
  apply bind_ok in Hdec as (d & Hd & Hdec).
  injection Hdec as <-.
  destruct (utcfromtimestamp_ms_spec _ _ Hutc) as (t & Ht & Hw & Hus & Hvutc).
  destruct (astimezone_spec _ _ _ Hd) as (Hw' & Hus' & Hoff' & Hvalid).
  pose proof (to_timeval_us t) as Hrange.
  unfold timeval_of_ms. rewrite Ht. cbn [option_map].
  destruct (Float.to_timeval t) as [secs us]. cbn [fst snd] in *.
  cbv zeta in Hw', Hoff'. rewrite Hw in Hw', Hoff'. rewrite Hus in Hus', Hvalid.
  unfold epoch_us. clear Hutc Hd Hw Hus Hvutc.
  generalize dependent Datetime.epoch_ord. intros E Hw' Hoff'.
  replace (secs + (E - 1) * 86400 - (E - 1) * 86400) with secs in Hw', Hoff' by lia.
  exists d, secs, us. split; [reflexivity|]. split; [reflexivity|]. split.
  { exact (Hvalid Hrange). }
  split; [|split; [exact Hoff' | exact Hw']].
  unfold Datetime.instant. rewrite Hw', Hus', Hoff'. lia.
Qed.

(** X10. The date of a decoded record is a valid datetime that denotes the
    instant given by the seconds and microseconds into which the source
    splits the raw value: it divides the milliseconds by 1000 in floating
    point and rounds the fraction to microseconds. Its wall clock is that
    of UTC moved by the offset the zone has at those seconds. For a raw
    value from the epoch up to [2^33] seconds after it (the year 2242) the
    split is exact, and the instant is the raw value in milliseconds since
    the epoch. *)
Theorem decoded_date_instant (tz : timezone) (multiple : bool) (n : nat)
        (obj obj' : dict) (self : PhoneCall) (out : list string)
        (raw : json) (ms : Z) :
  decode_object tz multiple n obj = (Ok self, obj', out) ->
  obj !! "date" = Some raw ->
  py_int raw = Ok ms ->
  exists d secs us,
    self !! "date" = Some (VDatetime d)
    /\ timeval_of_ms ms = Some (secs, us)
    /\ Datetime.valid d
    /\ Datetime.instant d = secs * 1000000 + us + epoch_us
    /\ Datetime.wall_seconds d
       = secs + (Datetime.epoch_ord - 1) * 86400 + fromutc_utcoffset tz secs
    /\ (0 <= ms < 8589934592000 ->
        secs = ms / 1000
        /\ us = ms mod 1000 * 1000
        /\ Datetime.instant d = ms * 1000 + epoch_us).
Proof.
  intros Hrun Hraw Hint.
  destruct (decode_object_ok_spec _ _ _ _ _ _ _ Hrun) as (_ & _ & Hvals).
  specialize (Hvals _ date_field_in_fields).
  cbn [fname ftyp required] in Hvals. rewrite Hraw in Hvals.
  destruct Hvals as (pv & Hdec & Hself).
  destruct (decode_datetime_spec tz raw ms pv Hint Hdec)
    as (d & secs & us & -> & Htv & Hv & Hi & _ & Hw).
  exists d, secs, us. split; [exact Hself|]. split; [exact Htv|].
  split; [exact Hv|]. split; [exact Hi|]. split; [exact Hw|].
  intros Hms. destruct (timeval_exact ms Hms) as (t & Ht & Hex).
  unfold timeval_of_ms in Htv. rewrite Ht in Htv. cbn [option_map] in Htv.
  rewrite Hex in Htv. injection Htv as <- <-.
  split; [reflexivity|]. split; [reflexivity|].
  rewrite Hi. Z.div_mod_to_equations. lia.
Qed.

Lemma decoded_date_instant_witness :
  exists d secs us,
    sample_call !! "date" = Some (VDatetime d)
    /\ timeval_of_ms 1709506620000 = Some (secs, us)
    /\ Datetime.valid d
    /\ Datetime.instant d = secs * 1000000 + us + epoch_us
    /\ Datetime.wall_seconds d
       = secs + (Datetime.epoch_ord - 1) * 86400 + fromutc_utcoffset Europe_Vienna secs
    /\ (0 <= 1709506620000 < 8589934592000 ->
        secs = 1709506620000 / 1000
        /\ us = 1709506620000 mod 1000 * 1000
        /\ Datetime.instant d = 1709506620000 * 1000 + epoch_us).
Proof.
  apply (decoded_date_instant Europe_Vienna true 0 (sample_object "1709506620000")
           sample_rest sample_call [] (JStr "1709506620000") 1709506620000).
  - exact sample_decodes.
  - vm_compute. reflexivity.
  - vm_compute. reflexivity.
Defined.

(** Beyond that range the split is not exact: the raw value 8804733022210
    (the year 2249) is decoded to 209999 microseconds, one short of its
    210 milliseconds. *)
Example far_future_microsecond :
  option_map Datetime.microsecond
    (match utcfromtimestamp_ms 8804733022210 with Ok d => Some d | Raise _ => None end)
  = Some 209999.
Proof. vm_compute. reflexivity. Qed.

(** ** The range tests *)

(** [d.toordinal()]. *)
Definition toordinal (d : Datetime.date) : Z :=
  Datetime.ymd2ord (Datetime.dyear d) (Datetime.dmonth d) (Datetime.dday d).

(** The ranges every [date] object satisfies. *)
Definition valid_date (d : Datetime.date) : Prop :=
  Datetime.MINYEAR <= Datetime.dyear d <= Datetime.MAXYEAR
  /\ 1 <= Datetime.dmonth d <= 12
  /\ 1 <= Datetime.dday d
      <= Datetime.days_in_month (Datetime.dyear d) (Datetime.dmonth d).

(** The ordinal of the day a datetime falls on when its instant is read
    on a clock that runs at the offset the zone object itself carries. *)
Definition zone_day (tz : timezone) (d : Datetime.t) : Z :=
  (Datetime.wall_seconds d - Datetime.utcoffset d + zone_utcoffset tz) / 86400 + 1.

Lemma dbm_dim_bound (leap : bool) (m : Z) :
  1 <= m <= 12 ->
  0 <= dbm leap m /\ dbm leap m + dim leap m <= (if leap then 366 else 365).
Proof.
  intros Hm.
  assert (Hcases : m = 1 \/ m = 2 \/ m = 3 \/ m = 4 \/ m = 5 \/ m = 6 \/ m = 7
                   \/ m = 8 \/ m = 9 \/ m = 10 \/ m = 11 \/ m = 12) by lia.
  destruct leap; repeat (destruct Hcases as [->|Hcases]); try subst m;
    split; apply Z.leb_le; reflexivity.
Qed.

Lemma ymd2ord_range (y m d : Z) :
  Datetime.MINYEAR <= y <= Datetime.MAXYEAR -> 1 <= m <= 12 ->
  1 <= d <= Datetime.days_in_month y m ->
  1 <= Datetime.ymd2ord y m d <= Datetime.ymd2ord Datetime.MAXYEAR 12 31.
Proof.
  unfold Datetime.MINYEAR, Datetime.MAXYEAR. intros Hy Hm Hd.
  change (Datetime.ymd2ord 9999 12 31) with 3652059.
  unfold Datetime.ymd2ord. rewrite days_before_month_dbm.
  rewrite days_in_month_dim in Hd.
  assert (Hmd : 1 <= dbm (Datetime.is_leap y) m + d
                <= if Datetime.is_leap y then 366 else 365).
  { pose proof (dbm_dim_bound (Datetime.is_leap y) m Hm). lia. }
  assert (Hleap : Datetime.is_leap y = true -> y <= 9996).
  { unfold Datetime.is_leap. intros H. apply andb_true_iff in H as [H _].
    apply Z.eqb_eq in H. Z.div_mod_to_equations. lia. }
  unfold Datetime.days_before_year.
  destruct (Datetime.is_leap y); [specialize (Hleap eq_refl)|];
    Z.div_mod_to_equations; lia.
Qed.

Lemma wall_seconds_day (d : Datetime.t) :
  Datetime.valid d ->
  exists tod, 0 <= tod < 86400
    /\ Datetime.wall_seconds d = (toordinal (Datetime.date_of d) - 1) * 86400 + tod.
Proof.
  intros (_ & _ & _ & Hh & Hm & Hs & _).
  exists (Datetime.hour d * 3600 + Datetime.minute d * 60 + Datetime.second d).
  split; [lia|]. unfold Datetime.wall_seconds, toordinal, Datetime.date_of.
  cbn [Datetime.dyear Datetime.dmonth Datetime.dday]. lia.
Qed.

Lemma midnight_instant (tz : timezone) (a : date_arg) :
  Datetime.instant (midnight tz a)
  = ((toordinal (arg_date a) - 1) * 86400 - zone_utcoffset tz) * 1000000.
Proof.
  unfold midnight, Datetime.combine, Datetime.instant, Datetime.wall_seconds, toordinal.
  cbn [Datetime.year Datetime.month Datetime.day Datetime.hour Datetime.minute
       Datetime.second Datetime.microsecond Datetime.utcoffset]. lia.
Qed.

Lemma stop_bound_instant (tz : timezone) (a : date_arg) (s : Datetime.t) :
  stop_bound tz (Some a) = Ok (Some s) ->
  Datetime.instant s
  = (toordinal (arg_date a) * 86400 - zone_utcoffset tz) * 1000000.
Proof.
  unfold stop_bound. intros H. apply bind_ok in H as (s' & Hs & H).
  injection H as <-.
  destruct (add_days_spec _ _ _ Hs) as (Hw & Hus & Hoff & _).
  unfold Datetime.instant. rewrite Hw, Hus, Hoff.
  unfold midnight, Datetime.combine, Datetime.wall_seconds, toordinal.
  cbn [Datetime.year Datetime.month Datetime.day Datetime.hour Datetime.minute
       Datetime.second Datetime.microsecond Datetime.utcoffset]. lia.
Qed.

(** Comparing an instant with a midnight is comparing days. *)
Lemma instant_day_tests (w off z o us : Z) :
  0 <= us < 1000000 ->
  ((w - off) * 1000000 + us <? ((o - 1) * 86400 - z) * 1000000)
  = ((w - off + z) / 86400 + 1 <? o)
  /\ ((o * 86400 - z) * 1000000 <=? (w - off) * 1000000 + us)
     = (o <? (w - off + z) / 86400 + 1).
Proof.
  intros Hus. split.
  - destruct (Z.ltb_spec ((w - off + z) / 86400 + 1) o);
      [apply Z.ltb_lt | apply Z.ltb_ge]; Z.div_mod_to_equations; lia.
  - destruct (Z.ltb_spec o ((w - off + z) / 86400 + 1));
      [apply Z.leb_le | apply Z.leb_gt]; Z.div_mod_to_equations; lia.
Qed.

(** X11. The two range tests of the loop compare days on a clock that
    runs at the offset of the zone object itself: a call is before the
    start bound exactly when, on that clock, its day precedes the start
    day, and at or after the stop bound exactly when, on that clock, its
    day follows the stop day. The offset the call's own date carries
    plays no part. *)
Theorem range_tests_by_zone_day (tz : timezone) (a : date_arg) (d s : Datetime.t) :
  0 <= Datetime.microsecond d < 1000000 ->
  stop_bound tz (Some a) = Ok (Some s) ->
  Datetime.lt d (midnight tz a) = (zone_day tz d <? toordinal (arg_date a))
  /\ Datetime.ge d s = (toordinal (arg_date a) <? zone_day tz d).
Proof.
  intros Hus Hs. unfold Datetime.lt, Datetime.ge.
  rewrite midnight_instant, (stop_bound_instant _ _ _ Hs).
  unfold zone_day, Datetime.instant.
  apply instant_day_tests. exact Hus.
Qed.

(** A call at 23:57 on 3 March 2024, Central European time. *)
Definition late_call_date : Datetime.t := Datetime.mk 2024 3 3 23 57 0 0 3600.

Definition march_3 : date_arg := ADate (Datetime.mkdate 2024 3 3).

Definition march_4_midnight : Datetime.t := Datetime.mk 2024 3 4 0 0 0 0 3900.

Lemma range_tests_by_zone_day_witness :
  Datetime.lt late_call_date (midnight Europe_Vienna march_3)
  = (zone_day Europe_Vienna late_call_date <? toordinal (arg_date march_3))
  /\ Datetime.ge late_call_date march_4_midnight
     = (toordinal (arg_date march_3) <? zone_day Europe_Vienna late_call_date).
Proof.
  apply (range_tests_by_zone_day Europe_Vienna march_3 late_call_date march_4_midnight).
  - vm_compute. split; [discriminate | reflexivity].
  - vm_compute. reflexivity.
Defined.

(** X12. For a call whose date carries the offset of the zone object,
    the range tests compare calendar days: the call is before the start
    bound exactly when its day precedes the start day, and at or after the
    stop bound exactly when its day follows the stop day. *)
Theorem range_tests_same_offset (tz : timezone) (a : date_arg) (d s : Datetime.t) :
  Datetime.valid d ->
  Datetime.utcoffset d = zone_utcoffset tz ->
  stop_bound tz (Some a) = Ok (Some s) ->
  Datetime.lt d (midnight tz a)
  = (toordinal (Datetime.date_of d) <? toordinal (arg_date a))
  /\ Datetime.ge d s
     = (toordinal (arg_date a) <? toordinal (Datetime.date_of d)).
Proof.
  intros Hv Hoff Hs.
  assert (Hday : zone_day tz d = toordinal (Datetime.date_of d)).
  { destruct (wall_seconds_day d Hv) as (tod & Htod & Hw).
    unfold zone_day. rewrite Hw, Hoff. Z.div_mod_to_equations. lia. }
  rewrite <- Hday. unfold Datetime.lt, Datetime.ge.
  rewrite midnight_instant, (stop_bound_instant _ _ _ Hs).
  unfold zone_day, Datetime.instant.
  apply instant_day_tests.
  destruct Hv as (_ & _ & _ & _ & _ & _ & Hus). exact Hus.
Qed.

(** The same call, with the offset of the zone object. *)
Definition late_call_lmt : Datetime.t := Datetime.mk 2024 3 3 23 57 0 0 3900.

Lemma range_tests_same_offset_witness :
  Datetime.lt late_call_lmt (midnight Europe_Vienna march_3)
  = (toordinal (Datetime.date_of late_call_lmt) <? toordinal (arg_date march_3))
  /\ Datetime.ge late_call_lmt march_4_midnight
     = (toordinal (arg_date march_3) <? toordinal (Datetime.date_of late_call_lmt)).
Proof.
  apply (range_tests_same_offset Europe_Vienna march_3 late_call_lmt march_4_midnight).
  - vm_compute. repeat split; discriminate.
  - reflexivity.
  - vm_compute. reflexivity.
Defined.

Lemma stop_bound_spec (tz : timezone) (a : date_arg) :
  valid_date (arg_date a) ->
  match stop_bound tz (Some a) with
  | Ok (Some s) =>
      toordinal (arg_date a) < Datetime.ymd2ord Datetime.MAXYEAR 12 31
      /\ Datetime.valid s
      /\ toordinal (Datetime.date_of s) = toordinal (arg_date a) + 1
      /\ Datetime.hour s = 0 /\ Datetime.minute s = 0 /\ Datetime.second s = 0
      /\ Datetime.microsecond s = 0
      /\ Datetime.utcoffset s = zone_utcoffset tz
  | Ok None => False
  | Raise e =>
      toordinal (arg_date a) = Datetime.ymd2ord Datetime.MAXYEAR 12 31
      /\ e = OverflowError "date value out of range"
  end.
Proof.
  intros (Hy & Hm & Hd).
  pose proof (ymd2ord_range _ _ _ Hy Hm Hd) as Hord. fold (toordinal (arg_date a)) in Hord.
  unfold stop_bound, Datetime.add_days.
  assert (Hw : Datetime.wall_seconds (midnight tz a) + 1 * 86400
               = toordinal (arg_date a) * 86400).
  { unfold midnight, Datetime.combine, Datetime.wall_seconds, toordinal.
    cbn [Datetime.year Datetime.month Datetime.day Datetime.hour Datetime.minute
         Datetime.second]. lia. }
  rewrite Hw.
  change (Datetime.microsecond (midnight tz a)) with 0.
  change (Datetime.utcoffset (midnight tz a)) with (zone_utcoffset tz).
  destruct (Datetime.of_wall_seconds (toordinal (arg_date a) * 86400) 0 (zone_utcoffset tz))
    as [s|e] eqn:Hs; cbn [bind].
  - destruct (of_wall_seconds_spec _ _ _ _ Hs) as (Hws & Hus & Hoff & Hvalid).
    specialize (Hvalid ltac:(lia)).
    destruct (wall_seconds_day s Hvalid) as (tod & Htod & Hday).
    unfold Datetime.of_wall_seconds in Hs.
    destruct ((toordinal (arg_date a) * 86400 / 86400 + 1 <? 1)
              || (Datetime.ymd2ord Datetime.MAXYEAR 12 31
                  <? toordinal (arg_date a) * 86400 / 86400 + 1)) eqn:Hr;
      [discriminate|].
    apply orb_false_iff in Hr as [_ Hhi]. apply Z.ltb_ge in Hhi.
    rewrite Z.div_mul in Hhi by lia.
    assert (Hnext : toordinal (Datetime.date_of s) = toordinal (arg_date a) + 1) by lia.
    assert (Htod0 : tod = 0) by lia.
    pose proof Hvalid as (_ & _ & _ & Hh & Hmi & Hse & _).
    unfold Datetime.wall_seconds in Hday.
    change (Datetime.ymd2ord (Datetime.year s) (Datetime.month s) (Datetime.day s))
      with (toordinal (Datetime.date_of s)) in Hday.
    split; [lia|]. split; [exact Hvalid|]. split; [exact Hnext|].
    split; [lia|]. split; [lia|]. split; [lia|]. split; [exact Hus | exact Hoff].
  - unfold Datetime.of_wall_seconds in Hs.
    rewrite Z.div_mul in Hs by lia.
    destruct ((toordinal (arg_date a) + 1 <? 1)
              || (Datetime.ymd2ord Datetime.MAXYEAR 12 31 <? toordinal (arg_date a) + 1)) eqn:Hr.
    + injection Hs as <-. split; [|reflexivity].
      apply orb_true_iff in Hr as [Hr|Hr]; apply Z.ltb_lt in Hr; lia.
    + destruct (Datetime.ord2ymd _) as [[? ?] ?]. discriminate.
Qed.

(** X13. The stop bound of a stop date is the midnight that follows it,
    at the offset of the zone object; for the 31 December 9999, and for no
    other date, there is no such datetime and [OverflowError] is raised
    before any input is read: whatever the input and the start date are,
    the conversion ends with that error, no object is decoded or stripped,
    no row is written and nothing is printed. *)
Theorem stop_bound_next_midnight (tz : timezone) (a : date_arg) :
  valid_date (arg_date a) ->
  match stop_bound tz (Some a) with
  | Ok (Some s) =>
      toordinal (arg_date a) < Datetime.ymd2ord Datetime.MAXYEAR 12 31
      /\ Datetime.valid s
      /\ toordinal (Datetime.date_of s) = toordinal (arg_date a) + 1
      /\ Datetime.hour s = 0 /\ Datetime.minute s = 0 /\ Datetime.second s = 0
      /\ Datetime.microsecond s = 0
      /\ Datetime.utcoffset s = zone_utcoffset tz
  | Ok None => False
  | Raise e =>
      toordinal (arg_date a) = Datetime.ymd2ord Datetime.MAXYEAR 12 31
      /\ e = OverflowError "date value out of range"
      /\ forall (calls : json_doc) (start_date : option date_arg) (σ : store),
          convert_to_csv tz calls start_date (Some a) σ = (Raise e, [], σ, [])
  end.
Proof.
  intros Hvalid. pose proof (stop_bound_spec tz a Hvalid) as H.
  destruct (stop_bound tz (Some a)) as [[s|]|e] eqn:Hsb; [exact H | exact H |].
  destruct H as [Hlast He]. split; [exact Hlast|]. split; [exact He|].
  intros calls start_date σ. unfold convert_to_csv. rewrite Hsb. reflexivity.
Qed.

Definition last_day : date_arg := ADate (Datetime.mkdate 9999 12 31).

Lemma stop_bound_next_midnight_witness :
  match stop_bound Europe_Vienna (Some last_day) with
  | Ok (Some s) =>
      toordinal (arg_date last_day) < Datetime.ymd2ord Datetime.MAXYEAR 12 31
      /\ Datetime.valid s
      /\ toordinal (Datetime.date_of s) = toordinal (arg_date last_day) + 1
      /\ Datetime.hour s = 0 /\ Datetime.minute s = 0 /\ Datetime.second s = 0
      /\ Datetime.microsecond s = 0
      /\ Datetime.utcoffset s = zone_utcoffset Europe_Vienna
  | Ok None => False
  | Raise e =>
      toordinal (arg_date last_day) = Datetime.ymd2ord Datetime.MAXYEAR 12 31
      /\ e = OverflowError "date value out of range"
      /\ forall (calls : json_doc) (start_date : option date_arg) (σ : store),
          convert_to_csv Europe_Vienna calls start_date (Some last_day) σ
          = (Raise e, [], σ, [])
  end.
Proof.
  apply (stop_bound_next_midnight Europe_Vienna last_day).
  vm_compute. repeat split; discriminate.
Defined.

(** * Further properties of the rows *)

(** ** The fall-back of the formatted number *)

(** X14. The branch of [csv_row] that falls back to the normalised number
    never runs: it is written for a column [formatted_numer], which is no
    field of the record, so a list with that column is rejected before
    the loop. The field itself, [formatted_nummer], is an ordinary column:
    when it is empty its cell is empty, whatever the other numbers of the
    record are. *)
Theorem number_fallback_never_applies (self : PhoneCall) (cols : list string)
        (row : list pyval) (i : nat) (v : pyval) :
  csv_row self (Some cols) = Ok row ->
  cols !! i = Some "formatted_nummer" ->
  self !! "formatted_nummer" = Some v ->
  v = VNone \/ v = VStr "" ->
  ("formatted_numer" ∉ cols) /\ row !! i = Some (VStr "").
Proof.
  intros Hrow Hi Hv Hempty. split.
  - intros Hin. destruct (csv_row_ok_inv _ _ _ Hrow) as [_ Hnames].
    destruct (Hnames _ Hin) as [Heq|Hname]; [discriminate|].
    exact (formatted_numer_not_field Hname).
  - rewrite (csv_row_plain _ _ _ _ _ _ Hrow Hi ltac:(discriminate) ltac:(discriminate) Hv).
    destruct Hempty as [->| ->]; reflexivity.
Qed.

Definition number_columns : list string := ["number"; "formatted_nummer"].

Definition number_row : list pyval :=
  match csv_row sample_call (Some number_columns) with
  | Ok row => row
  | Raise _ => []
  end.

Lemma number_row_ok : csv_row sample_call (Some number_columns) = Ok number_row.
Proof.
  assert (H : is_ok (csv_row sample_call (Some number_columns)) = true)
    by (vm_compute; reflexivity).
  unfold number_row. destruct (csv_row sample_call (Some number_columns));
    [reflexivity | discriminate].
Qed.

Lemma number_fallback_never_applies_witness :
  ("formatted_numer" ∉ number_columns) /\ number_row !! 1%nat = Some (VStr "").
Proof.
  apply (number_fallback_never_applies sample_call number_columns number_row 1 VNone).
  - exact number_row_ok.
  - reflexivity.
  - vm_compute. reflexivity.
  - left. reflexivity.
Defined.

(** ** Enumeration cells *)

Definition label_check (c : enum_class) : bool :=
  forallb (fun m1 : string * Z =>
             Bool.eqb (String.eqb (Enum.enum_str c m1.2) "")
                      (match c with NumberType => m1.2 =? 0 | _ => false end)
             && forallb (fun m2 : string * Z =>
                           implb (String.eqb (Enum.enum_str c m1.2) (Enum.enum_str c m2.2))
                                 (m1.2 =? m2.2))
                        (enum_members c))
          (enum_members c).

Lemma label_checked (c : enum_class) : label_check c = true.
Proof. destruct c; vm_compute; reflexivity. Qed.

Lemma is_member_In (members : list (string * Z)) (v : Z) :
  Enum.is_member members v = true -> exists n, In (n, v) members.
Proof.
  unfold Enum.is_member.
  destruct (Enum.name_of_value members v) as [n|] eqn:Hn; [|discriminate].
  intros _. exists n. apply name_of_value_In. exact Hn.
Qed.

(** X15. The cell of an enumeration column identifies the code: within
    one enumeration, two defined codes with the same text are the same
    code; and the text is empty for the code 0 of [NumberType] and for no
    other defined code of any enumeration. *)
Theorem enum_cell_identifies_code (c : enum_class) (v1 v2 : Z) :
  Enum.is_member (enum_members c) v1 = true ->
  Enum.is_member (enum_members c) v2 = true ->
  (py_str (VEnum c v1) = py_str (VEnum c v2) -> v1 = v2)
  /\ (py_str (VEnum c v1) = "" <-> c = NumberType /\ v1 = 0).
Proof.
  intros [n1 H1]%is_member_In [n2 H2]%is_member_In.
  pose proof (label_checked c) as Hall. unfold label_check in Hall.
  rewrite forallb_forall in Hall. specialize (Hall _ H1).
  apply andb_true_iff in Hall as [Hempty Hinj]. cbn [snd] in *.
  rewrite forallb_forall in Hinj. specialize (Hinj _ H2). cbn [snd] in Hinj.
  cbn [py_str]. split.
  - intros Heq. rewrite Heq, String.eqb_refl in Hinj. apply Z.eqb_eq. exact Hinj.
  - apply Bool.eqb_prop in Hempty. rewrite <- String.eqb_eq, Hempty.
    destruct c; split; try discriminate; try (intros [? _]; discriminate).
    + intros H0%Z.eqb_eq. split; [reflexivity | exact H0].
    + intros [_ ->]. reflexivity.
Qed.

Lemma enum_cell_identifies_code_witness :
  (py_str (VEnum NumberType 0) = py_str (VEnum NumberType 20) -> 0 = 20)
  /\ (py_str (VEnum NumberType 0) = "" <-> NumberType = NumberType /\ 0 = 0).
Proof.
  apply (enum_cell_identifies_code NumberType 0 20); reflexivity.
Defined.

(** ** Text columns *)

Definition text_default_check (f : field) : bool :=
  match ftyp f, fdefault f with
  | TStr, Some VNone | TStr, Some (VStr EmptyString) => true
  | TStr, Some _ => false
  | _, _ => true
  end.

Lemma text_defaults (f : field) :
  f ∈ fields -> ftyp f = TStr -> forall d, fdefault f = Some d ->
  d = VNone \/ d = VStr "".
Proof.
  intros Hf Ht d Hd.
  assert (Hall : forallb text_default_check fields = true) by (vm_compute; reflexivity).
  rewrite forallb_forall in Hall. apply list_elem_of_In in Hf.
  specialize (Hall f Hf). unfold text_default_check in Hall.
  rewrite Ht, Hd in Hall.
  destruct d as [| | |[|]| | | |]; try discriminate; auto.
Qed.

Lemma field_name_known (f : field) : f ∈ fields -> fname f ∈ field_names.
Proof. intros Hf. unfold field_names. apply list_elem_of_fmap. exists f. auto. Qed.

Lemma text_field_not_date (f : field) :
  f ∈ fields -> ftyp f = TStr -> fname f <> "date" /\ fname f <> "time".
Proof.
  intros Hf Ht.
  assert (Hall : forallb (fun f => match ftyp f with
                                   | TStr => negb (String.eqb (fname f) "date")
                                             && negb (String.eqb (fname f) "time")
                                   | _ => true
                                   end) fields = true) by (vm_compute; reflexivity).
  rewrite forallb_forall in Hall. apply list_elem_of_In in Hf.
  specialize (Hall f Hf). cbv beta in Hall. rewrite Ht in Hall.
  apply andb_true_iff in Hall as [H1 H2].
  apply negb_true_iff in H1, H2. apply String.eqb_neq in H1, H2. auto.
Qed.

(** X16. The cell of a text column is the text of the raw value. A JSON
    string is passed on unchanged; any other value is turned into text by
    [str], so a [null] in the object gives the cell [None], while a field
    whose key is absent gives an empty cell. No text field makes decoding
    fail. *)
Theorem text_field_cell (tz : timezone) (multiple : bool) (n : nat)
        (obj obj' : dict) (self : PhoneCall) (out : list string) (f : field)
        (cols : list string) (row : list pyval) (i : nat) :
  decode_object tz multiple n obj = (Ok self, obj', out) ->
  f ∈ fields -> ftyp f = TStr ->
  csv_row self (Some cols) = Ok row ->
  cols !! i = Some (fname f) ->
  row !! i = Some (VStr (match obj !! fname f with
                         | Some raw => json_str raw
                         | None => ""
                         end)).
Proof.
  intros Hrun Hf Ht Hrow Hi.
  destruct (text_field_not_date f Hf Ht) as [Hd Htime].
  destruct (decode_object_ok_spec _ _ _ _ _ _ _ Hrun) as (_ & _ & Hvals).
  specialize (Hvals f Hf).
  destruct (obj !! fname f) as [raw|].
  - destruct Hvals as (pv & Hdec & Hself).
    rewrite (csv_row_plain _ _ _ _ _ _ Hrow Hi Hd Htime Hself).
    rewrite Ht in Hdec.
    assert (Hpv : pv = VStr (json_str raw)).
    { destruct raw; cbn in Hdec; injection Hdec as <-; reflexivity. }
    rewrite Hpv. reflexivity.
  - destruct Hvals as (d & Hdef & Hself).
    rewrite (csv_row_plain _ _ _ _ _ _ Hrow Hi Hd Htime Hself).
    destruct (text_defaults f Hf Ht d Hdef) as [->| ->]; reflexivity.
Qed.

Lemma text_field_cell_witness :
  number_row !! 0%nat
  = Some (VStr (match sample_object "1709506620000" !! "number" with
                | Some raw => json_str raw
                | None => ""
                end)).
Proof.
  apply (text_field_cell Europe_Vienna true 0 (sample_object "1709506620000")
           sample_rest sample_call [] (required "number" TStr) number_columns
           number_row 0).
  - exact sample_decodes.
  - apply list_elem_of_In. vm_compute. auto 20.
  - reflexivity.
  - exact number_row_ok.
  - reflexivity.
Defined.

(** * The command line *)

Module Cli.

(** [s.rsplit(sep, 1)[0]] for a one-character separator: the text before
    the last separator, or all of [s] when it holds none. *)
Fixpoint rsplit1_head (sep : ascii) (s : string) : string :=
  match s with
  | EmptyString => EmptyString
  | String c r =>
      if negb (no_char sep r) then String c (rsplit1_head sep r)
      else if Ascii.eqb c sep then EmptyString
      else s
  end.

(** Where the calls are read from and where the CSV text goes. A path
    stands for the [Path] the source builds from the text, so two of them
    name the same path when their texts have the same parts
    ([Path.parts] below), not only when the texts are the same. *)
Inductive input : Type :=
| Stdin
| InPath (p : string).

Inductive output : Type :=
| Stdout
| OutPath (p : string).

(** [not output] for the value of [--output]: not given, or empty. *)
Definition not_given (o : option string) : bool :=
  match o with
  | None => true
  | Some p => String.eqb p ""
  end.

(** The two arguments [infile] and [output] that the command line hands
    to [convert_to_csv], from the positional argument and the value of
    [--output]. *)
Definition io (infile : string) (out : option string) : input * output :=
  let '(out, infile') :=
    if String.eqb infile "-" then (out, Stdin)
    else
      (if not_given out then Some (rsplit1_head "." infile ++ ".csv") else out,
       InPath infile) in
  (infile',
   match out with
   | None => Stdout
   | Some p => if String.eqb p "" || String.eqb p "-" then Stdout else OutPath p
   end).

End Cli.

(** ** Paths *)

(** [pathlib.PurePosixPath]: what [Path(s)] keeps of the text [s]. Two
    paths are equal when their parts are. *)
Module Path.

Fixpoint leading_slashes (s : string) : nat :=
  match s with
  | EmptyString => 0
  | String c r => if Ascii.eqb c "/" then S (leading_slashes r) else 0
  end.

(** The root: none for a relative path, [//] for exactly two leading
    slashes, [/] for any other number of them. *)
Definition root (s : string) : list string :=
  match leading_slashes s with
  | 0%nat => []
  | 2%nat => ["//"]
  | _ => ["/"]
  end.

(** The pieces between slashes that count: empty pieces and single dots
    are dropped. *)
Definition is_component (x : string) : bool :=
  negb (String.eqb x "") && negb (String.eqb x ".").

Definition parts (s : string) : list string :=
  root s ++ List.filter is_component (PyStr.split "/" s).

End Path.

Example path_parts_ex :
  map Path.parts ["calls.csv"; "calls.csv/"; "./a//b/./calls.json"; "//a"; "///a/"; ""]
  = [["calls.csv"]; ["calls.csv"]; ["a"; "b"; "calls.json"]; ["//"; "a"]; ["/"; "a"]; []].
Proof. vm_compute. reflexivity. Qed.

Example io_ex :
  map (fun '(i, o) => Cli.io i o)
      [("calls.json", None); ("a.b/calls", None); ("calls.json", Some "-");
       ("-", None); ("-", Some "out.csv"); (".json", Some "")]
  = [(Cli.InPath "calls.json", Cli.OutPath "calls.csv");
     (Cli.InPath "a.b/calls", Cli.OutPath "a.csv");
     (Cli.InPath "calls.json", Cli.Stdout);
     (Cli.Stdin, Cli.Stdout); (Cli.Stdin, Cli.OutPath "out.csv");
     (Cli.InPath ".json", Cli.OutPath ".csv")].
Proof. vm_compute. reflexivity. Qed.

Lemma rsplit1_head_spec (sep : ascii) (s : string) :
  (no_char sep s = true /\ Cli.rsplit1_head sep s = s)
  \/ (exists ext, no_char sep ext = true
                  /\ s = Cli.rsplit1_head sep s ++ String sep ext).
Proof.
  induction s as [|c r IH]; [left; split; reflexivity|].
  cbn [Cli.rsplit1_head no_char].
  destruct (no_char sep r) eqn:Hr; cbn [negb].
  - destruct (Ascii.eqb_spec c sep) as [->|Hne]; cbn [negb andb].
    + right. exists r. split; [exact Hr | reflexivity].
    + left. split; reflexivity.
  - right. destruct IH as [[Hno _]|(ext & Hext & Heq)]; [congruence|].
    exists ext. split; [exact Hext|]. rewrite app_cons, <- Heq. reflexivity.
Qed.

Lemma rsplit1_head_app (sep : ascii) (x ext : string) :
  no_char sep ext = true -> Cli.rsplit1_head sep (x ++ String sep ext) = x.
Proof.
  intros Hext. induction x as [|c r IH].
  - rewrite app_empty. cbn [Cli.rsplit1_head]. rewrite Hext, Ascii.eqb_refl. reflexivity.
  - rewrite app_cons. cbn [Cli.rsplit1_head].
    rewrite no_char_app. cbn [no_char]. rewrite Ascii.eqb_refl.
    cbn [negb andb]. rewrite andb_false_r. cbn [negb]. rewrite IH. reflexivity.
Qed.

Lemma csv_path_not_stdout (stem : string) :
  String.eqb (stem ++ ".csv") "" || String.eqb (stem ++ ".csv") "-" = false.
Proof.
  destruct stem as [|c [|c' r]]; [reflexivity | | ].
  - rewrite app_cons, app_empty. cbn [String.eqb].
    destruct (Ascii.eqb c "-"); reflexivity.
  - rewrite !app_cons. cbn [String.eqb].
    destruct (Ascii.eqb c "-"); reflexivity.
Qed.

(** X17. With an input file and no [--output] (or an empty one) the CSV
    text always goes to a file, never to the standard output: the file is
    named by the input path up to its last dot, or by all of it when it
    holds no dot, followed by [.csv]. *)
Theorem default_output_is_a_file (infile : string) (out : option string) :
  infile <> "-" ->
  Cli.not_given out = true ->
  exists stem,
    Cli.io infile out = (Cli.InPath infile, Cli.OutPath (stem ++ ".csv"))
    /\ ((no_char "." infile = true /\ stem = infile)
        \/ exists ext, no_char "." ext = true /\ infile = stem ++ "." ++ ext).
Proof.
  intros Hin Hout. exists (Cli.rsplit1_head "." infile). split.
  - unfold Cli.io. apply String.eqb_neq in Hin. rewrite Hin, Hout.
    rewrite csv_path_not_stdout. reflexivity.
  - destruct (rsplit1_head_spec "." infile) as [[Hno Heq]|(ext & Hext & Heq)].
    + left. split; assumption.
    + right. exists ext. split; [exact Hext | exact Heq].
Qed.

Lemma default_output_is_a_file_witness :
  exists stem,
    Cli.io "calls.2024.json" None
    = (Cli.InPath "calls.2024.json", Cli.OutPath (stem ++ ".csv"))
    /\ ((no_char "." "calls.2024.json" = true /\ stem = "calls.2024.json")
        \/ exists ext, no_char "." ext = true
                       /\ "calls.2024.json" = stem ++ "." ++ ext).
Proof.
  apply (default_output_is_a_file "calls.2024.json" None).
  - discriminate.
  - reflexivity.
Defined.

Lemma split_nonempty (c : ascii) (s : string) : PyStr.split c s <> [].
Proof.
  destruct s as [|x r]; [discriminate|]. cbn [PyStr.split].
  destruct (Ascii.eqb x c); [discriminate|].
  destruct (PyStr.split c r); discriminate.
Qed.

(** The pieces of a text that goes on: those of the text, the last of
    them running into the first piece of what follows. *)
Lemma split_app_last (c : ascii) (a : string) :
  exists (I : list string) (l : string),
    forall b h t, PyStr.split c b = h :: t ->
                  PyStr.split c (a ++ b) = (I ++ (l ++ h)%string :: t)%list.
Proof.
  induction a as [|x r (I & l & IH)].
  - exists [], "". intros b h t Hb. rewrite app_empty. exact Hb.
  - destruct (Ascii.eqb x c) eqn:Hx.
    + exists ("" :: I)%list, l. intros b h t Hb.
      rewrite app_cons. cbn [PyStr.split]. rewrite Hx, (IH _ _ _ Hb). reflexivity.
    + destruct I as [|i0 I0].
      * exists [], (String x l). intros b h t Hb.
        rewrite app_cons. cbn [PyStr.split]. rewrite Hx, (IH _ _ _ Hb). reflexivity.
      * exists (String x i0 :: I0)%list, l. intros b h t Hb.
        rewrite app_cons. cbn [PyStr.split]. rewrite Hx, (IH _ _ _ Hb). reflexivity.
Qed.

Lemma leading_slashes_dot (a r : string) :
  Path.leading_slashes (a ++ String "." r) = Path.leading_slashes a.
Proof.
  induction a as [|x a IH]; [reflexivity|].
  rewrite app_cons. cbn [Path.leading_slashes]. rewrite IH. reflexivity.
Qed.

Lemma split_no_char (c d : ascii) (s : string) :
  no_char d s = true -> Forall (fun x => no_char d x = true) (PyStr.split c s).
Proof.
  induction s as [|x r IH]; intros Hs.
  - constructor; [reflexivity | constructor].
  - cbn [no_char] in Hs. apply andb_true_iff in Hs as [Hx Hr].
    specialize (IH Hr). cbn [PyStr.split].
    destruct (Ascii.eqb x c).
    + constructor; [reflexivity | exact IH].
    + destruct (PyStr.split c r) as [|w ws].
      * constructor; [cbn [no_char]; rewrite Hx; reflexivity | constructor].
      * inversion IH as [|? ? Hw Hws]; subst.
        constructor; [cbn [no_char]; rewrite Hx, Hw; reflexivity | exact Hws].
Qed.

(** A text whose pieces after the first are all empty ends in
    separators. *)
Lemma split_trailing (c : ascii) (s w : string) (ws : list string) :
  PyStr.split c s = w :: ws ->
  Forall (fun x => x = "") ws ->
  s = w ++ PyStr.repeat_char c (length ws).
Proof.
  revert w ws. induction s as [|x r IH]; intros w ws Hs Hall.
  - injection Hs as <- <-. reflexivity.
  - cbn [PyStr.split] in Hs. destruct (Ascii.eqb_spec x c) as [->|Hne].
    + injection Hs as <- <-.
      destruct (PyStr.split c r) as [|w' ws'] eqn:Hr; [destruct (split_nonempty c r Hr)|].
      inversion Hall as [|? ? Hw' Hws']; subst.
      rewrite (IH _ _ eq_refl Hws') at 1. reflexivity.
    + destruct (PyStr.split c r) as [|w' ws'] eqn:Hr; [destruct (split_nonempty c r Hr)|].
      injection Hs as <- <-. rewrite (IH _ _ eq_refl Hall) at 1. reflexivity.
Qed.

Lemma split_repeat (c : ascii) (w : string) (n : nat) :
  no_char c w = true ->
  PyStr.split c (w ++ PyStr.repeat_char c n) = w :: repeat "" n.
Proof.
  intros Hw. destruct n as [|n].
  - cbn [PyStr.repeat_char repeat]. rewrite append_empty_r. apply split_no_sep. exact Hw.
  - cbn [PyStr.repeat_char]. rewrite (split_app_sep c w _ Hw). f_equal.
    induction n as [|n IH]; cbn [PyStr.repeat_char repeat PyStr.split].
    + reflexivity.
    + rewrite Ascii.eqb_refl, IH. reflexivity.
Qed.

Lemma no_char_repeat (c d : ascii) (n : nat) :
  Ascii.eqb c d = false -> no_char d (PyStr.repeat_char c n) = true.
Proof.
  intros Hcd. induction n as [|n IH]; [reflexivity|].
  cbn [PyStr.repeat_char no_char]. rewrite Hcd, IH. reflexivity.
Qed.

Lemma filter_empty_pieces (n : nat) :
  List.filter Path.is_component (repeat "" n) = [].
Proof. induction n as [|n IH]; [reflexivity | exact IH]. Qed.

Lemma no_dot_component (x : string) :
  no_char "." x = true -> Path.is_component x = negb (String.eqb x "").
Proof.
  intros Hx. unfold Path.is_component.
  destruct x as [|a [|b r]]; [reflexivity | | ].
  - cbn [no_char] in Hx. apply andb_true_iff in Hx as [Ha _].
    cbn [String.eqb]. apply negb_true_iff in Ha. rewrite Ha. reflexivity.
  - cbn [String.eqb]. destruct (Ascii.eqb a "."); reflexivity.
Qed.

Lemma filter_no_dot_nil (ws : list string) :
  Forall (fun x => no_char "." x = true) ws ->
  List.filter Path.is_component ws = [] ->
  Forall (fun x => x = "") ws.
Proof.
  induction 1 as [|x ws Hx _ IH]; [constructor|].
  cbn [List.filter]. rewrite (no_dot_component x Hx).
  destruct (String.eqb_spec x "") as [->|Hne]; cbn [negb]; [|discriminate].
  intros H. constructor; [reflexivity | exact (IH H)].
Qed.

Lemma filter_no_dot_in (ws : list string) (x : string) :
  Forall (fun x => no_char "." x = true) ws ->
  In x (List.filter Path.is_component ws) -> no_char "." x = true.
Proof.
  intros Hall [Hin _]%filter_In. rewrite List.Forall_forall in Hall.
  apply Hall. exact Hin.
Qed.

Lemma csv_component (l : string) : Path.is_component (l ++ ".csv") = true.
Proof.
  destruct l as [|a [|b r]]; [reflexivity | | ].
  - rewrite app_cons, app_empty. unfold Path.is_component. cbn [String.eqb].
    destruct (Ascii.eqb a "."); reflexivity.
  - rewrite !app_cons. unfold Path.is_component. cbn [String.eqb].
    destruct (Ascii.eqb a "."); reflexivity.
Qed.

Lemma append_inv_head (l a b : string) : l ++ a = l ++ b -> a = b.
Proof.
  induction l as [|x l IH]; [rewrite !app_empty; auto|].
  rewrite !app_cons. intros H. injection H as H. exact (IH H).
Qed.

Lemma dot_piece_component (l w : string) :
  Path.is_component (l ++ String "." w) = false -> l = "" /\ w = "".
Proof.
  unfold Path.is_component. destruct l as [|a l].
  - rewrite app_empty. cbn [String.eqb]. destruct w; [split; reflexivity|].
    cbn. discriminate.
  - rewrite app_cons. cbn [String.eqb]. destruct (Ascii.eqb a ".").
    + destruct l; rewrite ?app_empty, ?app_cons; cbn; discriminate.
    + cbn. discriminate.
Qed.

(** The default output as a path, against the input as a path. *)
Lemma csv_path_parts (infile : string) :
  Path.parts (Cli.rsplit1_head "." infile ++ ".csv") = Path.parts infile
  <-> exists x n, infile = x ++ ".csv" ++ PyStr.repeat_char "/" n.
Proof.
  set (stem := Cli.rsplit1_head "." infile).
  destruct (split_app_last "/" stem) as (I & l & Hsplit).
  assert (Hout : Path.parts (stem ++ ".csv")
                 = (Path.root stem ++ List.filter Path.is_component I ++ [(l ++ ".csv")%string])%list).
  { unfold Path.parts, Path.root.
    change (stem ++ ".csv") with (stem ++ String "." "csv").
    rewrite leading_slashes_dot. f_equal.
    rewrite (Hsplit (String "." "csv") ".csv" [] eq_refl).
    rewrite List.filter_app. cbn [List.filter]. rewrite csv_component. reflexivity. }
  rewrite Hout.
  destruct (rsplit1_head_spec "." infile) as [[Hno Heq]|(ext & Hext & Heq)];
    fold stem in Heq.
  - (* no dot in the input *)
    split.
    + intros H. exfalso. rewrite Heq in H, Hsplit.
      unfold Path.parts in H. apply app_inv_head in H.
      pose proof (Hsplit "" "" [] eq_refl) as Hin.
      rewrite !append_empty_r in Hin. rewrite Hin, List.filter_app in H.
      apply app_inv_head in H. cbn [List.filter] in H.
      destruct (Path.is_component l); [|discriminate].
      injection H as H. apply (f_equal String.length) in H.
      rewrite length_app_str in H. cbn in H. lia.
    + intros (x & n & ->). exfalso.
      rewrite no_char_app in Hno. apply andb_true_iff in Hno as [_ Hno].
      discriminate Hno.
  - (* the last dot and what follows it *)
    destruct (PyStr.split "/" ext) as [|w ws] eqn:Hws; [destruct (split_nonempty _ _ Hws)|].
    pose proof (split_no_char "/" "." ext Hext) as Hnodot. rewrite Hws in Hnodot.
    apply Forall_cons_1 in Hnodot as [Hw Hwsd].
    assert (Hdot : PyStr.split "/" (String "." ext) = String "." w :: ws).
    { cbn [PyStr.split]. change (Ascii.eqb "." "/") with false. cbv iota.
      rewrite Hws. reflexivity. }
    assert (Hin : Path.parts infile
                  = (Path.root stem ++ List.filter Path.is_component I
                     ++ List.filter Path.is_component ((l ++ String "." w)%string :: ws))%list).
    { rewrite Heq at 1. unfold Path.parts, Path.root.
      rewrite leading_slashes_dot. f_equal.
      rewrite (Hsplit _ _ _ Hdot). apply List.filter_app. }
    rewrite Hin. split.
    + intros H. apply app_inv_head in H. apply app_inv_head in H.
      cbn [List.filter] in H.
      destruct (Path.is_component (l ++ String "." w)) eqn:Hc.
      * injection H as H1 H2. apply append_inv_head in H1.
        injection H1 as H1. subst w.
        pose proof (filter_no_dot_nil ws Hwsd (eq_sym H2)) as Hempty.
        exists stem, (length ws). rewrite Heq at 1.
        rewrite (split_trailing "/" ext "csv" ws Hws Hempty). reflexivity.
      * exfalso. assert (Hcsv : In (l ++ ".csv") (List.filter Path.is_component ws)).
        { rewrite <- H. left. reflexivity. }
        apply (filter_no_dot_in ws _ Hwsd) in Hcsv.
        rewrite no_char_app in Hcsv. apply andb_true_iff in Hcsv as [_ Hcsv].
        discriminate Hcsv.
    + intros (x & n & Hx).
      assert (Hstem : stem = x).
      { unfold stem. rewrite Hx.
        change (x ++ ".csv" ++ PyStr.repeat_char "/" n)
          with (x ++ String "." ("csv" ++ PyStr.repeat_char "/" n)).
        apply rsplit1_head_app. rewrite no_char_app.
        rewrite (no_char_repeat "/" "." n eq_refl). reflexivity. }
      assert (Hext' : ext = "csv" ++ PyStr.repeat_char "/" n).
      { rewrite Hstem, Hx in Heq.
        change (x ++ ".csv" ++ PyStr.repeat_char "/" n)
          with (x ++ String "." ("csv" ++ PyStr.repeat_char "/" n)) in Heq.
        apply append_inv_head in Heq. injection Heq as Heq. symmetry. exact Heq. }
      rewrite Hext', (split_repeat "/" "csv" n eq_refl) in Hws.
      injection Hws as <- <-.
      cbn [List.filter]. change (l ++ String "." "csv") with (l ++ ".csv").
      rewrite csv_component, filter_empty_pieces. reflexivity.
Qed.

(** X18. With an input file and no [--output], the output path is the
    input path, as [Path] compares the two, exactly when the input ends
    in [.csv] followed by any number of slashes, which [Path] drops; the
    two texts are the same exactly when the input ends in [.csv]. *)
Theorem output_is_input_iff_csv (infile : string) (out : option string) :
  infile <> "-" ->
  Cli.not_given out = true ->
  exists o,
    (Cli.io infile out).2 = Cli.OutPath o
    /\ (Path.parts o = Path.parts infile
        <-> exists x n, infile = x ++ ".csv" ++ PyStr.repeat_char "/" n)
    /\ (o = infile <-> exists x, infile = x ++ ".csv").
Proof.
  intros Hin Hout. exists (Cli.rsplit1_head "." infile ++ ".csv").
  split; [|split].
  - unfold Cli.io. apply String.eqb_neq in Hin. rewrite Hin, Hout.
    rewrite csv_path_not_stdout. reflexivity.
  - apply csv_path_parts.
  - split.
    + intros H. exists (Cli.rsplit1_head "." infile). symmetry. exact H.
    + intros [x ->]. f_equal.
      change (x ++ ".csv") with (x ++ String "." "csv").
      apply rsplit1_head_app. reflexivity.
Qed.

Lemma output_is_input_iff_csv_witness :
  exists o,
    (Cli.io "calls.csv/" None).2 = Cli.OutPath o
    /\ (Path.parts o = Path.parts "calls.csv/"
        <-> exists x n, "calls.csv/" = x ++ ".csv" ++ PyStr.repeat_char "/" n)
    /\ (o = "calls.csv/" <-> exists x, "calls.csv/" = x ++ ".csv").
Proof.
  apply (output_is_input_iff_csv "calls.csv/" None).
  - discriminate.
  - reflexivity.
Defined.

(** The input [calls.csv/] names the file [calls.csv], and so does the
    default output, although the two texts differ. *)
Example trailing_slash_same_path :
  (Cli.io "calls.csv/" None).2 = Cli.OutPath "calls.csv"
  /\ Path.parts "calls.csv" = Path.parts "calls.csv/".
Proof. vm_compute. split; reflexivity. Qed.

(** * The dates of the command line *)

Module Strptime.

(** One alternative of a group of the pattern: a sequence of character
    classes. *)
Definition alternative : Type := list (ascii -> bool).

Definition chr (c : ascii) : ascii -> bool := Ascii.eqb c.

Definition range (lo hi : ascii) (c : ascii) : bool :=
  (nat_of_ascii lo <=? nat_of_ascii c)%nat && (nat_of_ascii c <=? nat_of_ascii hi)%nat.

(** [\d], on ASCII text. *)
Definition digit : ascii -> bool := PyStr.is_digit.

(** The groups that the directives of [%Y-%m-%d] stand for:
    [\d\d\d\d], [1[0-2]|0[1-9]|[1-9]] and
    [3[0-1]|[1-2]\d|0[1-9]|[1-9]| [1-9]]; and the literal dash. *)
Definition Y : list alternative := [[digit; digit; digit; digit]].

Definition m : list alternative :=
  [[chr "1"; range "0" "2"]; [chr "0"; range "1" "9"]; [range "1" "9"]].

Definition d : list alternative :=
  [[chr "3"; range "0" "1"]; [range "1" "2"; digit]; [chr "0"; range "1" "9"];
   [range "1" "9"]; [chr " "; range "1" "9"]].

Definition dash : list alternative := [[chr "-"]].

(** An alternative at the start of a text: the text it matches and the
    rest. *)
Fixpoint match_alt (a : alternative) (s : string) : option (string * string) :=
  match a with
  | [] => Some (EmptyString, s)
  | p :: a' =>
      match s with
      | EmptyString => None
      | String c r =>
          if p c then
            match match_alt a' r with
            | Some (t, r') => Some (String c t, r')
            | None => None
            end
          else None
      end
  end.

(** A sequence of groups at the start of a text, as [re.match] finds it:
    the alternatives of a group are tried in order, and one is kept only
    if the rest of the pattern matches after it. *)
Fixpoint match_groups (gs : list (list alternative)) (s : string)
  : option (list string * string) :=
  match gs with
  | [] => Some ([], s)
  | g :: gs' =>
      (fix try_alts (alts : list alternative) : option (list string * string) :=
         match alts with
         | [] => None
         | a :: alts' =>
             match match_alt a s with
             | Some (t, r) =>
                 match match_groups gs' r with
                 | Some (ts, r') => Some (t :: ts, r')
                 | None => try_alts alts'
                 end
             | None => try_alts alts'
             end
         end) g
  end.

(** [datetime.strptime(s, '%Y-%m-%d').date()] for an ASCII text: the
    pattern must match at the start and leave nothing over; the groups
    are read by [int]; the date must exist. Every failure is a
    [ValueError]. *)
Definition strptime_Ymd (s : string) : result Datetime.date :=
  match match_groups [Y; dash; m; dash; d] s with
  | Some ([y; _; mo; _; dd], rest) =>
      if negb (String.eqb rest "")
      then Raise (ValueError "unconverted data remains")
      else
        match PyStr.int_of_str y, PyStr.int_of_str mo, PyStr.int_of_str dd with
        | Some year, Some month, Some day =>
            if (year <? Datetime.MINYEAR) || (Datetime.MAXYEAR <? year)
            then Raise (ValueError ("year " ++ PyStr.of_Z year ++ " is out of range"))
            else if (month <? 1) || (12 <? month)
            then Raise (ValueError "month must be in 1..12")
            else if (day <? 1) || (Datetime.days_in_month year month <? day)
            then Raise (ValueError "day is out of range for month")
            else Ok (Datetime.mkdate year month day)
        | _, _, _ => Raise (ValueError "invalid literal for int() with base 10")
        end
  | _ => Raise (ValueError "time data does not match format '%Y-%m-%d'")
  end.

End Strptime.

Definition _parse_date (date : string) : result Datetime.date :=
  Strptime.strptime_Ymd date.

Example parse_date_ex :
  map _parse_date ["2024-03-04"; "2024-3-4"; "2024-03- 4"; "2024-02-29"; "0999-12-31"]
  = map Ok [Datetime.mkdate 2024 3 4; Datetime.mkdate 2024 3 4; Datetime.mkdate 2024 3 4;
            Datetime.mkdate 2024 2 29; Datetime.mkdate 999 12 31].
Proof. vm_compute. reflexivity. Qed.

Example parse_date_rejects :
  map (fun s => is_ok (_parse_date s))
      ["2023-02-29"; "2024-13-01"; "2024-1005"; "2024-03-32"; "0000-01-01";
       "24-03-04"; "2024-03-04 "; " 2024-03-04"; "2024/03/04"; "2024-03-04T00:00"; ""]
  = [false; false; false; false; false; false; false; false; false; false; false].
Proof. vm_compute. reflexivity. Qed.

(** ** Reading digits *)

Lemma is_digit_not_space (c : ascii) : PyStr.is_digit c = true -> PyStr.is_space c = false.
Proof.
  unfold PyStr.is_digit, PyStr.is_space. intros H.
  apply andb_true_iff in H as [H1 H2]. apply Nat.leb_le in H1, H2.
  apply orb_false_iff. split.
  - apply Nat.eqb_neq. lia.
  - apply andb_false_iff. right. apply Nat.leb_gt. lia.
Qed.

Lemma rstrip_digits (s : string) : all_digits s = true -> PyStr.rstrip s = s.
Proof.
  induction s as [|c r IH]; [reflexivity|].
  cbn [all_digits PyStr.rstrip]. intros [Hc Hr]%andb_true_iff.
  rewrite (IH Hr). rewrite (is_digit_not_space c Hc).
  destruct r; reflexivity.
Qed.

Lemma literal_digits_all (s : string) :
  all_digits s = true -> PyStr.literal_digits true s = Some s.
Proof.
  induction s as [|c r IH]; [reflexivity|].
  cbn [all_digits PyStr.literal_digits]. intros [Hc Hr]%andb_true_iff.
  rewrite Hc, (IH Hr). reflexivity.
Qed.

Lemma digit_not_sign (c : ascii) :
  PyStr.is_digit c = true -> c <> "-"%char /\ c <> "+"%char.
Proof. intros H. split; intros ->; discriminate H. Qed.

(** [int] of a short text of digits is the number the digits stand for. *)
Lemma int_of_digits (s : string) (v : Z) :
  number s = Some v -> (String.length s <= 4300)%nat -> PyStr.int_of_str s = Some v.
Proof.
  unfold number. destruct (all_digits s) eqn:Hd; [|discriminate].
  destruct s as [|c r]; [discriminate|]. cbn [negb andb String.eqb].
  intros Hv Hlen. pose proof Hd as Hd'. cbn [all_digits] in Hd'.
  apply andb_true_iff in Hd' as [Hc Hr].
  unfold PyStr.int_of_str, PyStr.strip.
  assert (Hl : PyStr.lstrip (String c r) = String c r).
  { cbn [PyStr.lstrip]. rewrite (is_digit_not_space c Hc). reflexivity. }
  rewrite Hl, (rstrip_digits _ Hd).
  destruct (digit_not_sign c Hc) as [Hm Hp].
  assert (Hsign : match String c r with
                  | String "-" r0 => (true, r0)
                  | String "+" r0 => (false, r0)
                  | _ => (false, String c r)
                  end = (false, String c r)).
  { destruct c as [[] [] [] [] [] [] [] []]; try reflexivity; congruence. }
  rewrite Hsign. rewrite Hc.
  assert (Hlit : PyStr.literal_digits false (String c r) = Some (String c r)).
  { cbn [PyStr.literal_digits]. rewrite Hc, (literal_digits_all r Hr). reflexivity. }
  rewrite Hlit.
  assert (Hmax : (PyStr.max_str_digits <? String.length (String c r))%nat = false).
  { apply Nat.ltb_ge. unfold PyStr.max_str_digits. exact Hlen. }
  rewrite Hmax, Hv. reflexivity.
Qed.

(** ** Matching the pattern *)

Fixpoint fits (a : Strptime.alternative) (t : string) : bool :=
  match a, t with
  | [], EmptyString => true
  | p :: a', String c t' => p c && fits a' t'
  | _, _ => false
  end.

Lemma match_alt_spec (a : Strptime.alternative) (s t r : string) :
  Strptime.match_alt a s = Some (t, r) -> s = t ++ r /\ fits a t = true.
Proof.
  revert s t r. induction a as [|p a IH]; intros s t r H.
  - injection H as <- <-. split; reflexivity.
  - destruct s as [|c s]; [discriminate|]. cbn [Strptime.match_alt] in H.
    destruct (p c) eqn:Hp; [|discriminate].
    destruct (Strptime.match_alt a s) as [[t' r']|] eqn:Hm; [|discriminate].
    injection H as <- <-. destruct (IH _ _ _ Hm) as [-> Hfit].
    split; [reflexivity|]. cbn [fits]. rewrite Hp, Hfit. reflexivity.
Qed.

Lemma match_alt_fits (a : Strptime.alternative) (t r : string) :
  fits a t = true -> Strptime.match_alt a (t ++ r) = Some (t, r).
Proof.
  revert t. induction a as [|p a IH]; intros [|c t] H; try discriminate.
  - reflexivity.
  - cbn [fits] in H. apply andb_true_iff in H as [Hp Hfit].
    rewrite app_cons. cbn [Strptime.match_alt]. rewrite Hp, (IH t Hfit). reflexivity.
Qed.

Lemma fits_length (a : Strptime.alternative) (t : string) :
  fits a t = true -> String.length t = length a.
Proof.
  revert t. induction a as [|p a IH]; intros [|c t] H; try discriminate.
  - reflexivity.
  - cbn [fits] in H. apply andb_true_iff in H as [_ Hfit].
    cbn [String.length length]. rewrite (IH t Hfit). reflexivity.
Qed.

(** The pieces of a match: each fits an alternative of its group, and
    together with the rest they make up the text. *)
Lemma match_groups_spec (gs : list (list Strptime.alternative)) (s : string)
      (ts : list string) (r : string) :
  Strptime.match_groups gs s = Some (ts, r) ->
  s = fold_right String.append r ts
  /\ Forall2 (fun g t => exists a, In a g /\ fits a t = true) gs ts.
Proof.
  revert s ts r. induction gs as [|g gs IH]; intros s ts r H.
  - injection H as <- <-. split; [reflexivity | constructor].
  - cbn [Strptime.match_groups] in H.
    assert (Hgen : forall alts,
               (forall a, In a alts -> In a g) ->
               (fix try_alts (alts : list Strptime.alternative)
                  : option (list string * string) :=
                  match alts with
                  | [] => None
                  | a :: alts' =>
                      match Strptime.match_alt a s with
                      | Some (t, r) =>
                          match Strptime.match_groups gs r with
                          | Some (ts, r') => Some (t :: ts, r')
                          | None => try_alts alts'
                          end
                      | None => try_alts alts'
                      end
                  end) alts = Some (ts, r) ->
               s = fold_right String.append r ts
               /\ Forall2 (fun g t => exists a, In a g /\ fits a t = true) (g :: gs) ts).
    { induction alts as [|a alts IHa]; intros Hsub Hrun; [discriminate|].
      destruct (Strptime.match_alt a s) as [[t r0]|] eqn:Ha.
      - destruct (Strptime.match_groups gs r0) as [[ts0 r1]|] eqn:Hg.
        + injection Hrun as <- <-.
          destruct (match_alt_spec _ _ _ _ Ha) as [-> Hfit].
          destruct (IH _ _ _ Hg) as [-> Hall]. split.
          * reflexivity.
          * constructor; [|exact Hall]. exists a. split; [|exact Hfit].
            apply Hsub. left. reflexivity.
        + apply IHa; [|exact Hrun]. intros a' Ha'. apply Hsub. right. exact Ha'.
      - apply IHa; [|exact Hrun]. intros a' Ha'. apply Hsub. right. exact Ha'. }
    apply (Hgen g); [auto | exact H].
Qed.

(** A group of one alternative. *)
Lemma match_groups_single (a : Strptime.alternative)
      (gs : list (list Strptime.alternative)) (s : string) :
  Strptime.match_groups ([a] :: gs) s
  = match Strptime.match_alt a s with
    | Some (t, r) =>
        match Strptime.match_groups gs r with
        | Some (ts, r') => Some (t :: ts, r')
        | None => None
        end
    | None => None
    end.
Proof.
  cbn [Strptime.match_groups].
  destruct (Strptime.match_alt a s) as [[t r]|]; [|reflexivity].
  destruct (Strptime.match_groups gs r) as [[ts r']|]; reflexivity.
Qed.

Lemma number_all_digits (s : string) (v : Z) : number s = Some v -> all_digits s = true.
Proof. unfold number. destruct (all_digits s); [reflexivity | discriminate]. Qed.

Lemma is_digit_cases (c : ascii) :
  PyStr.is_digit c = true ->
  In c ["0"; "1"; "2"; "3"; "4"; "5"; "6"; "7"; "8"; "9"]%char.
Proof.
  destruct c as [[] [] [] [] [] [] [] []]; intros H; try discriminate H;
    cbn [In]; auto 12.
Qed.

(** A text of two digits is the zero-padded text of its number. *)
Lemma two_digits_text (s : string) (v : Z) :
  String.length s = 2%nat -> number s = Some v ->
  0 <= v < 100 /\ s = PyStr.zero_pad 2 v.
Proof.
  intros Hlen Hv. pose proof (number_all_digits _ _ Hv) as Hd.
  destruct s as [|a [|b [|? ?]]]; try discriminate Hlen.
  cbn [all_digits] in Hd. apply andb_true_iff in Hd as [Ha Hb].
  apply andb_true_iff in Hb as [Hb _].
  apply is_digit_cases in Ha, Hb. cbn [In] in Ha, Hb.
  destruct Ha as [<-|[<-|[<-|[<-|[<-|[<-|[<-|[<-|[<-|[<-|[]]]]]]]]]]];
    destruct Hb as [<-|[<-|[<-|[<-|[<-|[<-|[<-|[<-|[<-|[<-|[]]]]]]]]]]];
    vm_compute in Hv; injection Hv as <-; (split; [lia | reflexivity]).
Qed.

Definition month_day_text_ok (mo dd : Z) : bool :=
  match Strptime.match_groups [Strptime.dash; Strptime.m; Strptime.dash; Strptime.d]
          ("-" ++ PyStr.zero_pad 2 mo ++ "-" ++ PyStr.zero_pad 2 dd) with
  | Some ([_; a; _; b], EmptyString) =>
      String.eqb a (PyStr.zero_pad 2 mo) && String.eqb b (PyStr.zero_pad 2 dd)
  | _ => false
  end.

Lemma month_day_text_checked :
  forallb (fun mo => forallb (fun dd => month_day_text_ok (Z.of_nat mo) (Z.of_nat dd))
                             (seq 1 31))
          (seq 1 12) = true.
Proof. vm_compute. reflexivity. Qed.

Lemma month_day_text (mo dd : Z) :
  1 <= mo <= 12 -> 1 <= dd <= 31 ->
  exists x y,
    Strptime.match_groups [Strptime.dash; Strptime.m; Strptime.dash; Strptime.d]
      ("-" ++ PyStr.zero_pad 2 mo ++ "-" ++ PyStr.zero_pad 2 dd)
    = Some ([x; PyStr.zero_pad 2 mo; y; PyStr.zero_pad 2 dd], "").
Proof.
  intros Hm Hd. pose proof month_day_text_checked as Hall.
  rewrite forallb_forall in Hall.
  assert (H1 : In (Z.to_nat mo) (seq 1 12)) by (apply in_seq; lia).
  specialize (Hall _ H1). rewrite forallb_forall in Hall.
  assert (H2 : In (Z.to_nat dd) (seq 1 31)) by (apply in_seq; lia).
  specialize (Hall _ H2). rewrite !Z2Nat.id in Hall by lia.
  unfold month_day_text_ok in Hall.
  destruct (Strptime.match_groups _ _) as [[[|x [|a [|y [|b [|? ?]]]]] [|? ?]]|];
    try discriminate Hall.
  apply andb_true_iff in Hall as [Ha Hb].
  apply String.eqb_eq in Ha, Hb. subst a b. exists x, y. reflexivity.
Qed.

Lemma fits_four_digits (s : string) :
  String.length s = 4%nat -> all_digits s = true ->
  fits [Strptime.digit; Strptime.digit; Strptime.digit; Strptime.digit] s = true.
Proof.
  intros Hlen Hd. destruct s as [|a [|b [|c [|e [|? ?]]]]]; try discriminate Hlen.
  cbn [all_digits] in Hd. cbn [fits]. unfold Strptime.digit. exact Hd.
Qed.

(** X19. A text [YYYY-MM-DD] of four, two and two digits that names a date
    of the calendar is read as that date. *)
Theorem parse_date_reads_iso (ys ms ds : string) (y mo dd : Z) :
  String.length ys = 4%nat -> number ys = Some y ->
  String.length ms = 2%nat -> number ms = Some mo ->
  String.length ds = 2%nat -> number ds = Some dd ->
  valid_date (Datetime.mkdate y mo dd) ->
  _parse_date (ys ++ "-" ++ ms ++ "-" ++ ds) = Ok (Datetime.mkdate y mo dd).
Proof.
  intros Ly Hy Lm Hm Ld Hd (Hyr & Hmr & Hdr).
  cbn [Datetime.dyear Datetime.dmonth Datetime.dday] in Hyr, Hmr, Hdr.
  pose proof (days_in_month_le y mo) as Hle.
  destruct (two_digits_text ms mo Lm Hm) as [_ Ems].
  destruct (two_digits_text ds dd Ld Hd) as [_ Eds].
  destruct (month_day_text mo dd Hmr ltac:(lia)) as (x & z & Htail).
  rewrite <- Ems, <- Eds in Htail.
  unfold _parse_date, Strptime.strptime_Ymd, Strptime.Y.
  rewrite match_groups_single.
  rewrite (match_alt_fits _ ys _ (fits_four_digits ys Ly (number_all_digits _ _ Hy))).
  rewrite Htail. cbn [String.eqb negb].
  rewrite (int_of_digits ys y Hy) by (rewrite Ly; lia).
  rewrite (int_of_digits ms mo Hm) by (rewrite Lm; lia).
  rewrite (int_of_digits ds dd Hd) by (rewrite Ld; lia).
  assert (H1 : (y <? Datetime.MINYEAR) || (Datetime.MAXYEAR <? y) = false).
  { apply orb_false_iff. split; apply Z.ltb_ge; lia. }
  assert (H2 : (mo <? 1) || (12 <? mo) = false).
  { apply orb_false_iff. split; apply Z.ltb_ge; lia. }
  assert (H3 : (dd <? 1) || (Datetime.days_in_month y mo <? dd) = false).
  { apply orb_false_iff. split; apply Z.ltb_ge; lia. }
  rewrite H1, H2, H3. reflexivity.
Qed.

Lemma parse_date_reads_iso_witness :
  _parse_date ("2024" ++ "-" ++ "02" ++ "-" ++ "29") = Ok (Datetime.mkdate 2024 2 29).
Proof.
  apply (parse_date_reads_iso "2024" "02" "29" 2024 2 29); try reflexivity.
  vm_compute. repeat split; discriminate.
Defined.

Lemma fits_dash (t : string) : fits [Strptime.chr "-"] t = true -> t = "-".
Proof.
  destruct t as [|c [|? ?]]; try discriminate.
  - cbn [fits]. rewrite andb_true_r. unfold Strptime.chr.
    intros H. apply Ascii.eqb_eq in H. subst c. reflexivity.
  - cbn [fits]. rewrite andb_false_r. discriminate.
Qed.

(** X20. A text that is accepted has the form of a four-digit year, a dash,
    a month of one or two characters, a dash and a day of one or two
    characters, with nothing before or after; the date returned is a date
    of the calendar, and its year, month and day are the numbers [int]
    reads from the three parts. *)
Theorem parse_date_accepts_only_dates (s : string) (dt : Datetime.date) :
  _parse_date s = Ok dt ->
  valid_date dt
  /\ exists ys ms ds,
      s = ys ++ "-" ++ ms ++ "-" ++ ds
      /\ String.length ys = 4%nat
      /\ (1 <= String.length ms <= 2)%nat
      /\ (1 <= String.length ds <= 2)%nat
      /\ PyStr.int_of_str ys = Some (Datetime.dyear dt)
      /\ PyStr.int_of_str ms = Some (Datetime.dmonth dt)
      /\ PyStr.int_of_str ds = Some (Datetime.dday dt).
Proof.
  unfold _parse_date, Strptime.strptime_Ymd.
  destruct (Strptime.match_groups _ s) as [[ts rest]|] eqn:Hmatch; [|discriminate].
  destruct ts as [|ys [|d1 [|ms [|d2 [|ds [|? ?]]]]]]; try discriminate.
  destruct (String.eqb_spec rest "") as [->|]; [|discriminate]. cbn [negb].
  destruct (PyStr.int_of_str ys) as [year|] eqn:Hy; [|discriminate].
  destruct (PyStr.int_of_str ms) as [month|] eqn:Hm; [|discriminate].
  destruct (PyStr.int_of_str ds) as [day|] eqn:Hd; [|discriminate].
  destruct ((year <? Datetime.MINYEAR) || (Datetime.MAXYEAR <? year)) eqn:H1;
    [discriminate|].
  destruct ((month <? 1) || (12 <? month)) eqn:H2; [discriminate|].
  destruct ((day <? 1) || (Datetime.days_in_month year month <? day)) eqn:H3;
    [discriminate|].
  intros H. injection H as <-.
  apply orb_false_iff in H1 as [H1a H1b], H2 as [H2a H2b], H3 as [H3a H3b].
  apply Z.ltb_ge in H1a, H1b, H2a, H2b, H3a, H3b.
  split; [repeat split; assumption|].
  destruct (match_groups_spec _ _ _ _ Hmatch) as [Hs Hall].
  cbn [fold_right] in Hs. rewrite append_empty_r in Hs.
  inversion Hall as [|gY tY ? ? (aY & HinY & HfY) Hall1]; subst.
  inversion Hall1 as [|g1 t1 ? ? (a1 & Hin1 & Hf1) Hall2]; subst.
  inversion Hall2 as [|gm tm ? ? (am & Hinm & Hfm) Hall3]; subst.
  inversion Hall3 as [|g2 t2 ? ? (a2 & Hin2 & Hf2) Hall4]; subst.
  inversion Hall4 as [|gd td ? ? (ad & Hind & Hfd) _]; subst.
  destruct HinY as [<-|[]]. destruct Hin1 as [<-|[]]. destruct Hin2 as [<-|[]].
  apply fits_dash in Hf1, Hf2. subst d1 d2.
  apply fits_length in HfY, Hfm, Hfd.
  exists ys, ms, ds. split; [reflexivity|]. split; [exact HfY|].
  split.
  { destruct Hinm as [<-|[<-|[<-|[]]]]; cbn [length] in Hfm; lia. }
  split.
  { destruct Hind as [<-|[<-|[<-|[<-|[<-|[]]]]]]; cbn [length] in Hfd; lia. }
  auto.
Qed.

Lemma parse_date_accepts_only_dates_witness :
  valid_date (Datetime.mkdate 2024 3 4)
  /\ exists ys ms ds,
      "2024-3- 4" = ys ++ "-" ++ ms ++ "-" ++ ds
      /\ String.length ys = 4%nat
      /\ (1 <= String.length ms <= 2)%nat
      /\ (1 <= String.length ds <= 2)%nat
      /\ PyStr.int_of_str ys = Some (Datetime.dyear (Datetime.mkdate 2024 3 4))
      /\ PyStr.int_of_str ms = Some (Datetime.dmonth (Datetime.mkdate 2024 3 4))
      /\ PyStr.int_of_str ds = Some (Datetime.dday (Datetime.mkdate 2024 3 4)).
Proof.
  apply (parse_date_accepts_only_dates "2024-3- 4" (Datetime.mkdate 2024 3 4)).
  vm_compute. reflexivity.
Defined.
